(** * ap-rewind: the shared browser helpers (cookies, cooldown, unlock state,
      password check) and the final-key page, embedded in Rocq.

    The JavaScript is translated function by function.  What the browser
    provides (the [document.cookie] accessor, [Date], [parseInt],
    [localStorage], [JSON], timers, [fetch]) is modelled next to it, in
    modules of its own, so that the program text and the runtime it runs on
    stay apart.

    Conventions of the model:
    - a JavaScript string is the [string] of its UTF-8 bytes, so a
      character outside ASCII takes two to four bytes;
    - a JavaScript number that holds a time or a count is an integer [Z]
      (milliseconds since the epoch, seconds of cooldown); the integers
      the theorems speak of are time values, at most 8.64e15 in magnitude,
      on which the arithmetic of the code (on doubles) is exact;
    - [Date.now()] reads the [clock] field of the world, which does not move
      while a function of the program runs. *)

From Stdlib Require Import ZArith String Ascii List Bool Lia.
From stdpp Require Import base gmap strings.

#[local] Open Scope Z_scope.
#[local] Set Warnings "-register-all".
#[local] Arguments String.append : simpl nomatch.

(* ===================================================================== *)
(** ** Strings: the [String.prototype] methods the program calls *)
(* ===================================================================== *)

Module JsString.

(** The white space of one byte: TAB, LF, VT, FF, CR and SPACE. *)
Definition is_white_space (c : ascii) : bool :=
  match c with
  | "009" | "010" | "011" | "012" | "013" | " " => true
  | _ => false
  end%char.

(** [s] is one white-space character as [trim] and [parseInt] see it
    (WhiteSpace and LineTerminator of ECMAScript), in UTF-8: the six of one
    byte, U+00A0, U+1680, U+2000 to U+200A, U+2028, U+2029, U+202F, U+205F,
    U+3000 and U+FEFF. *)
Definition white_space (s : string) : bool :=
  match s with
  | String c EmptyString => is_white_space c
  | String "194" (String "160" EmptyString) => true                    (* U+00A0 *)
  | String "225" (String "154" (String "128" EmptyString)) => true     (* U+1680 *)
  | String "226" (String "128" (String c EmptyString)) =>
      let n := N_of_ascii c in                          (* U+2000 to U+200A, *)
      ((128 <=? n) && (n <=? 138)                       (* U+2028, U+2029, U+202F *)
       || (n =? 168) || (n =? 169) || (n =? 175))%N
  | String "226" (String "129" (String "159" EmptyString)) => true     (* U+205F *)
  | String "227" (String "128" (String "128" EmptyString)) => true     (* U+3000 *)
  | String "239" (String "187" (String "191" EmptyString)) => true     (* U+FEFF *)
  | _ => false
  end%char.

(** The rest of [s] after the white-space character it starts with. *)
Definition white_space_head (s : string) : option string :=
  match s with
  | String a r1 =>
      if white_space (String a EmptyString) then Some r1
      else
        match r1 with
        | String b r2 =>
            if white_space (String a (String b EmptyString)) then Some r2
            else
              match r2 with
              | String c r3 =>
                  if white_space (String a (String b (String c EmptyString)))
                  then Some r3 else None
              | EmptyString => None
              end
        | EmptyString => None
        end
  | EmptyString => None
  end.

(** Removal of the characters satisfying [p] from the head and from the
    tail of a string. *)
Fixpoint strip_start (p : ascii -> bool) (s : string) : string :=
  match s with
  | EmptyString => EmptyString
  | String c r => if p c then strip_start p r else s
  end.

Fixpoint strip_end (p : ascii -> bool) (s : string) : string :=
  match s with
  | EmptyString => EmptyString
  | String c r =>
      match strip_end p r with
      | EmptyString => if p c then EmptyString else String c EmptyString
      | r' => String c r'
      end
  end.

Definition strip (p : ascii -> bool) (s : string) : string :=
  strip_end p (strip_start p s).

(** White space taken from the head of [s], at most [fuel] characters of
    it; the length of [s] is fuel enough. *)
Fixpoint trimStart_from (fuel : nat) (s : string) : string :=
  match fuel with
  | O => s
  | S f =>
      match white_space_head s with
      | Some r => trimStart_from f r
      | None => s
      end
  end.

(** What [parseInt] skips, and [s.trimStart()] *)
Definition trimStart (s : string) : string := trimStart_from (String.length s) s.

(** White space taken from the tail of [s]. *)
Fixpoint trimEnd (s : string) : string :=
  match s with
  | EmptyString => EmptyString
  | String c r =>
      let t := String c (trimEnd r) in
      if white_space t then EmptyString else t
  end.

(** [s.trim()] *)
Definition trim (s : string) : string := trimEnd (trimStart s).

(** [s] starts, ends with a white-space character. *)
Definition starts_with_white_space (s : string) : bool :=
  match white_space_head s with
  | Some _ => true
  | None => false
  end.

Fixpoint ends_with_white_space (s : string) : bool :=
  match s with
  | EmptyString => false
  | String _ r => white_space s || ends_with_white_space r
  end.

(** A byte that is white space or belongs to a character outside ASCII. *)
Definition is_space_or_high (c : ascii) : bool :=
  is_white_space c || (127 <? N_of_ascii c)%N.

(** [s.split(sep)] for a one-character separator; the empty string splits
    into one empty piece. *)
Fixpoint split (sep : ascii) (s : string) : list string :=
  match s with
  | EmptyString => [EmptyString]
  | String c r =>
      if Ascii.eqb c sep then EmptyString :: split sep r
      else match split sep r with
           | [] => [String c EmptyString]
           | piece :: pieces => String c piece :: pieces
           end
  end.

(** The two sides of the first occurrence of [sep] in [s], if any. *)
Fixpoint cut (sep : ascii) (s : string) : option (string * string) :=
  match s with
  | EmptyString => None
  | String c r =>
      if Ascii.eqb c sep then Some (EmptyString, r)
      else match cut sep r with
           | Some (a, b) => Some (String c a, b)
           | None => None
           end
  end.

(** [s.indexOf(needle)], scanning from position [i]; -1 when absent. *)
Fixpoint indexOf_from (needle s : string) (i : Z) : Z :=
  if String.prefix needle s then i
  else match s with
       | EmptyString => -1
       | String _ r => indexOf_from needle r (i + 1)
       end.

Definition indexOf (s needle : string) : Z := indexOf_from needle s 0.

(** [s.substring(n)] for [0 <= n]: the string without its first [n]
    characters. *)
Fixpoint substring_from (n : nat) (s : string) : string :=
  match n, s with
  | O, _ => s
  | S n', String _ r => substring_from n' r
  | S _, EmptyString => EmptyString
  end.

(** A string is truthy when it is not empty. *)
Definition truthy (s : string) : bool :=
  match s with EmptyString => false | String _ _ => true end.

(** [a === b] on two strings. *)
Definition strict_eq (a b : string) : bool := String.eqb a b.

(** [pieces.join(sep)] *)
Fixpoint join (sep : string) (pieces : list string) : string :=
  match pieces with
  | [] => EmptyString
  | [p] => p
  | p :: ps => p +:+ sep +:+ join sep ps
  end.

Fixpoint all_chars (p : ascii -> bool) (s : string) : bool :=
  match s with
  | EmptyString => true
  | String c r => p c && all_chars p r
  end.

(** [sep] does not occur in [s]. *)
Definition lacks (sep : ascii) (s : string) : bool :=
  all_chars (fun c => negb (Ascii.eqb c sep)) s.

(** The first, the last character of [s] satisfies [p]. *)
Definition starts_with (p : ascii -> bool) (s : string) : bool :=
  match s with
  | EmptyString => false
  | String c _ => p c
  end.

Fixpoint ends_with (p : ascii -> bool) (s : string) : bool :=
  match s with
  | EmptyString => false
  | String c EmptyString => p c
  | String _ r => ends_with p r
  end.

Definition lower (c : ascii) : ascii :=
  let n := N_of_ascii c in
  if ((65 <=? n) && (n <=? 90))%N then ascii_of_N (n + 32) else c.

(** [s.toLowerCase()] on the ASCII range *)
Fixpoint toLowerCase (s : string) : string :=
  match s with
  | EmptyString => EmptyString
  | String c r => String (lower c) (toLowerCase r)
  end.

End JsString.

(* ===================================================================== *)
(** ** Numbers: [String(n)] for an integer and [parseInt] *)
(* ===================================================================== *)

Module JsNumber.

Definition digit_char (d : Z) : ascii :=
  ascii_of_N (Z.to_N (48 + d)).

Definition is_digit (c : ascii) : bool :=
  let n := N_of_ascii c in ((48 <=? n) && (n <=? 57))%N.

(** The value of a character as a digit in the given radix. *)
Definition digit_value (radix : Z) (c : ascii) : option Z :=
  let n := Z.of_N (N_of_ascii c) in
  let v := if (48 <=? n) && (n <=? 57) then n - 48
           else if (97 <=? n) && (n <=? 122) then n - 87
           else if (65 <=? n) && (n <=? 90) then n - 55
           else radix in
  if v <? radix then Some v else None.

(** Decimal digits of a non-negative integer, most significant first;
    [fuel] bounds the number of digits written. *)
Fixpoint digits (fuel : nat) (n : Z) : string :=
  match fuel with
  | O => EmptyString
  | S f =>
      (if n <? 10 then EmptyString else digits f (n / 10))
      +:+ String (digit_char (n mod 10)) EmptyString
  end.

(** [String(n)] (also what a template literal does) for an integer [n]:
    below 10^21 in magnitude JavaScript prints plain decimal digits, at
    most 21 of them.  Larger magnitudes (printed with an exponent) are
    outside the model. *)
Definition toString (n : Z) : string :=
  if n <? 0 then String "-" (digits 21 (- n)) else digits 21 n.

(** The integer read from the longest run of digits at the head of [s]. *)
Fixpoint digits_value (radix : Z) (s : string) (acc : Z) : Z :=
  match s with
  | EmptyString => acc
  | String c r =>
      match digit_value radix c with
      | Some v => digits_value radix r (radix * acc + v)
      | None => acc
      end
  end.

Definition parse_digits (radix : Z) (s : string) : option Z :=
  match s with
  | EmptyString => None
  | String c _ =>
      match digit_value radix c with
      | Some _ => Some (digits_value radix s 0)
      | None => None
      end
  end.

Definition strip_hex_prefix (s : string) : option string :=
  match s with
  | String "0" (String "x" r) => Some r
  | String "0" (String "X" r) => Some r
  | _ => None
  end.

(** [parseInt(s)] with no radix argument: leading white space is skipped,
    a sign is read, a [0x] prefix switches to hexadecimal, then the longest
    run of digits is read.  [None] is NaN; [Some n] is the integer the
    digits denote, which is the number the code gets as long as [n] is at
    most 2^53 in magnitude (beyond, the code gets the nearest double). *)
Definition parseInt (s : string) : option Z :=
  let s1 := JsString.trimStart s in
  let '(sign, s2) :=
    match s1 with
    | String "-" r => (-1, r)
    | String "+" r => (1, r)
    | _ => (1, s1)
    end in
  let '(radix, s3) :=
    match strip_hex_prefix s2 with
    | Some r => (16, r)
    | None => (10, s2)
    end in
  match parse_digits radix s3 with
  | Some v => Some (sign * v)
  | None => None
  end.

(** [Math.ceil(n / d)] for integers [n] and [d > 0]. *)
Definition ceil_div (n d : Z) : Z := - ((- n) / d).

End JsNumber.

(* ===================================================================== *)
(** ** Dates: [Date.prototype.toUTCString] and the cookie store's reading
       of an [expires] date *)
(* ===================================================================== *)

Module JsDate.

(** The largest time value a [Date] can hold; beyond it the date is
    invalid (its time value is NaN). *)
Definition max_time : Z := 8640000000000000.

(** [TimeClip]: [None] is the invalid date. *)
Definition time_clip (t : Z) : option Z :=
  if Z.abs t <=? max_time then Some t else None.

(** Year, month (1..12) and day of the month of a day number counted from
    1970-01-01, in the proleptic Gregorian calendar. *)
Definition civil_from_days (days : Z) : Z * Z * Z :=
  let z := days + 719468 in
  let era := z / 146097 in
  let doe := z - era * 146097 in
  let yoe := (doe - doe / 1460 + doe / 36524 - doe / 146096) / 365 in
  let doy := doe - (365 * yoe + yoe / 4 - yoe / 100) in
  let mp := (5 * doy + 2) / 153 in
  let d := doy - (153 * mp + 2) / 5 + 1 in
  let m := if mp <? 10 then mp + 3 else mp - 9 in
  let y := yoe + era * 400 + (if m <=? 2 then 1 else 0) in
  (y, m, d).

(** The day number of a civil date. *)
Definition days_from_civil (y m d : Z) : Z :=
  let y' := y - (if m <=? 2 then 1 else 0) in
  let era := y' / 400 in
  let yoe := y' - era * 400 in
  let mp := if 2 <? m then m - 3 else m + 9 in
  let doy := (153 * mp + 2) / 5 + d - 1 in
  let doe := yoe * 365 + yoe / 4 - yoe / 100 + doy in
  era * 146097 + doe - 719468.

Definition weekday_name (w : Z) : string :=
  match w with
  | 0 => "Sun" | 1 => "Mon" | 2 => "Tue" | 3 => "Wed"
  | 4 => "Thu" | 5 => "Fri" | _ => "Sat"
  end.

Definition month_name (m : Z) : string :=
  match m with
  | 1 => "Jan" | 2 => "Feb" | 3 => "Mar" | 4 => "Apr"
  | 5 => "May" | 6 => "Jun" | 7 => "Jul" | 8 => "Aug"
  | 9 => "Sep" | 10 => "Oct" | 11 => "Nov" | _ => "Dec"
  end.

Definition pad2 (n : Z) : string :=
  String (JsNumber.digit_char (n / 10))
    (String (JsNumber.digit_char (n mod 10)) EmptyString).

(** [StringPad(s, 4, "0", start)] *)
Definition pad4 (s : string) : string :=
  String.concat EmptyString (repeat "0"%string (4 - String.length s)) +:+ s.

Definition year_string (y : Z) : string :=
  (if y <? 0 then "-" else EmptyString) +:+ pad4 (JsNumber.digits 21 (Z.abs y)).

(** [date.toUTCString()] of a date whose time value is [tv]:
    [Www, DD Mon YYYY HH:MM:SS GMT], to the second. *)
Definition toUTCString (tv : option Z) : string :=
  match tv with
  | None => "Invalid Date"
  | Some t =>
      let day := t / 86400000 in
      let in_day := t mod 86400000 in
      let '(y, m, d) := civil_from_days day in
      weekday_name ((day + 4) mod 7) +:+ ", " +:+ pad2 d +:+ " "
      +:+ month_name m +:+ " " +:+ year_string y +:+ " "
      +:+ pad2 (in_day / 3600000) +:+ ":"
      +:+ pad2 (in_day mod 3600000 / 60000) +:+ ":"
      +:+ pad2 (in_day mod 60000 / 1000) +:+ " GMT"
  end.

(** *** The cookie store's date reader

    The program writes two kinds of [expires] dates: a [toUTCString]
    result and the literal [Thu, 01 Jan 1970 00:00:00 UTC].  Both have the
    fixed-width layout [Www, DD Mon YYYY HH:MM:SS zone].  The reader below
    reads that layout with the rules of RFC 6265 section 5.1.1 (the
    weekday and the zone are not looked at, the month is matched without
    regard to case, a year below 1601 is refused); any other text is not a
    date. *)

Definition month_of_name (a b c : ascii) : option Z :=
  let name := JsString.toLowerCase (String a (String b (String c EmptyString))) in
  if String.eqb name "jan" then Some 1 else
  if String.eqb name "feb" then Some 2 else
  if String.eqb name "mar" then Some 3 else
  if String.eqb name "apr" then Some 4 else
  if String.eqb name "may" then Some 5 else
  if String.eqb name "jun" then Some 6 else
  if String.eqb name "jul" then Some 7 else
  if String.eqb name "aug" then Some 8 else
  if String.eqb name "sep" then Some 9 else
  if String.eqb name "oct" then Some 10 else
  if String.eqb name "nov" then Some 11 else
  if String.eqb name "dec" then Some 12 else None.

Definition number2 (a b : ascii) : option Z :=
  match JsNumber.digit_value 10 a, JsNumber.digit_value 10 b with
  | Some x, Some y => Some (10 * x + y)
  | _, _ => None
  end.

Definition number4 (a b c d : ascii) : option Z :=
  match number2 a b, number2 c d with
  | Some x, Some y => Some (100 * x + y)
  | _, _ => None
  end.

(** Milliseconds since the epoch of a date made of its fields, when the
    fields are in range. *)
Definition time_of_fields (day month year hour minute second : Z) : option Z :=
  let year := if (70 <=? year) && (year <=? 99) then year + 1900
              else if (0 <=? year) && (year <=? 69) then year + 2000
              else year in
  if (1 <=? day) && (day <=? 31) && (1601 <=? year)
     && (hour <=? 23) && (minute <=? 59) && (second <=? 59)
  then Some (((days_from_civil year month day * 24 + hour) * 60 + minute) * 60000
             + second * 1000)
  else None.

Definition parse_cookie_date (s : string) : option Z :=
  match list_ascii_of_string s with
  | _ :: _ :: _ :: c1 :: c2 :: d1 :: d2 :: c3 :: m1 :: m2 :: m3 :: c4
    :: y1 :: y2 :: y3 :: y4 :: c5 :: h1 :: h2 :: c6 :: n1 :: n2 :: c7
    :: s1 :: s2 :: _zone =>
      if forallb (Ascii.eqb " ") [c2; c3; c4; c5]
         && Ascii.eqb c1 "," && forallb (Ascii.eqb ":") [c6; c7]
      then
        match number2 d1 d2, month_of_name m1 m2 m3, number4 y1 y2 y3 y4,
              number2 h1 h2, number2 n1 n2, number2 s1 s2 with
        | Some day, Some month, Some year, Some hour, Some minute, Some second =>
            time_of_fields day month year hour minute second
        | _, _, _, _, _, _ => None
        end
      else None
  | _ => None
  end.

(** *** For the theorems: an era of the calendar, day by day, and the
    text of a date character by character *)

(** The calendar fields of a day of the 400-year era, as
    [civil_from_days] computes them. *)
Definition era_fields (doe : Z) : Z * Z * Z * Z * Z :=
  let yoe := (doe - doe / 1460 + doe / 36524 - doe / 146096) / 365 in
  let doy := doe - (365 * yoe + yoe / 4 - yoe / 100) in
  let mp := (5 * doy + 2) / 153 in
  let d := doy - (153 * mp + 2) / 5 + 1 in
  let m := if mp <? 10 then mp + 3 else mp - 9 in
  (yoe, doy, mp, d, m).

(** What [days_from_civil] needs of these fields to lead back to the day,
    checked on one day. *)
Definition era_day_ok (doe : Z) : bool :=
  let '(yoe, doy, mp, d, m) := era_fields doe in
  let carry := if m <=? 2 then 1 else 0 in
  (0 <=? yoe) && (yoe + carry <=? 400) && (yoe <? 400)
  && (1 <=? m) && (m <=? 12) && (1 <=? d) && (d <=? 31)
  && ((if 2 <? m then m - 3 else m + 9) =? mp)
  && ((153 * mp + 2) / 5 + d - 1 =? doy)
  && (yoe * 365 + yoe / 4 - yoe / 100 + doy =? doe)
  && ((doe <? 135080) || (370 <=? yoe + carry))
  && ((146037 <=? doe) || (yoe + carry <=? 399)).

(** [f] holds on the [n] integers from [z] on. *)
Fixpoint all_from (f : Z -> bool) (z : Z) (n : nat) : bool :=
  match n with
  | O => true
  | S k => f z && all_from f (z + 1) k
  end.

Definition is_letter (c : ascii) : bool :=
  let n := N_of_ascii c in
  (((65 <=? n) && (n <=? 90)) || ((97 <=? n) && (n <=? 122)))%N.

(** The characters a date is written with. *)
Definition date_char (c : ascii) : bool :=
  is_letter c || JsNumber.is_digit c || Ascii.eqb c " " || Ascii.eqb c "," || Ascii.eqb c ":".

Definition year4 (y : Z) : string :=
  String (JsNumber.digit_char (y / 10 / 10 / 10 mod 10))
    (String (JsNumber.digit_char (y / 10 / 10 mod 10))
       (String (JsNumber.digit_char (y / 10 mod 10))
          (String (JsNumber.digit_char (y mod 10)) EmptyString))).

(** [Www, DD Mon YYYY HH:MM:SS GMT], character by character. *)
Definition date_text (w1 w2 w3 : ascii) (d : Z) (m1 m2 m3 : ascii) (y h n s : Z)
    : string :=
  String w1 (String w2 (String w3 (String "," (String " "
    (pad2 d +:+ String " " (String m1 (String m2 (String m3 (String " "
      (year4 y +:+ String " "
        (pad2 h +:+ String ":" (pad2 n +:+ String ":" (pad2 s +:+ " GMT"))))))))))))).

(** The first instant of year 10000: up to it, [toUTCString] writes the
    year with four digits. *)
Definition year_10000 : Z := 253402300800000.

End JsDate.

(* ===================================================================== *)
(** ** The browser: cookie store, clock, local storage, console, timers *)
(* ===================================================================== *)

Module Browser.

(** *** The cookie store behind [document.cookie]

    The store keeps, for the document, the cookies in the order in which
    they were created.  Every cookie of this program is written with
    [path=/]; paths and domains are not modelled. *)

Record Cookie : Type := mkCookie {
  cookie_name : string;
  cookie_value : string;
  cookie_expiry : option Z   (* [None]: a session cookie *)
}.

(** Control characters, TAB excepted: a cookie string holding one is
    ignored. *)
Definition is_ctl (c : ascii) : bool :=
  let n := N_of_ascii c in
  ((n <=? 8) || ((10 <=? n) && (n <=? 31)) || (n =? 127))%N.

(** SPACE and TAB, which are removed around names and values. *)
Definition is_wsp (c : ascii) : bool :=
  match c with
  | "009" | " " => true
  | _ => false
  end%char.

Definition parse_name_value (nv : string) : string * string :=
  match JsString.cut "=" nv with
  | Some (n, v) => (JsString.strip is_wsp n, JsString.strip is_wsp v)
  | None => (EmptyString, JsString.strip is_wsp nv)
  end.

Definition parse_attribute (av : string) : string * string :=
  match JsString.cut "=" av with
  | Some (n, v) =>
      (JsString.toLowerCase (JsString.strip is_wsp n), JsString.strip is_wsp v)
  | None => (JsString.toLowerCase (JsString.strip is_wsp av), EmptyString)
  end.

(** The value of the last attribute called [name] that [read] accepts. *)
Fixpoint last_attribute {A : Type} (name : string) (read : string -> option A)
    (attrs : list string) (found : option A) : option A :=
  match attrs with
  | [] => found
  | av :: rest =>
      let '(n, v) := parse_attribute av in
      if String.eqb n name then
        match read v with
        | Some a => last_attribute name read rest (Some a)
        | None => last_attribute name read rest found
        end
      else last_attribute name read rest found
  end.

(** A [max-age] value: an optional [-] and digits only. *)
Definition parse_max_age (v : string) : option Z :=
  match v with
  | String "-" r =>
      if JsString.truthy r && JsString.all_chars (fun c => bool_decide (JsNumber.digit_value 10 c <> None)) r
      then Some (- JsNumber.digits_value 10 r 0) else None
  | _ =>
      if JsString.truthy v && JsString.all_chars (fun c => bool_decide (JsNumber.digit_value 10 c <> None)) v
      then Some (JsNumber.digits_value 10 v 0) else None
  end.

(** When the cookie expires: [max-age] wins over [expires]; with neither,
    the cookie lasts for the session. *)
Definition expiry_of_attributes (now : Z) (attrs : list string) : option Z :=
  match last_attribute "max-age" parse_max_age attrs None with
  | Some delta => Some (if delta <=? 0 then now else now + delta * 1000)
  | None => last_attribute "expires" JsDate.parse_cookie_date attrs None
  end.

Definition expired (now : Z) (c : Cookie) : bool :=
  match cookie_expiry c with
  | Some t => t <=? now
  | None => false
  end.

Fixpoint remove_cookie (name : string) (jar : list Cookie) : list Cookie :=
  match jar with
  | [] => []
  | c :: rest =>
      if String.eqb (cookie_name c) name then remove_cookie name rest
      else c :: remove_cookie name rest
  end.

(** A cookie of the same name is replaced where it stands; a new name goes
    to the end. *)
Fixpoint put_cookie (c : Cookie) (jar : list Cookie) : list Cookie :=
  match jar with
  | [] => [c]
  | c' :: rest =>
      if String.eqb (cookie_name c') (cookie_name c) then c :: remove_cookie (cookie_name c) rest
      else c' :: put_cookie c rest
  end.

(** [document.cookie = s] at time [now]. *)
Definition cookie_store_set (s : string) (now : Z) (jar : list Cookie) : list Cookie :=
  if negb (JsString.all_chars (fun c => negb (is_ctl c)) s) then jar
  else
    match JsString.split ";" s with
    | [] => jar
    | name_value :: attrs =>
        let '(n, v) := parse_name_value name_value in
        if negb (JsString.truthy n) && negb (JsString.truthy v) then jar
        else
          let c := mkCookie n v (expiry_of_attributes now attrs) in
          if expired now c then remove_cookie n jar else put_cookie c jar
    end.

Definition cookie_pair (c : Cookie) : string :=
  if JsString.truthy (cookie_name c)
  then cookie_name c +:+ "=" +:+ cookie_value c
  else cookie_value c.

(** The value read from [document.cookie] at time [now]. *)
Definition cookie_store_get (now : Z) (jar : list Cookie) : string :=
  JsString.join "; " (map cookie_pair (List.filter (fun c => negb (expired now c)) jar)).

(** *** Well-formed names, values and jars

    A name the store keeps as written: not empty, free of [;], [=] and
    control characters, with no white space at either end.  A value may
    be empty and may hold [=]. *)

Definition token_char (c : ascii) : bool :=
  negb (Ascii.eqb c ";") && negb (Ascii.eqb c "=") && negb (is_ctl c).

Definition text_char (c : ascii) : bool :=
  negb (Ascii.eqb c ";") && negb (is_ctl c).

Definition clean_edges (s : string) : bool :=
  negb (JsString.starts_with_white_space s)
  && negb (JsString.ends_with_white_space s).

Definition cookie_name_ok (s : string) : bool :=
  JsString.truthy s && JsString.all_chars token_char s && clean_edges s.

Definition cookie_value_ok (s : string) : bool :=
  JsString.all_chars text_char s && clean_edges s.

Definition cookie_ok (c : Cookie) : bool :=
  cookie_name_ok (cookie_name c) && cookie_value_ok (cookie_value c).

Definition jar_ok (jar : list Cookie) : bool := forallb cookie_ok jar.

(** The cookie called [name] that the document sees at time [now]. *)
Definition find_cookie (name : string) (now : Z) (jar : list Cookie) : option Cookie :=
  List.find (fun c => String.eqb name (cookie_name c))
    (List.filter (fun c => negb (expired now c)) jar).

(** *** Timers, events, the world *)

(** The closures the program hands to [setInterval] and [setTimeout], and
    the callbacks it receives. *)
Inductive Callback : Type :=
| UpdateTimerDisplay
| CooldownEnd
| NavigateTo (url : string)
| ResetInput
| OnSuccess
| OnCooldownEnd.

#[global] Instance Callback_eq_dec : EqDecision Callback.
Proof. solve_decision. Defined.

Inductive TimerKind : Type := Repeating | Once.

Record Timer : Type := mkTimer {
  timer_id : Z;
  timer_kind : TimerKind;
  timer_delay : Z;            (* milliseconds *)
  timer_callback : Callback
}.

Inductive Event : Type :=
| ConsoleLog (msg : string)
| ConsoleError (msg : string)
| Called (cb : Callback)       (* a callback supplied by the caller ran *)
| CookieWritten (s : string)   (* the string assigned to [document.cookie] *)
| Fetch (url : string).        (* a GET was issued *)

Record World : Type := mkWorld {
  clock : Z;                              (* [Date.now()] *)
  cookies : list Cookie;
  localStorage : gmap string string;
  timers : list Timer;
  next_timer_id : Z;
  events : list Event                     (* latest first *)
}.

Definition set_cookies (jar : list Cookie) (w : World) : World :=
  mkWorld (clock w) jar (localStorage w) (timers w) (next_timer_id w) (events w).

Definition set_localStorage (m : gmap string string) (w : World) : World :=
  mkWorld (clock w) (cookies w) m (timers w) (next_timer_id w) (events w).

Definition set_timers (ts : list Timer) (next : Z) (w : World) : World :=
  mkWorld (clock w) (cookies w) (localStorage w) ts next (events w).

Definition add_event (e : Event) (w : World) : World :=
  mkWorld (clock w) (cookies w) (localStorage w) (timers w) (next_timer_id w)
    (e :: events w).

End Browser.

(* ===================================================================== *)
(** ** Running JavaScript: a state monad over the world, with exceptions *)
(* ===================================================================== *)

Module Js.
Import Browser.

Inductive Error : Type :=
| SyntaxError (msg : string)
| TypeError (msg : string)
| NetworkError (msg : string).

Inductive Completion (A : Type) : Type :=
| Normal (a : A)
| Throw (e : Error).
Arguments Normal {A} a.
Arguments Throw {A} e.

Definition JS (A : Type) : Type := World -> Completion A * World.

Definition ret {A : Type} (a : A) : JS A := fun w => (Normal a, w).

Definition throw {A : Type} (e : Error) : JS A := fun w => (Throw e, w).

Definition bind {A B : Type} (m : JS A) (k : A -> JS B) : JS B :=
  fun w =>
    match m w with
    | (Normal a, w') => k a w'
    | (Throw e, w') => (Throw e, w')
    end.

(** [try { body } catch (e) { handler(e) }] *)
Definition try_catch {A : Type} (body : JS A) (handler : Error -> JS A) : JS A :=
  fun w =>
    match body w with
    | (Normal a, w') => (Normal a, w')
    | (Throw e, w') => handler e w'
    end.

Definition gets {A : Type} (f : World -> A) : JS A := fun w => (Normal (f w), w).

Definition modify (f : World -> World) : JS unit := fun w => (Normal tt, f w).

Definition lift {A : Type} (c : Completion A) : JS A := fun w => (c, w).

Declare Scope js_scope.
Delimit Scope js_scope with js.
Notation "'let*' x ':=' m 'in' k" := (bind m (fun x => k))
  (at level 10, x pattern, m at level 100, k at level 200) : js_scope.
Notation "m ';;' k" := (bind m (fun _ => k))
  (at level 100, k at level 200, right associativity) : js_scope.

(** *** The globals the program uses *)

Definition Date_now : JS Z := gets clock.

Definition document_cookie_get : JS string :=
  gets (fun w => cookie_store_get (clock w) (cookies w)).

Definition document_cookie_set (s : string) : JS unit :=
  modify (fun w =>
    add_event (CookieWritten s)
      (set_cookies (cookie_store_set s (clock w) (cookies w)) w)).

Definition console_log (msg : string) : JS unit := modify (add_event (ConsoleLog msg)).
Definition console_error (msg : string) : JS unit := modify (add_event (ConsoleError msg)).

(** [localStorage.getItem(key)]: the stored string or [null] *)
Definition localStorage_getItem (key : string) : JS (option string) :=
  gets (fun w => localStorage w !! key).

(** [localStorage.setItem(key, value)]; the storage quota is not modelled *)
Definition localStorage_setItem (key value : string) : JS unit :=
  modify (fun w => set_localStorage (<[key := value]> (localStorage w)) w).

Definition new_timer (kind : TimerKind) (cb : Callback) (delay : Z) : JS Z :=
  fun w =>
    let id := next_timer_id w in
    (Normal id, set_timers (timers w ++ [mkTimer id kind delay cb]) (id + 1) w).

Definition setInterval : Callback -> Z -> JS Z := new_timer Repeating.
Definition setTimeout : Callback -> Z -> JS Z := new_timer Once.

(** [clearInterval(id)] and [clearTimeout(id)] share one table of ids. *)
Definition clear_timer (id : Z) : JS unit :=
  modify (fun w =>
    set_timers (List.filter (fun t => negb (timer_id t =? id)) (timers w)) (next_timer_id w) w).

Definition clearInterval : Z -> JS unit := clear_timer.
Definition clearTimeout : Z -> JS unit := clear_timer.

(** A callback supplied by the page that uses the module: its body is not
    part of the program; that it ran is recorded. *)
Definition call (cb : Callback) : JS unit := modify (add_event (Called cb)).

End Js.

(* ===================================================================== *)
(** ** Values and the [JSON] global *)
(* ===================================================================== *)

Module Json.
Import Js.

(** The values that unlock states, defaults and [keys.json] range over.
    An object lists its properties in enumeration order. *)
Inductive Value : Type :=
| VUndefined
| VNull
| VBool (b : bool)
| VNumber (n : Z)
| VString (s : string)
| VArray (items : list Value)
| VObject (props : list (string * Value)).

(** The [JSON] object of the runtime.  The program only calls it; what it
    computes is the runtime's business, so the program is modelled over
    any [JSON] that refuses the empty text.  [JSON.stringify] answers
    [None] where JavaScript answers [undefined]. *)
Class Runtime : Type := {
  JSON_parse : string -> Completion Value;
  JSON_stringify : Value -> option string;
  (** the empty text is no JSON: "Unexpected end of JSON input" *)
  JSON_parse_empty : exists e, JSON_parse EmptyString = Throw e
}.

(** [String(x)] of what [JSON.stringify] returned, as [setItem] applies
    it. *)
Definition string_of_stringified (r : option string) : string :=
  match r with
  | Some s => s
  | None => "undefined"
  end.

Fixpoint lookup_property (key : string) (props : list (string * Value)) : Value :=
  match props with
  | [] => VUndefined
  | (k, v) :: rest => if String.eqb k key then v else lookup_property key rest
  end.

(** [v.key] for a [key] that is no built-in property of strings, numbers,
    booleans or arrays. *)
Definition get_property (v : Value) (key : string) : Completion Value :=
  match v with
  | VUndefined => Throw (TypeError "Cannot read properties of undefined")
  | VNull => Throw (TypeError "Cannot read properties of null")
  | VObject props => Normal (lookup_property key props)
  | _ => Normal VUndefined
  end.

(** [s === v] for a string [s]: true only for the same string. *)
Definition string_strict_eq (s : string) (v : Value) : bool :=
  match v with
  | VString t => String.eqb s t
  | _ => false
  end.

(** *** A reference [JSON]

    A codec for the JSON texts whose numbers are integers and whose strings
    use only the two-character escapes (of the quote, the backslash, the
    slash, and b, f, n, r, t).  It gives the theorems about any [JSON] an
    instance to run on. *)

Definition dquote : ascii := "034"%char.
Definition backslash : ascii := "092"%char.

Definition quote_char (c : ascii) : string :=
  match c with
  | "034" => String backslash (String dquote EmptyString)
  | "092" => String backslash (String backslash EmptyString)
  | "008" => String backslash (String "b" EmptyString)
  | "012" => String backslash (String "f" EmptyString)
  | "010" => String backslash (String "n" EmptyString)
  | "013" => String backslash (String "r" EmptyString)
  | "009" => String backslash (String "t" EmptyString)
  | _ => String c EmptyString
  end%char.

Fixpoint quote_body (s : string) : string :=
  match s with
  | EmptyString => EmptyString
  | String c r => quote_char c +:+ quote_body r
  end.

Definition quote (s : string) : string :=
  String dquote (quote_body s +:+ String dquote EmptyString).

Fixpoint stringify (v : Value) : option string :=
  match v with
  | VUndefined => None
  | VNull => Some "null"
  | VBool true => Some "true"
  | VBool false => Some "false"
  | VNumber n => Some (JsNumber.toString n)
  | VString s => Some (quote s)
  | VArray items =>
      Some ("[" +:+ JsString.join ","
              (map (fun x => match stringify x with Some t => t | None => "null" end) items)
            +:+ "]")
  | VObject props =>
      Some ("{" +:+ JsString.join ","
              ((fix members (ps : list (string * Value)) : list string :=
                  match ps with
                  | [] => []
                  | (k, x) :: rest =>
                      match stringify x with
                      | Some t => (quote k +:+ ":" +:+ t) :: members rest
                      | None => members rest
                      end
                  end) props)
            +:+ "}")
  end.

Definition is_json_space (c : ascii) : bool :=
  match c with
  | "009" | "010" | "013" | " " => true
  | _ => false
  end%char.

Definition skip_space : string -> string := JsString.strip_start is_json_space.

(** The string after an opening quote, up to the closing one. *)
Fixpoint parse_string_body (s : string) : option (string * string) :=
  match s with
  | EmptyString => None
  | String "034" r => Some (EmptyString, r)
  | String "092" (String e r) =>
      let unescaped :=
        match e with
        | "034" => Some dquote
        | "092" => Some backslash
        | "/" => Some "/"
        | "b" => Some "008"
        | "f" => Some "012"
        | "n" => Some "010"
        | "r" => Some "013"
        | "t" => Some "009"
        | _ => None
        end%char in
      match unescaped, parse_string_body r with
      | Some c, Some (body, rest) => Some (String c body, rest)
      | _, _ => None
      end
  | String c r =>
      if (N_of_ascii c <? 32)%N then None
      else match parse_string_body r with
           | Some (body, rest) => Some (String c body, rest)
           | None => None
           end
  end.

Fixpoint skip_digits (s : string) : string :=
  match s with
  | String c r => if bool_decide (JsNumber.digit_value 10 c <> None) then skip_digits r else s
  | EmptyString => EmptyString
  end.

(** [0] or a run of digits that does not start with [0]. *)
Definition parse_natural (s : string) : option (Z * string) :=
  match s with
  | String "0" r => Some (0, r)
  | _ =>
      match JsNumber.parse_digits 10 s with
      | Some n => Some (n, skip_digits s)
      | None => None
      end
  end.

Definition expect (word : string) (v : Value) (s : string) : option (Value * string) :=
  if String.prefix word s then Some (v, JsString.substring_from (String.length word) s)
  else None.

Fixpoint parse_value (fuel : nat) (s : string) {struct fuel} : option (Value * string) :=
  match fuel with
  | O => None
  | S f =>
      match skip_space s with
      | String "n" _ as t => expect "null" VNull t
      | String "t" _ as t => expect "true" (VBool true) t
      | String "f" _ as t => expect "false" (VBool false) t
      | String "034" r =>
          match parse_string_body r with
          | Some (body, rest) => Some (VString body, rest)
          | None => None
          end
      | String "-" r =>
          match parse_natural r with
          | Some (n, rest) => Some (VNumber (- n), rest)
          | None => None
          end
      | String "[" r =>
          match skip_space r with
          | String "]" rest => Some (VArray [], rest)
          | _ =>
              match parse_elements f r with
              | Some (items, rest) => Some (VArray items, rest)
              | None => None
              end
          end
      | String "{" r =>
          match skip_space r with
          | String "}" rest => Some (VObject [], rest)
          | _ =>
              match parse_members f r with
              | Some (props, rest) => Some (VObject props, rest)
              | None => None
              end
          end
      | t =>
          match parse_natural t with
          | Some (n, rest) => Some (VNumber n, rest)
          | None => None
          end
      end
  end
with parse_elements (fuel : nat) (s : string) {struct fuel} : option (list Value * string) :=
  match fuel with
  | O => None
  | S f =>
      match parse_value f s with
      | Some (v, r) =>
          match skip_space r with
          | String "]" rest => Some ([v], rest)
          | String "," r' =>
              match parse_elements f r' with
              | Some (vs, rest) => Some (v :: vs, rest)
              | None => None
              end
          | _ => None
          end
      | None => None
      end
  end
with parse_members (fuel : nat) (s : string) {struct fuel}
    : option (list (string * Value) * string) :=
  match fuel with
  | O => None
  | S f =>
      match skip_space s with
      | String "034" r =>
          match parse_string_body r with
          | Some (k, r1) =>
              match skip_space r1 with
              | String ":" r2 =>
                  match parse_value f r2 with
                  | Some (v, r3) =>
                      match skip_space r3 with
                      | String "}" rest => Some ([(k, v)], rest)
                      | String "," r4 =>
                          match parse_members f r4 with
                          | Some (ps, rest) =>
                              (* a repeated key keeps its first place and its last value *)
                              let v' := match lookup_property k ps with
                                        | VUndefined => v
                                        | later => later
                                        end in
                              Some ((k, v') :: List.filter (fun p => negb (String.eqb (fst p) k)) ps, rest)
                          | None => None
                          end
                      | _ => None
                      end
                  | None => None
                  end
              | _ => None
              end
          | None => None
          end
      | _ => None
      end
  end.

Definition parse (s : string) : Completion Value :=
  match parse_value (2 * String.length s + 2) s with
  | Some (v, rest) =>
      match skip_space rest with
      | EmptyString => Normal v
      | _ => Throw (SyntaxError "Unexpected non-whitespace character after JSON")
      end
  | None => Throw (SyntaxError "Unexpected token in JSON")
  end.

(** The text of a boolean. *)
Definition flag_text (b : bool) : string := if b then "true" else "false".

Definition reference : Runtime :=
  {| JSON_parse := parse;
     JSON_stringify := stringify;
     JSON_parse_empty :=
       ex_intro _ (SyntaxError "Unexpected token in JSON") eq_refl |}.

End Json.

(* ===================================================================== *)
(** ** The DOM elements the program touches *)
(* ===================================================================== *)

Module Dom.

Record Element : Type := mkElement {
  disabled : bool;
  value : string;
  textContent : string;
  classList : gset string;
  borderColor : string;        (* [style.borderColor] *)
  backgroundColor : string     (* [style.backgroundColor] *)
}.

Definition set_disabled (b : bool) (e : Element) : Element :=
  mkElement b (value e) (textContent e) (classList e) (borderColor e) (backgroundColor e).

Definition set_value (v : string) (e : Element) : Element :=
  mkElement (disabled e) v (textContent e) (classList e) (borderColor e) (backgroundColor e).

Definition set_textContent (t : string) (e : Element) : Element :=
  mkElement (disabled e) (value e) t (classList e) (borderColor e) (backgroundColor e).

Definition set_borderColor (c : string) (e : Element) : Element :=
  mkElement (disabled e) (value e) (textContent e) (classList e) c (backgroundColor e).

Definition set_backgroundColor (c : string) (e : Element) : Element :=
  mkElement (disabled e) (value e) (textContent e) (classList e) (borderColor e) c.

Definition classList_add (c : string) (e : Element) : Element :=
  mkElement (disabled e) (value e) (textContent e) ({[ c ]} ∪ classList e)
    (borderColor e) (backgroundColor e).

Definition classList_remove (c : string) (e : Element) : Element :=
  mkElement (disabled e) (value e) (textContent e) (classList e ∖ {[ c ]})
    (borderColor e) (backgroundColor e).

Definition classList_contains (c : string) (e : Element) : bool :=
  bool_decide (c ∈ classList e).

End Dom.

(* ===================================================================== *)
(** ** The shared module: cookies, cooldown manager, unlock state,
       password check *)
(* ===================================================================== *)

Module Common.
Import Browser Js Json Dom.
#[local] Open Scope js_scope.

(** *** Cookies *)

Definition setCookie (name value : string) (seconds : Z) : JS unit :=
  let* now := Date_now in                       (* const date = new Date(); *)
  let date := JsDate.time_clip (now + seconds * 1000) in
  document_cookie_set
    (name +:+ "=" +:+ value +:+ ";expires=" +:+ JsDate.toUTCString date +:+ ";path=/").

(** The [for] loop of [getCookie] over the pieces of [document.cookie]. *)
Fixpoint getCookie_loop (nameEQ : string) (cookies : list string) : option string :=
  match cookies with
  | [] => None
  | piece :: rest =>
      let cookie := JsString.trim piece in
      if JsString.indexOf cookie nameEQ =? 0
      then Some (JsString.substring_from (String.length nameEQ) cookie)
      else getCookie_loop nameEQ rest
  end.

(** The value of the cookie, or [None] for [null]. *)
Definition getCookie (name : string) : JS (option string) :=
  let nameEQ := name +:+ "=" in
  let* doc := document_cookie_get in
  ret (getCookie_loop nameEQ (JsString.split ";" doc)).

Definition deleteCookie (name : string) : JS unit :=
  document_cookie_set (name +:+ "=;expires=Thu, 01 Jan 1970 00:00:00 UTC;path=/").

(** *** The cooldown manager *)

Record CooldownManager : Type := mkCooldownManager {
  cookieName : string;
  cooldownSeconds : Z;
  inputElement : Element;
  buttonElement : Element;
  errorElement : Element;
  formElement : Element;
  buttonDefaultText : string;
  buttonLoadingText : string;
  activeCooldownTimer : option Z;      (* [None] is [null] *)
  activeCooldownTimeout : option Z;
  countdown : Z   (* the variable [countdown] that [updateTimerDisplay] captures:
                     that of the latest call of [startFrontendCooldownTimers];
                     an interval of an earlier call that still ticks has a
                     variable of its own, which the model does not keep *)
}.

Record Options : Type := mkOptions {
  opt_cookieName : string;
  opt_cooldownSeconds : Z;
  opt_inputElement : Element;
  opt_buttonElement : Element;
  opt_errorElement : Element;
  opt_formElement : Element;
  opt_buttonDefaultText : option string;
  opt_buttonLoadingText : option string
}.

(** [x || fallback] for an optional string *)
Definition or_default (x : option string) (fallback : string) : string :=
  match x with
  | Some s => if JsString.truthy s then s else fallback
  | None => fallback
  end.

Definition constructor (options : Options) : CooldownManager :=
  mkCooldownManager
    (opt_cookieName options) (opt_cooldownSeconds options)
    (opt_inputElement options) (opt_buttonElement options)
    (opt_errorElement options) (opt_formElement options)
    (or_default (opt_buttonDefaultText options) "验证")
    (or_default (opt_buttonLoadingText options) "验证中...")
    None None 0.

Definition with_input (f : Element -> Element) (cm : CooldownManager) : CooldownManager :=
  mkCooldownManager (cookieName cm) (cooldownSeconds cm) (f (inputElement cm))
    (buttonElement cm) (errorElement cm) (formElement cm) (buttonDefaultText cm)
    (buttonLoadingText cm) (activeCooldownTimer cm) (activeCooldownTimeout cm) (countdown cm).

Definition with_button (f : Element -> Element) (cm : CooldownManager) : CooldownManager :=
  mkCooldownManager (cookieName cm) (cooldownSeconds cm) (inputElement cm)
    (f (buttonElement cm)) (errorElement cm) (formElement cm) (buttonDefaultText cm)
    (buttonLoadingText cm) (activeCooldownTimer cm) (activeCooldownTimeout cm) (countdown cm).

Definition with_error (f : Element -> Element) (cm : CooldownManager) : CooldownManager :=
  mkCooldownManager (cookieName cm) (cooldownSeconds cm) (inputElement cm)
    (buttonElement cm) (f (errorElement cm)) (formElement cm) (buttonDefaultText cm)
    (buttonLoadingText cm) (activeCooldownTimer cm) (activeCooldownTimeout cm) (countdown cm).

Definition with_form (f : Element -> Element) (cm : CooldownManager) : CooldownManager :=
  mkCooldownManager (cookieName cm) (cooldownSeconds cm) (inputElement cm)
    (buttonElement cm) (errorElement cm) (f (formElement cm)) (buttonDefaultText cm)
    (buttonLoadingText cm) (activeCooldownTimer cm) (activeCooldownTimeout cm) (countdown cm).

Definition with_timer (t : option Z) (cm : CooldownManager) : CooldownManager :=
  mkCooldownManager (cookieName cm) (cooldownSeconds cm) (inputElement cm)
    (buttonElement cm) (errorElement cm) (formElement cm) (buttonDefaultText cm)
    (buttonLoadingText cm) t (activeCooldownTimeout cm) (countdown cm).

Definition with_timeout (t : option Z) (cm : CooldownManager) : CooldownManager :=
  mkCooldownManager (cookieName cm) (cooldownSeconds cm) (inputElement cm)
    (buttonElement cm) (errorElement cm) (formElement cm) (buttonDefaultText cm)
    (buttonLoadingText cm) (activeCooldownTimer cm) t (countdown cm).

Definition with_countdown (n : Z) (cm : CooldownManager) : CooldownManager :=
  mkCooldownManager (cookieName cm) (cooldownSeconds cm) (inputElement cm)
    (buttonElement cm) (errorElement cm) (formElement cm) (buttonDefaultText cm)
    (buttonLoadingText cm) (activeCooldownTimer cm) (activeCooldownTimeout cm) n.

(** [if (id) clear(id)]: a timer id is truthy unless it is [null] or 0. *)
Definition clear_if_set (clear : Z -> JS unit) (id : option Z) : JS unit :=
  match id with
  | Some i => if i =? 0 then ret tt else clear i
  | None => ret tt
  end.

(** [clear(id)] with whatever [id] holds; clearing [null] does nothing. *)
Definition clear_any (clear : Z -> JS unit) (id : option Z) : JS unit :=
  match id with
  | Some i => clear i
  | None => ret tt
  end.

Definition is_set (id : option Z) : bool :=
  match id with
  | Some i => negb (i =? 0)
  | None => false
  end.

(** The object [{ cooldown, remaining }] *)
Record CooldownStatus : Type := mkStatus {
  cooldown : bool;
  remaining : Z
}.

Definition checkCooldown (cm : CooldownManager) : JS CooldownStatus :=
  let* expiryTime := getCookie (cookieName cm) in
  match expiryTime with
  | Some text =>
      if JsString.truthy text then
        let* now := Date_now in
        match JsNumber.parseInt text with
        | Some expiry =>
            if now <? expiry
            then ret (mkStatus true (JsNumber.ceil_div (expiry - now) 1000))
            else ret (mkStatus false 0)
        | None => ret (mkStatus false 0)     (* [now < NaN] is false *)
        end
      else ret (mkStatus false 0)
  | None => ret (mkStatus false 0)
  end.

Definition setCooldown (cm : CooldownManager) : JS unit :=
  let* now := Date_now in
  let expiryTime := now + cooldownSeconds cm * 1000 in
  setCookie (cookieName cm) (JsNumber.toString expiryTime) (cooldownSeconds cm).

Definition clearCooldown (cm : CooldownManager) : JS unit :=
  deleteCookie (cookieName cm).

Definition clearCooldownState (forceClearMessage : bool) (cm : CooldownManager)
    : JS CooldownManager :=
  let* cm :=
    if is_set (activeCooldownTimer cm)
    then clear_any clearInterval (activeCooldownTimer cm) ;; ret (with_timer None cm)
    else ret cm in
  let* cm :=
    if is_set (activeCooldownTimeout cm)
    then clear_any clearTimeout (activeCooldownTimeout cm) ;; ret (with_timeout None cm)
    else ret cm in
  let cm := with_form (classList_remove "cooldown-active") cm in
  let cm := with_input (set_disabled false) cm in
  let cm := with_button (set_disabled false) cm in
  let cm := with_button (set_textContent (buttonDefaultText cm)) cm in
  if forceClearMessage then ret (with_error (set_textContent EmptyString) cm)
  else ret cm.

(** The closure [updateTimerDisplay] of [startFrontendCooldownTimers]. *)
Definition updateTimerDisplay (cm : CooldownManager) : JS CooldownManager :=
  if classList_contains "cooldown-active" (formElement cm) then
    if 0 <? countdown cm then
      let cm := with_error
        (set_textContent ("密码错误！请等待 " +:+ JsNumber.toString (countdown cm) +:+ " 秒...")) cm in
      ret (with_countdown (countdown cm - 1) cm)
    else
      let cm := with_error (set_textContent "请稍候...") cm in
      clear_any clearInterval (activeCooldownTimer cm) ;;
      ret (with_timer None cm)
  else
    clear_any clearInterval (activeCooldownTimer cm) ;;
    ret (with_timer None cm).

(** The closure handed to [setTimeout] by [startFrontendCooldownTimers]. *)
Definition cooldownEnd (cm : CooldownManager) : JS CooldownManager :=
  let cm := with_timer None cm in
  let* cm :=
    if classList_contains "cooldown-active" (formElement cm) then
      console_log "前端冷却结束。重新启用控件。" ;;
      let* cm := clearCooldownState false cm in
      let cm := with_error (set_textContent EmptyString) cm in
      call OnCooldownEnd ;;
      ret cm
    else
      console_log "冷却时间到，但 UI 状态已改变。" ;;
      clearCooldownState true cm in
  ret (with_timeout None cm).

Definition startFrontendCooldownTimers (remaining : Z) (cm : CooldownManager)
    : JS CooldownManager :=
  let cm := with_input (set_disabled true) cm in
  let cm := with_button (set_disabled true) cm in
  let cm := with_form (classList_add "cooldown-active") cm in
  let cm := with_button (set_textContent "请等待...") cm in
  let cm := with_countdown remaining cm in        (* [Math.ceil] of an integer *)
  clear_if_set clearInterval (activeCooldownTimer cm) ;;
  clear_if_set clearTimeout (activeCooldownTimeout cm) ;;
  let* cm := updateTimerDisplay cm in
  let* interval := setInterval UpdateTimerDisplay 1000 in
  let cm := with_timer (Some interval) cm in
  let* timeout := setTimeout CooldownEnd (remaining * 1000) in
  ret (with_timeout (Some timeout) cm).

Definition setVerifyingState (cm : CooldownManager) : JS CooldownManager :=
  let cm := with_button (set_disabled true) cm in
  let cm := with_input (set_disabled true) cm in
  let cm := with_button (set_textContent (buttonLoadingText cm)) cm in
  let cm := with_error (set_textContent EmptyString) cm in
  let cm := with_form (classList_remove "cooldown-active") cm in
  clear_if_set clearInterval (activeCooldownTimer cm) ;;
  let cm := with_timer None cm in
  clear_if_set clearTimeout (activeCooldownTimeout cm) ;;
  ret (with_timeout None cm).

(** *** Unlock state in local storage *)

Definition loadUnlockedState `{Runtime} (key : string) (defaultValue : Value) : JS Value :=
  let* saved := localStorage_getItem key in
  match saved with
  | Some text =>
      if JsString.truthy text then
        try_catch
          (lift (JSON_parse text))                  (* return JSON.parse(saved); *)
          (fun e => console_error "加载解锁状态失败:" ;; ret defaultValue)
      else ret defaultValue
  | None => ret defaultValue
  end.

Definition saveUnlockedState `{Runtime} (key : string) (state : Value) : JS unit :=
  localStorage_setItem key (string_of_stringified (JSON_stringify state)).

(** *** The password check *)

Definition verifyPassword (inputPassword correctPassword : string)
    (cooldownManager : CooldownManager) : JS CooldownManager :=
  if negb (JsString.truthy inputPassword) then
    let cm := with_error (set_textContent "请输入密钥。") cooldownManager in
    let cm := with_button (set_disabled false) cm in
    ret (with_input (set_disabled false) cm)
  else
    let* cm := setVerifyingState cooldownManager in
    if JsString.strict_eq inputPassword correctPassword then
      console_log "密码正确！" ;;
      let* cm := clearCooldownState true cm in
      clearCooldown cm ;;
      call OnSuccess ;;
      ret cm
    else
      console_log "密码错误！" ;;
      let cm := with_input (set_value EmptyString) cm in
      setCooldown cm ;;
      let* cooldownStatus := checkCooldown cm in
      let cm := with_error
        (set_textContent ("密码错误！请等待 " +:+ JsNumber.toString (remaining cooldownStatus)
                          +:+ " 秒...")) cm in
      startFrontendCooldownTimers (remaining cooldownStatus) cm.

End Common.

(* ===================================================================== *)
(** ** The final-key page, [two/newpage/newpage.js] *)
(* ===================================================================== *)

Module NewPage.
Import Browser Js Json Dom.
#[local] Open Scope js_scope.

(** The script's variable [finalKey] and the element [#final-password]. *)
Record Page : Type := mkPage {
  finalKey : Value;
  final_password : Element
}.

Definition set_finalKey (v : Value) (pg : Page) : Page := mkPage v (final_password pg).

Definition with_input (f : Element -> Element) (pg : Page) : Page :=
  mkPage (finalKey pg) (f (final_password pg)).

(** How the request ends: the promise of [fetch] is rejected, or it is
    fulfilled with a response whose body is the given text. *)
Inductive FetchOutcome : Type :=
| Rejected (e : Error)
| Responded (body : string).

(** The top of the script: [let finalKey;] and the call of [fetch]. *)
Definition load (input : Element) : JS Page :=
  modify (add_event (Fetch "../keys.json")) ;;
  ret (mkPage VUndefined input).

(** The three reactions chained on the promise, run when the request
    ends: [response.json()], the assignment of [finalKey], and the
    [catch] that receives a failure of any step before it. *)
Definition fetch_settled `{Runtime} (outcome : FetchOutcome) (pg : Page) : JS Page :=
  try_catch
    (let* body := match outcome with
                  | Rejected e => throw e
                  | Responded body => ret body
                  end in
     let* data := lift (JSON_parse body) in         (* response => response.json() *)
     let* key := lift (get_property data "finalKey") in
     ret (set_finalKey key pg))                     (* finalKey = data.finalKey *)
    (fun error => console_error "加载 keys.json 出错:" ;; ret pg).

(** The reset scheduled by a wrong key, when its timer fires. *)
Definition resetInput (pg : Page) : Page :=
  let pg := with_input (set_value EmptyString) pg in
  let pg := with_input (set_borderColor "#444") pg in
  with_input (set_backgroundColor "#222") pg.

Definition checkFinalPassword (pg : Page) : JS Page :=
  let enteredKey := value (final_password pg) in
  if string_strict_eq enteredKey (finalKey pg) then
    let pg := with_input (set_borderColor "#4CAF50") pg in
    let pg := with_input (set_backgroundColor "#1a5f20") pg in
    let pg := with_input (set_value "密钥正确") pg in
    let pg := with_input (set_disabled true) pg in
    setTimeout (NavigateTo "/two/finalpage") 1000 ;;
    ret pg
  else
    let pg := with_input (set_borderColor "#f44336") pg in
    let pg := with_input (set_backgroundColor "#5f1a1a") pg in
    let pg := with_input (set_value "密钥错误") pg in
    setTimeout ResetInput 1000 ;;
    ret pg.

Definition handleKeyPress (key : string) (pg : Page) : JS Page :=
  if JsString.strict_eq key "Enter" then checkFinalPassword pg else ret pg.

End NewPage.

(* ===================================================================== *)
(** ** What the theorems observe *)
(* ===================================================================== *)

Module Observe.
Import Browser Js Json Dom.

(** How many times the callback [cb] ran. *)
Fixpoint calls (cb : Callback) (evs : list Event) : nat :=
  match evs with
  | [] => O
  | Called cb' :: rest =>
      (if bool_decide (cb' = cb) then 1 else 0)%nat + calls cb rest
  | _ :: rest => calls cb rest
  end.

(** How many requests were issued. *)
Fixpoint fetches (evs : list Event) : nat :=
  match evs with
  | [] => O
  | Fetch _ :: rest => S (fetches rest)
  | _ :: rest => fetches rest
  end.

(** The result of a computation that returned, and the world it left. *)
Definition world_after {A : Type} (m : JS A) (w : World) : World := snd (m w).
Definition result_of {A : Type} (m : JS A) (w : World) : Completion A := fst (m w).

(** [verifyPassword] ran [onSuccess] during the call started in [w]. *)
Definition onSuccess_invoked (input correct : string) (cm : Common.CooldownManager)
    (w : World) : Prop :=
  (calls OnSuccess (events (world_after (Common.verifyPassword input correct cm) w))
   > calls OnSuccess (events w))%nat.


(** *** Frames: what a computation leaves as it was *)

(** [keeps m]: from every world, [m] returns normally and the observation
    [obs] of the world is unchanged. *)
Definition keeps {X : Type} (obs : World -> X) {A : Type} (m : JS A) : Prop :=
  forall w, exists a w', m w = (Normal a, w') /\ obs w' = obs w.

(** *** Methods of the cooldown manager

    [method cm m]: [m] returns a manager with the cookie name and the
    cooldown length of [cm], and keeps the observation. *)

Definition config (cm : Common.CooldownManager) : string * Z :=
  (Common.cookieName cm, Common.cooldownSeconds cm).

Definition method {X : Type} (obs : World -> X) (cm : Common.CooldownManager)
    (m : JS Common.CooldownManager) : Prop :=
  forall w, exists cm' w',
    m w = (Normal cm', w') /\ obs w' = obs w /\ config cm' = config cm.

Definition obs_store (w : World) : list Cookie * Z := (cookies w, clock w).
Definition obs_calls (cb : Callback) (w : World) : nat := calls cb (events w).

(** *** Cookies and cooldown *)

(** The string [setCookie] assigns to [document.cookie]. *)
Definition cookie_string (name value : string) (seconds now : Z) : string :=
  name +:+ "=" +:+ value +:+ ";expires="
  +:+ JsDate.toUTCString (JsDate.time_clip (now + seconds * 1000)) +:+ ";path=/".

(** The cookie format in the words of the specification:
    [name=value; expires=<UTC date>; path=/]. *)
Definition spec_cookie_format (name value date : string) : string :=
  name +:+ "=" +:+ value +:+ "; expires=" +:+ date +:+ "; path=/".

(** The status [checkCooldown] derives from what [getCookie] returned. *)
Definition status_of (value : option string) (now : Z) : Common.CooldownStatus :=
  match value with
  | Some text =>
      if JsString.truthy text then
        match JsNumber.parseInt text with
        | Some expiry =>
            if now <? expiry then Common.mkStatus true (JsNumber.ceil_div (expiry - now) 1000)
            else Common.mkStatus false 0
        | None => Common.mkStatus false 0
        end
      else Common.mkStatus false 0
  | None => Common.mkStatus false 0
  end.

(** The data-model invariant on the cooldown cookie, as the program reads
    it: [getCookie] finds no cookie of that name ([None]), or finds one
    whose value is the decimal text of a millisecond timestamp, that is of
    a time value: an integer of at most 8.64e15 in magnitude, the range of
    [Date].  On that range [parseInt] reads the integer exactly. *)
Definition cooldown_cookie (cm : Common.CooldownManager) (w : World) (stored : option Z)
    : Prop :=
  match stored with
  | Some expiry =>
      Z.abs expiry <= JsDate.max_time
      /\ result_of (Common.getCookie (Common.cookieName cm)) w
         = Normal (Some (JsNumber.toString expiry))
  | None => result_of (Common.getCookie (Common.cookieName cm)) w = Normal None
  end.

(** Whether [checkCooldown], called right after [verifyPassword]
    returned, reports a cooldown. *)
Definition cooldown_active_after (input correct : string) (cm : Common.CooldownManager)
    (w : World) : bool :=
  match Common.verifyPassword input correct cm w with
  | (Normal cm', w') =>
      match Common.checkCooldown cm' w' with
      | (Normal status, _) => Common.cooldown status
      | (Throw _, _) => false
      end
  | (Throw _, _) => false
  end.

(** *** The final-key page *)

(** The request ends in failure when the promise of [fetch] is rejected,
    or when the body of the response is no JSON and [response.json()]
    rejects. *)
Definition request_failed `{Runtime} (outcome : NewPage.FetchOutcome) : Prop :=
  match outcome with
  | NewPage.Rejected _ => True
  | NewPage.Responded body => exists e, JSON_parse body = Throw e
  end.

(** The page a wrong key leaves behind. *)
Definition rejected_key_page (pg : NewPage.Page) : NewPage.Page :=
  NewPage.with_input (set_value "密钥错误")
    (NewPage.with_input (set_backgroundColor "#5f1a1a")
       (NewPage.with_input (set_borderColor "#f44336") pg)).

(** A world and a manager to run examples in: the clock stands at
    2023-11-14 22:13:20.123 UTC, nothing is stored. *)
Definition blank : Element :=
  mkElement false EmptyString EmptyString ∅ EmptyString EmptyString.

Definition world0 : World := mkWorld 1700000000123 [] ∅ [] 1 [].

Definition manager0 : Common.CooldownManager :=
  Common.constructor
    (Common.mkOptions "pw_cooldown" 30 blank blank blank blank None None).

(** The manager and the world after a wrong entry made in [world0]. *)
Definition manager1 : Common.CooldownManager :=
  match result_of (Common.verifyPassword "wrong" "secret" manager0) world0 with
  | Normal cm => cm
  | Throw _ => manager0
  end.

Definition world1 : World :=
  world_after (Common.verifyPassword "wrong" "secret" manager0) world0.

End Observe.

(* ===================================================================== *)
(** ** Time passing: the clock and the tasks of the timers *)
(* ===================================================================== *)

Module Run.
Import Browser Js Dom Common.
#[local] Open Scope js_scope.

(** The world when the clock reads [t]. *)
Definition set_clock (t : Z) (w : World) : World :=
  mkWorld t (cookies w) (localStorage w) (timers w) (next_timer_id w) (events w).

(** The timer of the table that has the id. *)
Definition find_timer (id : Z) (ts : list Timer) : option Timer :=
  List.find (fun t => timer_id t =? id) ts.

Definition pending (id : Z) (w : World) : bool :=
  match find_timer id (timers w) with
  | Some _ => true
  | None => false
  end.

(** The ids the browser hands out are positive and were never used. *)
Definition timers_fresh (w : World) : Prop :=
  0 < next_timer_id w
  /\ Forall (fun t => timer_id t < next_timer_id w) (timers w).

(** The closures of the cooldown manager behind the callbacks; the other
    callbacks belong to the page and leave the manager alone. *)
Definition run_callback (cb : Callback) (cm : CooldownManager) : JS CooldownManager :=
  match cb with
  | UpdateTimerDisplay => updateTimerDisplay cm
  | CooldownEnd => cooldownEnd cm
  | _ => ret cm
  end.

(** The task of the timer [id]: nothing when the timer was cleared; a
    timer set by [setTimeout] leaves the table as it runs, one set by
    [setInterval] stays. *)
Definition fire (id : Z) (cm : CooldownManager) : JS CooldownManager :=
  let* found := gets (fun w => find_timer id (timers w)) in
  match found with
  | None => ret cm
  | Some t =>
      match timer_kind t with
      | Once => clear_timer id
      | Repeating => ret tt
      end ;;
      run_callback (timer_callback t) cm
  end.

(** The task of the timer [id] run [n] times in a row. *)
Fixpoint fire_times (n : nat) (id : Z) (cm : CooldownManager) : JS CooldownManager :=
  match n with
  | O => ret cm
  | S k => let* cm := fire id cm in fire_times k id cm
  end.

(** The table without the timer a field of the manager names; a field
    that holds [null] or 0 names none. *)
Definition without_timer (id : option Z) (ts : list Timer) : list Timer :=
  match id with
  | Some i => if i =? 0 then ts else List.filter (fun t => negb (timer_id t =? i)) ts
  | None => ts
  end.

(** The form while a cooldown runs: marked, with its controls disabled. *)
Definition locked (cm : CooldownManager) : Prop :=
  classList_contains "cooldown-active" (formElement cm) = true
  /\ disabled (inputElement cm) = true
  /\ disabled (buttonElement cm) = true.

(** The form at rest: unmarked, controls enabled, the button with its
    default text, no timer of the manager set. *)
Definition idle (cm : CooldownManager) : Prop :=
  classList_contains "cooldown-active" (formElement cm) = false
  /\ disabled (inputElement cm) = false
  /\ disabled (buttonElement cm) = false
  /\ textContent (buttonElement cm) = buttonDefaultText cm
  /\ is_set (activeCooldownTimer cm) = false
  /\ is_set (activeCooldownTimeout cm) = false.

(** Two worlds that differ at most in the table of timers. *)
Definition same_but_timers (w w' : World) : Prop :=
  clock w' = clock w /\ cookies w' = cookies w /\ localStorage w' = localStorage w
  /\ next_timer_id w' = next_timer_id w /\ events w' = events w.

(** What a tick of the countdown leaves alone: every field of the manager
    but the message and the counter. *)
Definition beside_display (cm : CooldownManager) :=
  (cookieName cm, cooldownSeconds cm, inputElement cm, buttonElement cm, formElement cm,
   buttonDefaultText cm, buttonLoadingText cm, activeCooldownTimer cm,
   activeCooldownTimeout cm).

(** The text of the countdown. *)
Definition wait_text (n : Z) : string :=
  "密码错误！请等待 " +:+ JsNumber.toString n +:+ " 秒...".

(** How many times the program assigned to [document.cookie]. *)
Fixpoint cookie_writes (evs : list Event) : nat :=
  match evs with
  | [] => O
  | CookieWritten _ :: rest => S (cookie_writes rest)
  | _ :: rest => cookie_writes rest
  end.

(** How many times the program logged an error. *)
Fixpoint errors_logged (evs : list Event) : nat :=
  match evs with
  | [] => O
  | ConsoleError _ :: rest => S (errors_logged rest)
  | _ :: rest => errors_logged rest
  end.

(** The page a right key leaves behind. *)
Definition accepted_key_page (pg : NewPage.Page) : NewPage.Page :=
  NewPage.with_input (set_disabled true)
    (NewPage.with_input (set_value "密钥正确")
       (NewPage.with_input (set_backgroundColor "#1a5f20")
          (NewPage.with_input (set_borderColor "#4CAF50") pg))).

End Run.

(* ===================================================================== *)
(** ** The audio player of the shared module *)
(* ===================================================================== *)

Module Audio.
Import Js Dom.

(** What the player does to the world around it: the calls of the audio
    element's [play] and [pause], the lines on the console, and an
    exception that left a listener or a method. *)
Inductive Level : Type := LevelLog | LevelWarn | LevelError.

Inductive Effect : Type :=
| PlayCalled
| PauseCalled
| Console (level : Level) (msg : string)
| Uncaught (e : Error).

(** The object [options]; an absent property is [None]. *)
Record Options : Type := mkOptions {
  opt_autoPlayOnFirstClick : option bool;
  opt_showControlButton : option bool;
  opt_controlButton : option Element
}.

Record AudioPlayer : Type := mkAudioPlayer {
  audioElement : bool;               (* [false]: the element given is [null] *)
  autoPlayOnFirstClick : bool;
  showControlButton : bool;
  controlButton : option Element;    (* [None] is [null] *)
  played : bool;
  isPlaying : bool
}.

(** The page around the player: the listeners the player has added, the
    timer of [setupAutoPlayOnFirstClick], and what happened so far, latest
    first. *)
Record Document : Type := mkDocument {
  click_listener : bool;        (* on the control button *)
  audio_listeners : bool;       (* [play], [pause] and [ended] on the audio element *)
  arm_timer : bool;             (* the timer of 100 ms is pending *)
  first_click_listener : bool;  (* the once-listener for clicks on the document *)
  trace : list Effect
}.

Definition State : Type := AudioPlayer * Document.

Definition fresh : Document := mkDocument false false false false [].

(** A state monad over the player and its page, with exceptions. *)
Definition M (A : Type) : Type := State -> Completion A * State.

Definition mret {A : Type} (a : A) : M A := fun s => (Normal a, s).

Definition mthrow {A : Type} (e : Error) : M A := fun s => (Throw e, s).

Definition mbind {A B : Type} (m : M A) (k : A -> M B) : M B :=
  fun s =>
    match m s with
    | (Normal a, s') => k a s'
    | (Throw e, s') => (Throw e, s')
    end.

Definition this : M AudioPlayer := fun s => (Normal (fst s), s).

Definition update_player (f : AudioPlayer -> AudioPlayer) : M unit :=
  fun s => (Normal tt, (f (fst s), snd s)).

Definition update_document (f : Document -> Document) : M unit :=
  fun s => (Normal tt, (fst s, f (snd s))).

Declare Scope audio_scope.
Delimit Scope audio_scope with audio.
Notation "'let*' x ':=' m 'in' k" := (mbind m (fun x => k))
  (at level 10, x pattern, m at level 100, k at level 200) : audio_scope.
Notation "m ';;' k" := (mbind m (fun _ => k))
  (at level 100, k at level 200, right associativity) : audio_scope.
#[local] Open Scope audio_scope.

Definition set_played (b : bool) (p : AudioPlayer) : AudioPlayer :=
  mkAudioPlayer (audioElement p) (autoPlayOnFirstClick p) (showControlButton p)
    (controlButton p) b (isPlaying p).

Definition set_isPlaying (b : bool) (p : AudioPlayer) : AudioPlayer :=
  mkAudioPlayer (audioElement p) (autoPlayOnFirstClick p) (showControlButton p)
    (controlButton p) (played p) b.

Definition set_controlButton (b : option Element) (p : AudioPlayer) : AudioPlayer :=
  mkAudioPlayer (audioElement p) (autoPlayOnFirstClick p) (showControlButton p)
    b (played p) (isPlaying p).

Definition set_click_listener (b : bool) (d : Document) : Document :=
  mkDocument b (audio_listeners d) (arm_timer d) (first_click_listener d) (trace d).

Definition set_audio_listeners (b : bool) (d : Document) : Document :=
  mkDocument (click_listener d) b (arm_timer d) (first_click_listener d) (trace d).

Definition set_arm_timer (b : bool) (d : Document) : Document :=
  mkDocument (click_listener d) (audio_listeners d) b (first_click_listener d) (trace d).

Definition set_first_click_listener (b : bool) (d : Document) : Document :=
  mkDocument (click_listener d) (audio_listeners d) (arm_timer d) b (trace d).

Definition record (e : Effect) (d : Document) : Document :=
  mkDocument (click_listener d) (audio_listeners d) (arm_timer d) (first_click_listener d)
    (e :: trace d).

Definition console (level : Level) (msg : string) : M unit :=
  update_document (record (Console level msg)).

(** A method of the audio element: a [TypeError] when the element is
    [null]. *)
Definition on_audio (e : Effect) : M unit :=
  let* p := this in
  if audioElement p then update_document (record e)
  else mthrow (TypeError "Cannot read properties of null").

(** [isPlaying ? '暂停音乐' : '播放音乐'] *)
Definition label (playing : bool) : string :=
  if playing then "暂停音乐" else "播放音乐".

Definition updateControlButtonText : M unit :=
  let* p := this in
  match controlButton p with
  | None => mret tt
  | Some b => update_player (set_controlButton (Some (set_textContent (label (isPlaying p)) b)))
  end.

Definition setupControlButton : M unit :=
  let* p := this in
  match controlButton p with
  | None => mret tt
  | Some _ =>
      updateControlButtonText ;;
      update_document (set_click_listener true) ;;
      (* [this.audioElement.addEventListener], three times *)
      (if audioElement p then update_document (set_audio_listeners true)
       else mthrow (TypeError "Cannot read properties of null"))
  end.

(** The call of [setTimeout]; the timer adds the listener when it runs. *)
Definition setupAutoPlayOnFirstClick : M unit :=
  update_document (set_arm_timer true).

(** [x !== false] and [x || false] of an optional boolean. *)
Definition not_false (x : option bool) : bool :=
  match x with
  | Some false => false
  | _ => true
  end.

Definition or_false (x : option bool) : bool :=
  match x with
  | Some b => b
  | None => false
  end.

(** [new AudioPlayer(audioElement, options)] on a page without listeners. *)
Definition constructor (audio : bool) (options : Options) : Completion unit * State :=
  let p := mkAudioPlayer audio
             (not_false (opt_autoPlayOnFirstClick options))
             (or_false (opt_showControlButton options))
             (opt_controlButton options) false false in
  ((if showControlButton p && bool_decide (controlButton p <> None)
    then setupControlButton else mret tt) ;;
   (if autoPlayOnFirstClick p then setupAutoPlayOnFirstClick else mret tt))
    (p, fresh).

Definition play : M unit := on_audio PlayCalled.

Definition pause : M unit := on_audio PauseCalled.

(** [ok] tells whether the promise of [play()] is fulfilled; the reaction
    chained on it runs later and only writes to the console, so it is
    recorded with the call. *)
Definition togglePlay (ok : bool) : M unit :=
  let* p := this in
  if isPlaying p then pause
  else
    play ;;
    if ok then mret tt else console LevelError "音频播放失败:".

(** The listener [playHandler] of [setupAutoPlayOnFirstClick]. *)
Definition playHandler (ok : bool) : M unit :=
  let* p := this in
  if negb (played p) && audioElement p then
    play ;;
    if ok then console LevelLog "背景音乐已开始播放。"
    else console LevelWarn "音频自动播放失败:"
  else mret tt.

(** The listeners for [play], and for [pause] and [ended]. *)
Definition on_play : M unit :=
  update_player (set_isPlaying true) ;;
  update_player (set_played true) ;;
  updateControlButtonText.

Definition on_stop : M unit :=
  update_player (set_isPlaying false) ;;
  updateControlButtonText.

(** What can happen to the player once it is built. *)
Inductive Input : Type :=
| TimerFires                  (* the timer of 100 ms *)
| DocumentClick (ok : bool)   (* a click outside the control button *)
| ControlClick (ok : bool)    (* a click on the control button *)
| PlayEvent
| PauseEvent
| EndedEvent
| CallPlay                    (* the page calls [play()] *)
| CallPause
| CallTogglePlay (ok : bool).

(** A listener or a method run to its end; an exception is recorded. *)
Definition run (m : M unit) (s : State) : State :=
  match m s with
  | (Normal _, s') => s'
  | (Throw e, s') => (fst s', record (Uncaught e) (snd s'))
  end.

(** A click that reaches the document: the once-listener, if it is there,
    is removed and run. *)
Definition document_click (ok : bool) (s : State) : State :=
  if first_click_listener (snd s)
  then run (playHandler ok) (fst s, set_first_click_listener false (snd s))
  else s.

Definition step (i : Input) (s : State) : State :=
  match i with
  | TimerFires =>
      if arm_timer (snd s)
      then (fst s, set_first_click_listener true (set_arm_timer false (snd s)))
      else s
  | DocumentClick ok => document_click ok s
  | ControlClick ok =>
      (* the listener of the button stops the propagation *)
      if click_listener (snd s) then run (togglePlay ok) s else document_click ok s
  | PlayEvent => if audio_listeners (snd s) then run on_play s else s
  | PauseEvent | EndedEvent => if audio_listeners (snd s) then run on_stop s else s
  | CallPlay => run play s
  | CallPause => run pause s
  | CallTogglePlay ok => run (togglePlay ok) s
  end.

Definition steps (inputs : list Input) (s : State) : State :=
  fold_left (fun s i => step i s) inputs s.

(** How often the audio element was asked to play, and to pause. *)
Definition plays (t : list Effect) : nat :=
  length (List.filter (fun e => match e with PlayCalled => true | _ => false end) t).

Definition pauses (t : list Effect) : nat :=
  length (List.filter (fun e => match e with PauseCalled => true | _ => false end) t).

(** How often the first-click listener reported its attempt to play. *)
Definition first_click_reports (t : list Effect) : nat :=
  length (List.filter
            (fun e => match e with
                      | Console LevelLog _ | Console LevelWarn _ => true
                      | _ => false
                      end) t).

Definition is_CallPause (i : Input) : bool :=
  match i with
  | CallPause => true
  | _ => false
  end.

End Audio.

(* ===================================================================== *)
(** ** The runtime on examples *)
(* ===================================================================== *)

Example split_ex :
  JsString.split ";" "a=1; b=2" = ["a=1"; " b=2"].
Proof. reflexivity. Qed.

Example toString_ex : JsNumber.toString 1700000000123 = "1700000000123".
Proof. vm_compute. reflexivity. Qed.

Example parseInt_ex :
  JsNumber.parseInt "  -12px" = Some (-12) /\ JsNumber.parseInt "0x1f" = Some 31
  /\ JsNumber.parseInt "abc" = None /\ JsNumber.parseInt EmptyString = None.
Proof. vm_compute. repeat split. Qed.

(** White space outside ASCII: U+00A0 before and U+2028 after are
    trimmed, [parseInt] skips U+00A0, other characters of several bytes
    stay, and a name or value with U+00A0 at an end is not well formed. *)
Example white_space_ex :
  JsString.trim
    (String "194" (String "160"
       (" k=v " +:+ String "226" (String "128" (String "168" EmptyString)))))
  = "k=v"
  /\ JsNumber.parseInt (String "194" (String "160" "1700000030123")) = Some 1700000030123
  /\ JsString.trim "密钥" = "密钥"
  /\ Browser.cookie_name_ok (String "194" (String "160" "cd")) = false
  /\ Browser.cookie_value_ok ("v" +:+ String "194" (String "160" EmptyString)) = false
  /\ Browser.cookie_name_ok "密钥" = true.
Proof. vm_compute. repeat split. Qed.

Example toUTCString_ex :
  JsDate.toUTCString (Some 1700000000123) = "Tue, 14 Nov 2023 22:13:20 GMT"
  /\ JsDate.toUTCString (Some 0) = "Thu, 01 Jan 1970 00:00:00 GMT"
  /\ JsDate.toUTCString (Some (-1)) = "Wed, 31 Dec 1969 23:59:59 GMT"
  /\ JsDate.toUTCString (Some 951782400000) = "Tue, 29 Feb 2000 00:00:00 GMT"
  /\ JsDate.toUTCString (Some 253402300800000) = "Sat, 01 Jan 10000 00:00:00 GMT".
Proof. vm_compute. repeat split. Qed.

Example parse_cookie_date_ex :
  JsDate.parse_cookie_date "Tue, 14 Nov 2023 22:13:20 GMT" = Some 1700000000000
  /\ JsDate.parse_cookie_date "Thu, 01 Jan 1970 00:00:00 UTC" = Some 0
  /\ JsDate.parse_cookie_date "Invalid Date" = None.
Proof. vm_compute. repeat split. Qed.

Example setCookie_ex :
  Browser.events (Observe.world_after (Common.setCookie "k" "v" 60) Observe.world0)
  = [Browser.CookieWritten "k=v;expires=Tue, 14 Nov 2023 22:14:20 GMT;path=/"]
  /\ Browser.cookies (Observe.world_after (Common.setCookie "k" "v" 60) Observe.world0)
     = [Browser.mkCookie "k" "v" (Some 1700000060000)].
Proof. vm_compute. split; reflexivity. Qed.

Example document_cookie_ex :
  Browser.cookie_store_get 1700000000123
    [Browser.mkCookie "a" "1" None; Browser.mkCookie "old" "x" (Some 1600000000000);
     Browser.mkCookie "b" "2" (Some 1700000060000)]
  = "a=1; b=2"
  /\ Common.getCookie_loop "b=" (JsString.split ";" "a=1; b=2") = Some "2"
  /\ Common.getCookie_loop "c=" (JsString.split ";" "a=1; b=2") = None.
Proof. vm_compute. repeat split. Qed.

Example json_ex :
  Json.parse "[1, -20, true, null, [ ] ]"
  = Js.Normal (Json.VArray [Json.VNumber 1; Json.VNumber (-20); Json.VBool true;
                            Json.VNull; Json.VArray []])
  /\ Json.stringify (Json.VObject
       [("a", Json.VArray [Json.VNumber 1; Json.VUndefined]); ("u", Json.VUndefined);
        ("s", Json.VString "x\y")])
     = Some ("{" +:+ Json.quote "a" +:+ ":[1,null]," +:+ Json.quote "s" +:+ ":"
             +:+ String Json.dquote ("x\\y" +:+ String Json.dquote "}"))
  /\ Json.parse ("{" +:+ Json.quote "a" +:+ ":[1,null]," +:+ Json.quote "s" +:+ ":"
                 +:+ String Json.dquote ("x\\y" +:+ String Json.dquote "}"))
     = Js.Normal (Json.VObject [("a", Json.VArray [Json.VNumber 1; Json.VNull]);
                                ("s", Json.VString "x\y")])
  /\ Json.parse "{oops" = Js.Throw (Js.SyntaxError "Unexpected token in JSON")
  /\ Json.parse "[1,2] x"
     = Js.Throw (Js.SyntaxError "Unexpected non-whitespace character after JSON")
  /\ Json.parse EmptyString = Js.Throw (Js.SyntaxError "Unexpected token in JSON").
Proof. vm_compute. repeat split. Qed.

(* ===================================================================== *)
(** ** Facts about strings *)
(* ===================================================================== *)

Section StringFacts.
Import JsString.

Lemma append_nil_r s : s +:+ EmptyString = s.
Proof. induction s; simpl; congruence. Qed.

Lemma append_assoc a b c : (a +:+ b) +:+ c = a +:+ (b +:+ c).
Proof. induction a; simpl; congruence. Qed.

Lemma all_chars_app p a b : all_chars p (a +:+ b) = all_chars p a && all_chars p b.
Proof. induction a; simpl; [reflexivity |]. rewrite IHa. apply andb_assoc. Qed.

Lemma all_chars_impl (p q : ascii -> bool) s :
  (forall c, p c = true -> q c = true) -> all_chars p s = true -> all_chars q s = true.
Proof.
  intros Hpq. induction s; simpl; [reflexivity |].
  intros [H1 H2]%andb_prop. rewrite (Hpq _ H1), IHs; auto.
Qed.

(** *** [split] and [cut] on strings free of the separator *)

Lemma split_lacks sep s : lacks sep s = true -> split sep s = [s].
Proof.
  unfold lacks. induction s as [| c r IH]; simpl; [reflexivity |].
  intros [Hc Hr]%andb_prop. apply negb_true_iff in Hc. rewrite Hc, (IH Hr). reflexivity.
Qed.

Lemma split_app sep s t :
  lacks sep s = true -> split sep (s +:+ String sep t) = s :: split sep t.
Proof.
  unfold lacks. induction s as [| c r IH]; simpl.
  - intros _. rewrite Ascii.eqb_refl. reflexivity.
  - intros [Hc Hr]%andb_prop. apply negb_true_iff in Hc. rewrite Hc, (IH Hr). reflexivity.
Qed.

Lemma cut_app sep s t :
  lacks sep s = true -> cut sep (s +:+ String sep t) = Some (s, t).
Proof.
  unfold lacks. induction s as [| c r IH]; simpl.
  - intros _. rewrite Ascii.eqb_refl. reflexivity.
  - intros [Hc Hr]%andb_prop. apply negb_true_iff in Hc. rewrite Hc, (IH Hr). reflexivity.
Qed.

(** *** Stripping *)

Lemma strip_start_clean p s : starts_with p s = false -> strip_start p s = s.
Proof. destruct s; simpl; [reflexivity |]. intros ->. reflexivity. Qed.

Lemma strip_end_clean p s : ends_with p s = false -> strip_end p s = s.
Proof.
  induction s as [| c r IH]; [reflexivity |].
  destruct r as [| c' r'].
  - simpl. intros ->. reflexivity.
  - intros H. change (ends_with p (String c (String c' r'))) with (ends_with p (String c' r')) in H.
    change (strip_end p (String c (String c' r')))
      with (match strip_end p (String c' r') with
            | EmptyString => if p c then EmptyString else String c EmptyString
            | r0 => String c r0
            end).
    rewrite (IH H). reflexivity.
Qed.

Lemma strip_clean p s :
  starts_with p s = false -> ends_with p s = false -> strip p s = s.
Proof. intros H1 H2. unfold strip. rewrite strip_start_clean, strip_end_clean; auto. Qed.

Lemma strip_start_skip p pre s :
  all_chars p pre = true -> strip_start p (pre +:+ s) = strip_start p s.
Proof.
  induction pre as [| c r IH]; simpl; [reflexivity |].
  intros [Hc Hr]%andb_prop. rewrite Hc. auto.
Qed.

Lemma strip_all p s : all_chars p s = true -> strip p s = EmptyString.
Proof.
  intros H. unfold strip. rewrite <- (append_nil_r s), strip_start_skip by exact H.
  reflexivity.
Qed.

Lemma starts_with_app p a b :
  a <> EmptyString -> starts_with p (a +:+ b) = starts_with p a.
Proof. destruct a; simpl; [congruence | reflexivity]. Qed.

Lemma ends_with_app p a b :
  b <> EmptyString -> ends_with p (a +:+ b) = ends_with p b.
Proof.
  intros Hb. induction a as [| c r IH]; [reflexivity |].
  simpl. destruct (r +:+ b) eqn:E.
  - destruct r; simpl in E; [congruence | discriminate].
  - exact IH.
Qed.

(** *** [indexOf] at position 0 is a prefix test *)

Lemma indexOf_from_range needle s i :
  String.prefix needle s = false ->
  indexOf_from needle s i = -1 \/ i < indexOf_from needle s i.
Proof.
  revert i. induction s as [| c r IH]; intros i Hp.
  - cbn [indexOf_from]. rewrite Hp. left. reflexivity.
  - cbn [indexOf_from]. rewrite Hp.
    destruct (bool_dec (String.prefix needle r) true) as [E | E].
    + right. destruct r; cbn [indexOf_from]; rewrite E; lia.
    + apply not_true_is_false in E.
      destruct (IH (i + 1) E) as [-> | H]; [left; reflexivity | right; lia].
Qed.

Lemma indexOf_zero s needle :
  (indexOf s needle =? 0) = String.prefix needle s.
Proof.
  unfold indexOf. destruct (String.prefix needle s) eqn:E.
  - destruct s; cbn [indexOf_from]; rewrite E; reflexivity.
  - destruct (indexOf_from_range needle s 0 E) as [-> | H]; [reflexivity |].
    apply Z.eqb_neq. lia.
Qed.

(** *** Looking for [name=] at the head of [n=v] *)

Lemma prefix_name_eq name n v :
  lacks "=" name = true -> lacks "=" n = true ->
  String.prefix (name +:+ "=") (n +:+ String "=" v) = String.eqb name n.
Proof.
  unfold lacks. revert n.
  induction name as [| c r IH]; intros [| c' r'];
    cbn [String.prefix String.append all_chars String.eqb].
  - intros _ _. destruct (ascii_dec "=" "=") as [_ | Hne]; [| congruence].
    destruct v; reflexivity.
  - intros _ [Hc _]%andb_prop. apply negb_true_iff, Ascii.eqb_neq in Hc.
    destruct (ascii_dec "=" c') as [<- | Hne]; [congruence | reflexivity].
  - intros [Hc _]%andb_prop _. apply negb_true_iff, Ascii.eqb_neq in Hc.
    destruct (ascii_dec c "=") as [-> | Hne]; [congruence | reflexivity].
  - intros [_ Hr]%andb_prop [_ Hr']%andb_prop.
    destruct (ascii_dec c c') as [<- | Hne].
    + rewrite Ascii.eqb_refl. apply IH; assumption.
    + apply Ascii.eqb_neq in Hne. rewrite Hne. reflexivity.
Qed.

Lemma prefix_no_sep name s :
  lacks "=" s = true -> String.prefix (name +:+ "=") s = false.
Proof.
  unfold lacks. revert s.
  induction name as [| c r IH]; intros [| c' r'];
    cbn [String.prefix String.append all_chars]; try reflexivity.
  - intros [Hc _]%andb_prop. apply negb_true_iff, Ascii.eqb_neq in Hc.
    destruct (ascii_dec "=" c') as [<- | Hne]; [congruence | reflexivity].
  - intros [_ Hr]%andb_prop. destruct (ascii_dec c c'); [apply IH; assumption | reflexivity].
Qed.

Lemma substring_from_app a b : substring_from (String.length a) (a +:+ b) = b.
Proof. induction a; simpl; [destruct b; reflexivity | assumption]. Qed.

End StringFacts.

(* ===================================================================== *)
(** ** Facts about white space *)
(* ===================================================================== *)

Section WhiteSpaceFacts.
Import JsString.

Ltac cases_on_byte c := destruct c as [[] [] [] [] [] [] [] []].

Lemma white_space_one c : white_space (String c EmptyString) = is_white_space c.
Proof. cases_on_byte c; reflexivity. Qed.

(** A white-space character is made of white space of one byte or of
    bytes above 127, and of no more than three bytes. *)
Lemma white_space_long a b c d r :
  white_space (String a (String b (String c (String d r)))) = false.
Proof.
  cases_on_byte a; try reflexivity; cases_on_byte b; try reflexivity;
    cases_on_byte c; reflexivity.
Qed.

Lemma white_space_bytes s : white_space s = true -> all_chars is_space_or_high s = true.
Proof.
  destruct s as [| a [| b [| c [| d r]]]].
  - discriminate.
  - cases_on_byte a; try discriminate; reflexivity.
  - cases_on_byte a; try discriminate; cases_on_byte b; try discriminate; reflexivity.
  - cases_on_byte a; try discriminate; cases_on_byte b; try discriminate;
      cases_on_byte c; try discriminate; reflexivity.
  - rewrite white_space_long. discriminate.
Qed.

Lemma white_space_two a b :
  white_space (String a (String b EmptyString)) = true ->
  is_space_or_high a = true /\ is_space_or_high b = true.
Proof.
  intros H%white_space_bytes. cbn [all_chars] in H.
  apply andb_prop in H as [Ha [Hb _]%andb_prop]. auto.
Qed.

Lemma white_space_three a b c :
  white_space (String a (String b (String c EmptyString))) = true ->
  is_space_or_high a = true /\ is_space_or_high c = true.
Proof.
  intros H%white_space_bytes. cbn [all_chars] in H.
  apply andb_prop in H as [Ha [_ [Hc _]%andb_prop]%andb_prop]. auto.
Qed.

(** A string that holds a plain byte is no white-space character. *)
Lemma white_space_plain pre c rest :
  is_space_or_high c = false -> white_space (pre +:+ String c rest) = false.
Proof.
  intros Hc. destruct (white_space _) eqn:E; [| reflexivity].
  apply white_space_bytes in E. rewrite all_chars_app in E.
  cbn [all_chars] in E. rewrite Hc, andb_false_r in E. discriminate.
Qed.

Lemma is_white_space_high c : is_white_space c = true -> is_space_or_high c = true.
Proof. unfold is_space_or_high. intros ->. reflexivity. Qed.

(** What [white_space_head] removes is not empty. *)
Lemma white_space_head_length s r :
  white_space_head s = Some r -> (String.length r < String.length s)%nat.
Proof.
  unfold white_space_head.
  destruct s as [| a [| b [| c r3]]]; try discriminate;
    repeat match goal with
           | |- context [if ?x then _ else _] => destruct x
           end;
    intros [= <-]; cbn [String.length]; lia.
Qed.

Lemma trimStart_clean s : starts_with_white_space s = false -> trimStart s = s.
Proof.
  unfold starts_with_white_space, trimStart.
  destruct (white_space_head s) eqn:E; [discriminate |]. intros _.
  destruct (String.length s); cbn [trimStart_from]; [| rewrite E]; reflexivity.
Qed.

(** The fuel of [trimStart] is enough: what it returns does not start
    with white space. *)
Lemma trimStart_from_done fuel : forall s,
  (String.length s <= fuel)%nat ->
  starts_with_white_space (trimStart_from fuel s) = false.
Proof.
  unfold starts_with_white_space.
  induction fuel as [| fuel IH]; intros s Hlen.
  - destruct s; [reflexivity | cbn [String.length] in Hlen; lia].
  - cbn [trimStart_from]. destruct (white_space_head s) as [r |] eqn:E.
    + apply IH. apply white_space_head_length in E. lia.
    + rewrite E. reflexivity.
Qed.

Lemma trimStart_done s : starts_with_white_space (trimStart s) = false.
Proof. apply trimStart_from_done. lia. Qed.

Lemma trimStart_skip pre s :
  all_chars is_white_space pre = true -> trimStart (pre +:+ s) = trimStart s.
Proof.
  induction pre as [| c pre IH]; [reflexivity |].
  cbn [all_chars String.append]. intros [Hc Hpre]%andb_prop.
  rewrite <- (IH Hpre). unfold trimStart at 1. cbn [String.length trimStart_from].
  unfold white_space_head. rewrite white_space_one, Hc. reflexivity.
Qed.

Lemma trimEnd_clean s : ends_with_white_space s = false -> trimEnd s = s.
Proof.
  induction s as [| c r IH]; [reflexivity |].
  cbn [ends_with_white_space trimEnd]. intros [Hs Hr]%orb_false_elim.
  rewrite (IH Hr), Hs. reflexivity.
Qed.

Lemma trim_clean s :
  starts_with_white_space s = false -> ends_with_white_space s = false -> trim s = s.
Proof. intros H1 H2. unfold trim. rewrite trimStart_clean, trimEnd_clean; auto. Qed.

Lemma trim_skip pre s :
  all_chars is_white_space pre = true ->
  starts_with_white_space s = false -> ends_with_white_space s = false ->
  trim (pre +:+ s) = s.
Proof.
  intros Hpre H1 H2. unfold trim. rewrite trimStart_skip by exact Hpre.
  apply trim_clean; assumption.
Qed.

Lemma trim_all s : all_chars is_white_space s = true -> trim s = EmptyString.
Proof.
  intros H. unfold trim. rewrite <- (append_nil_r s), trimStart_skip by exact H.
  reflexivity.
Qed.

(** A string whose first byte is neither white space nor above 127 does
    not start with white space; the same at the end. *)
Lemma starts_with_space_or_high s :
  starts_with is_space_or_high s = false -> starts_with_white_space s = false.
Proof.
  unfold starts_with_white_space, white_space_head.
  destruct s as [| a r1]; [reflexivity |]. cbn [starts_with]. intros Ha.
  rewrite white_space_one.
  destruct (is_white_space a) eqn:E1;
    [apply is_white_space_high in E1; congruence |].
  destruct r1 as [| b r2]; [reflexivity |].
  destruct (white_space (String a (String b EmptyString))) eqn:E2;
    [apply white_space_two in E2 as [E2 _]; congruence |].
  destruct r2 as [| c r3]; [reflexivity |].
  destruct (white_space (String a (String b (String c EmptyString)))) eqn:E3;
    [apply white_space_three in E3 as [E3 _]; congruence | reflexivity].
Qed.

Lemma ends_with_space_or_high s :
  ends_with is_space_or_high s = false -> ends_with_white_space s = false.
Proof.
  induction s as [| a r IH]; [reflexivity |].
  cbn [ends_with_white_space]. intros H.
  destruct r as [| b r2].
  - cbn [ends_with] in H. rewrite white_space_one.
    destruct (is_white_space a) eqn:E1;
      [apply is_white_space_high in E1; congruence | reflexivity].
  - change (ends_with is_space_or_high (String a (String b r2)))
      with (ends_with is_space_or_high (String b r2)) in H.
    rewrite (IH H), orb_false_r.
    destruct r2 as [| c r3].
    + destruct (white_space _) eqn:E2; [| reflexivity].
      apply white_space_two in E2 as [_ E2]. cbn [ends_with] in H. congruence.
    + destruct r3 as [| d r4]; [| apply white_space_long].
      destruct (white_space _) eqn:E3; [| reflexivity].
      apply white_space_three in E3 as [_ E3]. cbn [ends_with] in H. congruence.
Qed.

(** White space at the ends of a string that continues, or is preceded,
    with a plain byte. *)
Lemma starts_with_white_space_app s c rest :
  s <> EmptyString -> is_space_or_high c = false ->
  starts_with_white_space s = false ->
  starts_with_white_space (s +:+ String c rest) = false.
Proof.
  intros Hne Hc. unfold starts_with_white_space, white_space_head.
  destruct s as [| a [| b [| d r3]]]; [congruence | | |]; cbn [String.append].
  - pose proof (white_space_plain (String a EmptyString) c EmptyString Hc) as P1.
    cbn [String.append] in P1.
    destruct (white_space (String a EmptyString)); [discriminate |]. intros _.
    rewrite P1. destruct rest as [| e rest']; [reflexivity |].
    pose proof (white_space_plain (String a EmptyString) c (String e EmptyString) Hc) as P2.
    cbn [String.append] in P2. rewrite P2. reflexivity.
  - pose proof (white_space_plain (String a (String b EmptyString)) c EmptyString Hc) as P1.
    cbn [String.append] in P1.
    destruct (white_space (String a EmptyString)); [discriminate |].
    destruct (white_space (String a (String b EmptyString))); [discriminate |]. intros _.
    rewrite P1. reflexivity.
  - destruct (white_space (String a EmptyString)); [discriminate |].
    destruct (white_space (String a (String b EmptyString))); [discriminate |].
    destruct (white_space (String a (String b (String d EmptyString))));
      [discriminate | reflexivity].
Qed.

Lemma ends_with_white_space_app pre c s :
  is_space_or_high c = false ->
  ends_with_white_space s = false ->
  ends_with_white_space (pre +:+ String c s) = false.
Proof.
  intros Hc Hs. induction pre as [| a pre IH].
  - pose proof (white_space_plain EmptyString c s Hc) as P.
    cbn [String.append] in P.
    cbn [String.append ends_with_white_space]. rewrite P, Hs. reflexivity.
  - cbn [String.append ends_with_white_space]. rewrite IH, orb_false_r.
    exact (white_space_plain (String a pre) c s Hc).
Qed.

(** The same for a string all of whose bytes are plain. *)
Lemma starts_with_none p s :
  all_chars (fun c => negb (p c)) s = true -> starts_with p s = false.
Proof.
  destruct s as [| c r]; [reflexivity |]. cbn [all_chars starts_with].
  intros [Hc _]%andb_prop. destruct (p c); [discriminate | reflexivity].
Qed.

Lemma ends_with_none p s :
  all_chars (fun c => negb (p c)) s = true -> ends_with p s = false.
Proof.
  induction s as [| c r IH]; [reflexivity |]. cbn [all_chars].
  intros [Hc Hr]%andb_prop. destruct r as [| c' r'].
  - cbn [ends_with]. destruct (p c); [discriminate | reflexivity].
  - exact (IH Hr).
Qed.

Lemma plain_edges s :
  all_chars (fun c => negb (is_space_or_high c)) s = true ->
  starts_with_white_space s = false /\ ends_with_white_space s = false.
Proof.
  intros H. split.
  - apply starts_with_space_or_high, starts_with_none, H.
  - apply ends_with_space_or_high, ends_with_none, H.
Qed.

(** An ASCII string with no white space of one byte at its ends. *)
Lemma ascii_edges s :
  all_chars (fun c => negb (127 <? N_of_ascii c)%N) s = true ->
  starts_with is_white_space s = false -> ends_with is_white_space s = false ->
  starts_with_white_space s = false /\ ends_with_white_space s = false.
Proof.
  intros Hascii Hs He. split.
  - apply starts_with_space_or_high. destruct s as [| c r]; [reflexivity |].
    cbn [all_chars starts_with] in *. apply andb_prop in Hascii as [Hc _].
    unfold is_space_or_high. rewrite Hs. destruct (127 <? N_of_ascii c)%N;
      [discriminate | reflexivity].
  - apply ends_with_space_or_high. clear Hs.
    induction s as [| c r IH]; [reflexivity |].
    cbn [all_chars] in Hascii. apply andb_prop in Hascii as [Hc Hr].
    destruct r as [| c' r'].
    + cbn [ends_with] in *. unfold is_space_or_high. rewrite He.
      destruct (127 <? N_of_ascii c)%N; [discriminate | reflexivity].
    + exact (IH Hr He).
Qed.

End WhiteSpaceFacts.

(* ===================================================================== *)
(** ** The reference [JSON] on arrays of flags *)
(* ===================================================================== *)

Section ReferenceJson.
Import JsString Js Json.

Lemma length_append a b : String.length (a +:+ b) = (String.length a + String.length b)%nat.
Proof. induction a; simpl; congruence. Qed.

Lemma stringify_flags bs :
  stringify (VArray (map VBool bs))
  = Some ("[" +:+ join "," (map flag_text bs) +:+ "]").
Proof.
  cbn [stringify]. rewrite map_map. do 4 f_equal.
  apply map_ext. intros []; reflexivity.
Qed.

Lemma prefix_app word rest : String.prefix word (word +:+ rest) = true.
Proof.
  induction word as [| c r IH]; cbn [String.prefix String.append].
  - destruct rest; reflexivity.
  - destruct (ascii_dec c c); [exact IH | congruence].
Qed.

Lemma expect_app word v rest : expect word v (word +:+ rest) = Some (v, rest).
Proof. unfold expect. rewrite prefix_app, substring_from_app. reflexivity. Qed.

Lemma parse_value_flag f b rest :
  parse_value (S f) (flag_text b +:+ rest) = Some (VBool b, rest).
Proof.
  destruct b; cbn [parse_value flag_text String.append skip_space strip_start is_json_space].
  - apply (expect_app "true").
  - apply (expect_app "false").
Qed.

Lemma parse_elements_step f s :
  parse_elements (S f) s
  = match parse_value f s with
    | Some (v, r) =>
        match skip_space r with
        | String "]" rest => Some ([v], rest)
        | String "," r' =>
            match parse_elements f r' with
            | Some (vs, rest) => Some (v :: vs, rest)
            | None => None
            end
        | _ => None
        end
    | None => None
    end.
Proof. reflexivity. Qed.

Lemma parse_elements_flags bs : forall b rest fuel,
  (length bs + 2 <= fuel)%nat ->
  parse_elements fuel (join "," (map flag_text (b :: bs)) +:+ String "]" rest)
  = Some (map VBool (b :: bs), rest).
Proof.
  induction bs as [| b' bs IH]; intros b rest fuel Hfuel.
  - destruct fuel as [| [| f]]; [simpl in Hfuel; lia | simpl in Hfuel; lia |].
    cbn [map join]. rewrite parse_elements_step, parse_value_flag. reflexivity.
  - destruct fuel as [| [| f]]; [simpl in Hfuel; lia | simpl in Hfuel; lia |].
    change (join "," (map flag_text (b :: b' :: bs)))
      with (flag_text b +:+ String "," (join "," (map flag_text (b' :: bs)))).
    rewrite append_assoc, parse_elements_step, parse_value_flag.
    change (skip_space (String "," (join "," (map flag_text (b' :: bs))) +:+ String "]" rest))
      with (String "," (join "," (map flag_text (b' :: bs)) +:+ String "]" rest)).
    cbv iota. rewrite IH by (simpl in Hfuel |- *; lia). reflexivity.
Qed.

Lemma length_flags bs : (length bs <= String.length (join "," (map flag_text bs)))%nat.
Proof.
  induction bs as [| b [| b' bs] IH]; [simpl; lia | destruct b; simpl; lia |].
  change (join "," (map flag_text (b :: b' :: bs)))
    with (flag_text b +:+ String "," (join "," (map flag_text (b' :: bs)))).
  rewrite length_append. cbn [String.length]. simpl in IH |- *. lia.
Qed.

Lemma parse_value_array f r :
  parse_value (S f) (String "[" r)
  = match skip_space r with
    | String "]" rest => Some (VArray [], rest)
    | _ =>
        match parse_elements f r with
        | Some (items, rest) => Some (VArray items, rest)
        | None => None
        end
    end.
Proof. reflexivity. Qed.

(** The reference [JSON] reads back every array of flags it writes. *)
Lemma reference_round_trip_flags bs :
  exists text,
    stringify (VArray (map VBool bs)) = Some text
    /\ parse text = Normal (VArray (map VBool bs)).
Proof.
  eexists. split; [apply stringify_flags |].
  unfold parse.
  destruct bs as [| b bs]; [reflexivity |].
  pose proof (length_flags (b :: bs)) as Hlen.
  assert (Hbody : exists c r,
            join "," (map flag_text (b :: bs)) +:+ "]" = String c r
            /\ is_json_space c = false /\ c <> "]"%char).
  { destruct bs; destruct b; cbn [map join flag_text String.append];
      do 2 eexists; repeat split; discriminate. }
  destruct Hbody as (c & r & Hcr & Hsp & Hclose).
  replace (2 * String.length ("[" +:+ join "," (map flag_text (b :: bs)) +:+ "]") + 2)%nat
    with (S (S (2 * String.length (join "," (map flag_text (b :: bs))) + 4))).
  2: { cbn [String.append String.length]. rewrite length_append. simpl. lia. }
  change ("[" +:+ join "," (map flag_text (b :: bs)) +:+ "]")
    with (String "[" (join "," (map flag_text (b :: bs)) +:+ "]")).
  rewrite parse_value_array.
  rewrite parse_elements_flags by (simpl in Hlen |- *; lia).
  rewrite Hcr. unfold skip_space. cbn [strip_start]. rewrite Hsp.
  destruct c as [[] [] [] [] [] [] [] []]; try reflexivity. congruence.
Qed.

End ReferenceJson.

(* ===================================================================== *)
(** ** Facts about numbers and their decimal text *)
(* ===================================================================== *)

Section NumberFacts.
Import JsString JsNumber.

Ltac by_cases_on_char c :=
  destruct c as [[] [] [] [] [] [] [] []]; try reflexivity; try discriminate.

Lemma digit_cases d : 0 <= d < 10 ->
  d = 0 \/ d = 1 \/ d = 2 \/ d = 3 \/ d = 4 \/ d = 5 \/ d = 6 \/ d = 7 \/ d = 8 \/ d = 9.
Proof. lia. Qed.

Ltac by_cases_on_digit H :=
  apply digit_cases in H;
  repeat (destruct H as [H | H]; [subst; try reflexivity |]); subst; try reflexivity.

Lemma digit_value_char d : 0 <= d < 10 -> digit_value 10 (digit_char d) = Some d.
Proof. intros H. by_cases_on_digit H. Qed.

Lemma is_digit_char d : 0 <= d < 10 -> is_digit (digit_char d) = true.
Proof. intros H. by_cases_on_digit H. Qed.

Lemma is_digit_value c : is_digit c = true -> exists v, digit_value 10 c = Some v.
Proof. by_cases_on_char c; intros _; eexists; reflexivity. Qed.

Lemma is_digit_not_space c : is_digit c = true -> is_white_space c = false.
Proof. by_cases_on_char c. Qed.

Lemma is_digit_plain c : is_digit c = true -> is_space_or_high c = false.
Proof. by_cases_on_char c. Qed.

Lemma digits_step f n :
  digits (S f) n
  = (if n <? 10 then EmptyString else digits f (n / 10))
    +:+ String (digit_char (n mod 10)) EmptyString.
Proof. reflexivity. Qed.

Lemma all_digits_digits f n : 0 <= n -> all_chars is_digit (digits f n) = true.
Proof.
  revert n. induction f as [| f IH]; intros n Hn; [reflexivity |].
  rewrite digits_step, all_chars_app.
  cbn [all_chars]. rewrite is_digit_char by (apply Z.mod_pos_bound; lia).
  destruct (n <? 10); [reflexivity |].
  rewrite IH by (apply Z.div_pos; lia). reflexivity.
Qed.

Lemma digits_not_empty f n : digits (S f) n <> EmptyString.
Proof.
  rewrite digits_step. destruct (if n <? 10 then _ else _); simpl; discriminate.
Qed.

(** Reading back the digits written for [n] yields [n]. *)
Lemma digits_value_digits f n rest :
  0 <= n < 10 ^ Z.of_nat f ->
  digits_value 10 (digits f n +:+ rest) 0 = digits_value 10 rest n.
Proof.
  revert n rest. induction f as [| f IH]; intros n rest Hn.
  - simpl in Hn. assert (n = 0) by lia. subst. reflexivity.
  - rewrite Nat2Z.inj_succ, Z.pow_succ_r in Hn by lia.
    rewrite digits_step, append_assoc.
    assert (Hd : 0 <= n mod 10 < 10) by (apply Z.mod_pos_bound; lia).
    destruct (Z.ltb_spec n 10) as [Hlt | Hge].
    + cbn [String.append digits_value].
      rewrite digit_value_char by exact Hd.
      rewrite Z.mod_small by lia. f_equal.
    + rewrite IH.
      * cbn [String.append digits_value]. rewrite digit_value_char by exact Hd.
        f_equal. pose proof (Z.div_mod n 10). lia.
      * split; [apply Z.div_pos; lia | apply Z.div_lt_upper_bound; lia].
Qed.

Lemma strip_hex_prefix_digits s : all_chars is_digit s = true -> strip_hex_prefix s = None.
Proof.
  destruct s as [| c [| c' r]]; [reflexivity | |].
  - by_cases_on_char c.
  - cbn [all_chars]. intros [_ [Hc' _]%andb_prop]%andb_prop. revert Hc'.
    by_cases_on_char c; by_cases_on_char c'.
Qed.

Lemma parseInt_digits s :
  all_chars is_digit s = true -> s <> EmptyString ->
  parseInt s = Some (digits_value 10 s 0)
  /\ parseInt (String "-" s) = Some (- digits_value 10 s 0).
Proof.
  intros Hs Hne. pose proof (strip_hex_prefix_digits s Hs) as Hhex.
  destruct s as [| c r]; [congruence |]. clear Hne.
  pose proof Hs as Hc. cbn [all_chars] in Hc. apply andb_prop in Hc as [Hc _].
  destruct (is_digit_value c Hc) as [v Hv].
  split.
  - unfold parseInt. rewrite trimStart_clean
      by (apply starts_with_space_or_high; cbn [starts_with];
          apply is_digit_plain; exact Hc).
    assert (Hsign : match String c r with
                    | String "-" r0 => (-1, r0)
                    | String "+" r0 => (1, r0)
                    | _ => (1, String c r)
                    end = (1, String c r)).
    { revert Hc. clear. by_cases_on_char c. }
    rewrite Hsign, Hhex. unfold parse_digits. rewrite Hv. f_equal; lia.
  - unfold parseInt. rewrite trimStart_clean
      by (apply starts_with_space_or_high; reflexivity).
    rewrite Hhex. unfold parse_digits. rewrite Hv. f_equal; lia.
Qed.

Lemma toString_not_empty n : toString n <> EmptyString.
Proof. unfold toString. destruct (n <? 0); [discriminate | apply digits_not_empty]. Qed.

(** [parseInt(String(n))] is [n], for an integer printed in plain
    decimal. *)
Lemma parseInt_toString n :
  Z.abs n < 10 ^ 21 -> parseInt (toString n) = Some n.
Proof.
  intros Hn. unfold toString. destruct (Z.ltb_spec n 0) as [Hneg | Hpos].
  - destruct (parseInt_digits (digits 21 (- n))) as [_ ->].
    + apply all_digits_digits. lia.
    + apply digits_not_empty.
    + rewrite <- (append_nil_r (digits 21 (- n))), digits_value_digits.
      * cbn [digits_value]. f_equal. lia.
      * change (Z.of_nat 21) with 21. lia.
  - destruct (parseInt_digits (digits 21 n)) as [-> _].
    + apply all_digits_digits. lia.
    + apply digits_not_empty.
    + rewrite <- (append_nil_r (digits 21 n)), digits_value_digits.
      * reflexivity.
      * change (Z.of_nat 21) with 21. lia.
Qed.

(** [Math.ceil] of a quotient: the least integer not below it. *)
Lemma ceil_div_spec n d :
  0 < d -> d * (ceil_div n d - 1) < n <= d * ceil_div n d.
Proof.
  intros Hd. unfold ceil_div.
  pose proof (Z.div_mod (- n) d). pose proof (Z.mod_pos_bound (- n) d). lia.
Qed.

Lemma ceil_div_exact k d : 0 < d -> ceil_div (k * d) d = k.
Proof.
  intros Hd. unfold ceil_div.
  replace (- (k * d)) with ((- k) * d) by lia. rewrite Z.div_mul by lia. lia.
Qed.

End NumberFacts.

(* ===================================================================== *)
(** ** Facts about dates: the calendar and the text of a date *)
(* ===================================================================== *)

Section DateFacts.
Import JsString JsNumber JsDate.

Lemma all_from_spec f n :
  forall z, all_from f z n = true -> forall x, z <= x < z + Z.of_nat n -> f x = true.
Proof.
  induction n as [| k IH]; intros z H x Hx; [lia |].
  cbn [all_from] in H. apply andb_prop in H as [Hz Hrest].
  destruct (Z.eq_dec x z) as [-> | Hne]; [exact Hz |].
  apply (IH (z + 1)); [exact Hrest | lia].
Qed.

(** Every day of an era passes the check: all 146097 of them are run. *)
Lemma era_days_ok : all_from era_day_ok 0 (Z.to_nat 146097) = true.
Proof. vm_compute. reflexivity. Qed.

Lemma era_day_ok_all doe : 0 <= doe < 146097 -> era_day_ok doe = true.
Proof. intros H. apply (all_from_spec _ _ 0 era_days_ok). lia. Qed.

Lemma civil_from_days_era days :
  civil_from_days days
  = let era := (days + 719468) / 146097 in
    let '(yoe, _, _, d, m) := era_fields (days + 719468 - era * 146097) in
    (yoe + era * 400 + (if m <=? 2 then 1 else 0), m, d).
Proof. reflexivity. Qed.

(** The calendar date of a day leads back to the day, its month and day
    of the month are in range, and from 1970 to the end of year 9999 its
    year has four digits. *)
Lemma civil_from_days_spec days y m d :
  civil_from_days days = (y, m, d) ->
  days_from_civil y m d = days
  /\ 1 <= m <= 12 /\ 1 <= d <= 31
  /\ (0 <= days < 2932897 -> 1970 <= y <= 9999).
Proof.
  rewrite civil_from_days_era. cbv zeta.
  set (era := (days + 719468) / 146097).
  assert (Hera : 0 <= days < 2932897 -> 4 <= era <= 24).
  { intros Hdays. subst era.
    pose proof (Z.div_mod (days + 719468) 146097).
    pose proof (Z.mod_pos_bound (days + 719468) 146097). lia. }
  set (doe := days + 719468 - era * 146097).
  assert (Hdoe : 0 <= doe < 146097).
  { subst doe era. pose proof (Z.div_mod (days + 719468) 146097).
    pose proof (Z.mod_pos_bound (days + 719468) 146097). lia. }
  pose proof (era_day_ok_all doe Hdoe) as Hok.
  unfold era_day_ok in Hok.
  destruct (era_fields doe) as [[[[yoe doy] mp] d'] m'].
  intros [= <- <- <-].
  repeat (apply andb_prop in Hok as [Hok ?]).
  repeat match goal with
         | H : (_ <=? _) = true |- _ => apply Z.leb_le in H
         | H : (_ <? _) = true |- _ => apply Z.ltb_lt in H
         | H : (_ =? _) = true |- _ => apply Z.eqb_eq in H
         end.
  split; [| split; [lia | split; [lia |]]].
  - unfold days_from_civil.
    replace (yoe + era * 400 + (if m' <=? 2 then 1 else 0) - (if m' <=? 2 then 1 else 0))
      with (yoe + era * 400) by lia.
    rewrite Z.div_add, (Z.div_small yoe 400) by lia.
    replace (yoe + era * 400 - (0 + era) * 400) with yoe by lia.
    match goal with H : (if 2 <? m' then _ else _) = mp |- _ => rewrite H end.
    subst doe. lia.
  - intros Hdays. specialize (Hera Hdays).
    repeat match goal with
           | H : (_ || _) = true |- _ => apply orb_prop in H
           end.
    repeat match goal with
           | H : (_ <=? _) = true \/ _ |- _ => rewrite Z.leb_le in H
           | H : (_ <? _) = true \/ _ |- _ => rewrite Z.ltb_lt in H
           | H : _ \/ (_ <=? _) = true |- _ => rewrite Z.leb_le in H
           end.
    subst doe. destruct (m' <=? 2); lia.
Qed.

Lemma weekday_name_shape w :
  exists a b c,
    weekday_name w = String a (String b (String c EmptyString))
    /\ is_letter a = true /\ is_letter b = true /\ is_letter c = true.
Proof.
  unfold weekday_name.
  repeat match goal with
         | |- context [match ?x with _ => _ end] => destruct x
         end; do 3 eexists; repeat split; reflexivity.
Qed.

Lemma month_name_shape m :
  1 <= m <= 12 ->
  exists a b c,
    month_name m = String a (String b (String c EmptyString))
    /\ is_letter a = true /\ is_letter b = true /\ is_letter c = true
    /\ month_of_name a b c = Some m.
Proof.
  intros H.
  assert (Hm : m = 1 \/ m = 2 \/ m = 3 \/ m = 4 \/ m = 5 \/ m = 6 \/ m = 7 \/ m = 8
               \/ m = 9 \/ m = 10 \/ m = 11 \/ m = 12) by lia.
  repeat (destruct Hm as [-> | Hm]; [do 3 eexists; repeat split; reflexivity |]).
  subst. do 3 eexists; repeat split; reflexivity.
Qed.

Lemma year_string_four y : 1000 <= y <= 9999 -> year_string y = year4 y.
Proof.
  intros Hy. unfold year_string.
  destruct (Z.ltb_spec y 0) as [? | _]; [lia |].
  rewrite Z.abs_eq by lia.
  rewrite (digits_step 20 y), (digits_step 19 (y / 10)),
    (digits_step 18 (y / 10 / 10)), (digits_step 17 (y / 10 / 10 / 10)).
  destruct (Z.ltb_spec y 10) as [? | _]; [lia |].
  destruct (Z.ltb_spec (y / 10) 10) as [? | _]; [Z.div_mod_to_equations; lia |].
  destruct (Z.ltb_spec (y / 10 / 10) 10) as [? | _]; [Z.div_mod_to_equations; lia |].
  destruct (Z.ltb_spec (y / 10 / 10 / 10) 10) as [_ | ?]; [| Z.div_mod_to_equations; lia].
  reflexivity.
Qed.

Lemma number2_pad n a :
  0 <= n < 100 -> a = n ->
  number2 (digit_char (n / 10)) (digit_char (n mod 10)) = Some a.
Proof.
  intros Hn ->. unfold number2.
  rewrite !digit_value_char by (Z.div_mod_to_equations; lia).
  f_equal. Z.div_mod_to_equations; lia.
Qed.

Lemma number4_year y :
  0 <= y < 10000 ->
  number4 (digit_char (y / 10 / 10 / 10 mod 10)) (digit_char (y / 10 / 10 mod 10))
    (digit_char (y / 10 mod 10)) (digit_char (y mod 10)) = Some y.
Proof.
  intros Hy. unfold number4, number2.
  rewrite !digit_value_char by (Z.div_mod_to_equations; lia).
  f_equal. Z.div_mod_to_equations; lia.
Qed.

(** The cookie store reads a date text back into the time of its fields. *)
Lemma parse_date_text w1 w2 w3 d m1 m2 m3 m y h n s :
  0 <= d < 100 -> 0 <= y < 10000 -> 0 <= h < 100 -> 0 <= n < 100 -> 0 <= s < 100 ->
  month_of_name m1 m2 m3 = Some m ->
  parse_cookie_date (date_text w1 w2 w3 d m1 m2 m3 y h n s)
  = time_of_fields d m y h n s.
Proof.
  intros Hd Hy Hh Hn Hs Hm.
  unfold parse_cookie_date, date_text, pad2, year4.
  cbn [String.append list_ascii_of_string].
  cbn [forallb Ascii.eqb Bool.eqb andb].
  rewrite Hm, (number2_pad d d), (number2_pad h h), (number2_pad n n),
    (number2_pad s s), number4_year by (assumption || reflexivity).
  reflexivity.
Qed.

Lemma date_char_digit d : 0 <= d < 10 -> date_char (digit_char d) = true.
Proof. intros H. unfold date_char. rewrite (is_digit_char d H), orb_true_r. reflexivity. Qed.

Lemma date_char_letter c : is_letter c = true -> date_char c = true.
Proof. intros H. unfold date_char. rewrite H. reflexivity. Qed.

Lemma date_text_chars w1 w2 w3 d m1 m2 m3 y h n s :
  is_letter w1 = true -> is_letter w2 = true -> is_letter w3 = true ->
  is_letter m1 = true -> is_letter m2 = true -> is_letter m3 = true ->
  0 <= d < 100 -> 0 <= y < 10000 -> 0 <= h < 100 -> 0 <= n < 100 -> 0 <= s < 100 ->
  all_chars date_char (date_text w1 w2 w3 d m1 m2 m3 y h n s) = true
  /\ starts_with is_white_space (date_text w1 w2 w3 d m1 m2 m3 y h n s) = false
  /\ ends_with is_white_space (date_text w1 w2 w3 d m1 m2 m3 y h n s) = false.
Proof.
  intros. unfold date_text, pad2, year4.
  cbn [String.append all_chars starts_with ends_with].
  rewrite (date_char_letter w1), (date_char_letter w2), (date_char_letter w3),
    (date_char_letter m1), (date_char_letter m2), (date_char_letter m3) by assumption.
  rewrite !date_char_digit by (Z.div_mod_to_equations; lia).
  split; [reflexivity | split; [| reflexivity]].
  match goal with H : is_letter w1 = true |- _ => revert H end.
  clear. destruct w1 as [[] [] [] [] [] [] [] []]; intros H; try reflexivity; discriminate.
Qed.

(** The shape of [toUTCString] between 1970 and the end of year 9999. *)
Lemma toUTCString_shape t :
  0 <= t < year_10000 ->
  exists w1 w2 w3 m1 m2 m3 y m d,
    let in_day := t mod 86400000 in
    toUTCString (Some t)
    = date_text w1 w2 w3 d m1 m2 m3 y (in_day / 3600000)
        (in_day mod 3600000 / 60000) (in_day mod 60000 / 1000)
    /\ civil_from_days (t / 86400000) = (y, m, d)
    /\ month_of_name m1 m2 m3 = Some m
    /\ is_letter w1 = true /\ is_letter w2 = true /\ is_letter w3 = true
    /\ is_letter m1 = true /\ is_letter m2 = true /\ is_letter m3 = true.
Proof.
  intros Ht. unfold toUTCString, year_10000 in *.
  destruct (civil_from_days (t / 86400000)) as [[y m] d] eqn:Hc.
  destruct (civil_from_days_spec _ _ _ _ Hc) as (_ & Hm & Hd & Hy).
  assert (Hdays : 0 <= t / 86400000 < 2932897) by (Z.div_mod_to_equations; lia).
  specialize (Hy Hdays).
  destruct (weekday_name_shape ((t / 86400000 + 4) mod 7)) as (w1 & w2 & w3 & -> & ? & ? & ?).
  destruct (month_name_shape m Hm) as (m1 & m2 & m3 & -> & ? & ? & ? & ?).
  exists w1, w2, w3, m1, m2, m3, y, m, d.
  rewrite year_string_four by lia.
  repeat split; try assumption.
Qed.

(** Read by the cookie store, the text [toUTCString] writes for the time
    [t] is [t] cut to the second. *)
Lemma parse_toUTCString t :
  0 <= t < year_10000 ->
  parse_cookie_date (toUTCString (Some t)) = Some (1000 * (t / 1000)).
Proof.
  intros Ht.
  destruct (toUTCString_shape t Ht)
    as (w1 & w2 & w3 & m1 & m2 & m3 & y & m & d & -> & Hc & Hmon & _).
  destruct (civil_from_days_spec _ _ _ _ Hc) as (Hback & Hm & Hd & Hy).
  unfold year_10000 in Ht.
  assert (Hdays : 0 <= t / 86400000 < 2932897) by (Z.div_mod_to_equations; lia).
  specialize (Hy Hdays).
  rewrite (parse_date_text _ _ _ _ _ _ _ m) by (assumption || (Z.div_mod_to_equations; lia)).
  unfold time_of_fields.
  destruct (Z.leb_spec 70 y); destruct (Z.leb_spec y 99); try lia;
    destruct (Z.leb_spec 0 y); destruct (Z.leb_spec y 69); try lia; cbn [andb].
  rewrite Hback.
  repeat match goal with
         | |- context [?a <=? ?b] =>
             destruct (Z.leb_spec a b); [| Z.div_mod_to_equations; lia]
         end.
  cbn [andb]. f_equal. Z.div_mod_to_equations; lia.
Qed.

Lemma toUTCString_chars t :
  0 <= t < year_10000 ->
  all_chars date_char (toUTCString (Some t)) = true
  /\ starts_with is_white_space (toUTCString (Some t)) = false
  /\ ends_with is_white_space (toUTCString (Some t)) = false.
Proof.
  intros Ht.
  destruct (toUTCString_shape t Ht)
    as (w1 & w2 & w3 & m1 & m2 & m3 & y & m & d & -> & Hc & Hmon & ? & ? & ? & ? & ? & ?).
  destruct (civil_from_days_spec _ _ _ _ Hc) as (Hback & Hm & Hd & Hy).
  unfold year_10000 in Ht.
  assert (Hdays : 0 <= t / 86400000 < 2932897) by (Z.div_mod_to_equations; lia).
  specialize (Hy Hdays).
  apply date_text_chars; try assumption; Z.div_mod_to_equations; lia.
Qed.

End DateFacts.

(* ===================================================================== *)
(** ** Facts about the cookie store *)
(* ===================================================================== *)

Section CookieStoreFacts.
Import JsString JsNumber JsDate Browser.

Lemma is_wsp_white_space c : is_white_space c = false -> is_wsp c = false.
Proof. destruct c as [[] [] [] [] [] [] [] []]; try reflexivity; discriminate. Qed.

Lemma starts_with_wsp s :
  starts_with_white_space s = false -> starts_with is_wsp s = false.
Proof.
  destruct s as [| c r]; [reflexivity |].
  unfold starts_with_white_space, white_space_head. rewrite white_space_one.
  cbn [starts_with]. destruct (is_white_space c) eqn:E; [discriminate |].
  intros _. apply is_wsp_white_space, E.
Qed.

Lemma ends_with_wsp s :
  ends_with_white_space s = false -> ends_with is_wsp s = false.
Proof.
  induction s as [| c r IH]; [reflexivity |].
  cbn [ends_with_white_space]. intros [Hs Hr]%orb_false_elim.
  destruct r as [| c' r'].
  - cbn [ends_with]. rewrite white_space_one in Hs. apply is_wsp_white_space, Hs.
  - exact (IH Hr).
Qed.

Lemma clean_edges_spec s :
  clean_edges s = true ->
  starts_with_white_space s = false /\ ends_with_white_space s = false.
Proof.
  unfold clean_edges. intros [H1 H2]%andb_prop.
  apply negb_true_iff in H1, H2. auto.
Qed.

Lemma clean_edges_intro s :
  starts_with_white_space s = false -> ends_with_white_space s = false ->
  clean_edges s = true.
Proof. unfold clean_edges. intros -> ->. reflexivity. Qed.

Lemma strip_wsp_clean s : clean_edges s = true -> strip is_wsp s = s.
Proof.
  intros [H1 H2]%clean_edges_spec.
  apply strip_clean; [apply starts_with_wsp | apply ends_with_wsp]; assumption.
Qed.

Lemma date_char_ascii c : date_char c = true -> negb (127 <? N_of_ascii c)%N = true.
Proof. destruct c as [[] [] [] [] [] [] [] []]; try reflexivity; discriminate. Qed.

(** A date text with no space at its ends has clean edges. *)
Lemma date_clean_edges date :
  all_chars date_char date = true ->
  starts_with is_white_space date = false -> ends_with is_white_space date = false ->
  clean_edges date = true.
Proof.
  intros Hchars Hs He.
  destruct (ascii_edges date) as [H1 H2]; try assumption.
  - apply (all_chars_impl date_char); [apply date_char_ascii | exact Hchars].
  - apply clean_edges_intro; assumption.
Qed.

Lemma token_char_spec c :
  token_char c = true ->
  negb (Ascii.eqb c ";") = true /\ negb (Ascii.eqb c "=") = true /\ negb (is_ctl c) = true.
Proof.
  unfold token_char. intros [[H1 H2]%andb_prop H3]%andb_prop. auto.
Qed.

Lemma text_char_spec c :
  text_char c = true -> negb (Ascii.eqb c ";") = true /\ negb (is_ctl c) = true.
Proof. unfold text_char. intros [H1 H2]%andb_prop. auto. Qed.

Lemma date_char_text c : date_char c = true -> text_char c = true.
Proof. destruct c as [[] [] [] [] [] [] [] []]; try reflexivity; discriminate. Qed.

Lemma is_digit_text c : is_digit c = true -> text_char c = true.
Proof. destruct c as [[] [] [] [] [] [] [] []]; try reflexivity; discriminate. Qed.

Lemma cookie_name_ok_spec s :
  cookie_name_ok s = true ->
  s <> EmptyString /\ lacks ";" s = true /\ lacks "=" s = true
  /\ all_chars (fun c => negb (is_ctl c)) s = true /\ clean_edges s = true.
Proof.
  unfold cookie_name_ok, lacks. intros [[H1 H2]%andb_prop H3]%andb_prop.
  repeat split; try assumption.
  - destruct s; [discriminate | congruence].
  - apply (all_chars_impl token_char); [apply token_char_spec | exact H2].
  - apply (all_chars_impl token_char); [apply token_char_spec | exact H2].
  - apply (all_chars_impl token_char); [apply token_char_spec | exact H2].
Qed.

Lemma cookie_value_ok_spec s :
  cookie_value_ok s = true ->
  lacks ";" s = true /\ all_chars (fun c => negb (is_ctl c)) s = true
  /\ clean_edges s = true.
Proof.
  unfold cookie_value_ok, lacks. intros [H1 H2]%andb_prop.
  repeat split; try assumption.
  - apply (all_chars_impl text_char); [apply text_char_spec | exact H1].
  - apply (all_chars_impl text_char); [apply text_char_spec | exact H1].
Qed.

(** The text of a number is a well-formed cookie value. *)
Lemma toString_value_ok n : 0 <= n -> cookie_value_ok (toString n) = true.
Proof.
  intros Hn. unfold toString. destruct (Z.ltb_spec n 0) as [? | _]; [lia |].
  pose proof (all_digits_digits 21 n Hn) as Hd.
  unfold cookie_value_ok.
  rewrite (all_chars_impl is_digit text_char _ is_digit_text Hd).
  destruct (plain_edges (digits 21 n)) as [H1 H2].
  { apply (all_chars_impl is_digit); [| exact Hd].
    intros c Hc. rewrite (is_digit_plain c Hc). reflexivity. }
  rewrite (clean_edges_intro _ H1 H2). reflexivity.
Qed.

(** *** Writing: what the store makes of [name=value;expires=D;path=/] *)

Lemma cookie_store_set_pieces s nv attrs n v e now jar :
  all_chars (fun c => negb (is_ctl c)) s = true ->
  split ";" s = nv :: attrs ->
  parse_name_value nv = (n, v) -> truthy n = true ->
  expiry_of_attributes now attrs = Some e ->
  cookie_store_set s now jar
  = if e <=? now then remove_cookie n jar else put_cookie (mkCookie n v (Some e)) jar.
Proof.
  intros Hall Hsplit Hnv Ht Hexp. unfold cookie_store_set.
  rewrite Hall, Hsplit, Hnv, Ht, Hexp. reflexivity.
Qed.

Lemma parse_name_value_ok name v :
  cookie_name_ok name = true -> cookie_value_ok v = true ->
  parse_name_value (name +:+ String "=" v) = (name, v).
Proof.
  intros (_ & _ & Heq & _ & Hedge)%cookie_name_ok_spec (_ & _ & Hvedge)%cookie_value_ok_spec.
  unfold parse_name_value. rewrite cut_app by exact Heq.
  rewrite !strip_wsp_clean by assumption. reflexivity.
Qed.

Lemma date_text_facts date :
  all_chars date_char date = true ->
  lacks ";" date = true /\ all_chars (fun c => negb (is_ctl c)) date = true.
Proof.
  intros Hdate.
  assert (Hdtext : all_chars text_char date = true)
    by (apply (all_chars_impl date_char); [apply date_char_text | exact Hdate]).
  split; apply (all_chars_impl text_char); solve [apply text_char_spec | exact Hdtext].
Qed.

Lemma cookie_store_set_spec name v date e now jar :
  cookie_name_ok name = true -> cookie_value_ok v = true ->
  all_chars date_char date = true -> clean_edges date = true ->
  parse_cookie_date date = Some e ->
  cookie_store_set (name +:+ "=" +:+ v +:+ ";expires=" +:+ date +:+ ";path=/") now jar
  = if e <=? now then remove_cookie name jar
    else put_cookie (mkCookie name v (Some e)) jar.
Proof.
  intros Hname Hvalue Hdate Hdedge Hparse.
  pose proof Hname as (Hne & Hsemi & Heq & Hctl & Hedge)%cookie_name_ok_spec.
  pose proof Hvalue as (Hvsemi & Hvctl & Hvedge)%cookie_value_ok_spec.
  destruct (date_text_facts date Hdate) as [Hdsemi Hdctl].
  apply (cookie_store_set_pieces _ (name +:+ String "=" v) ["expires=" +:+ date; "path=/"]).
  - (* no control character *)
    cbn [String.append]. rewrite all_chars_app. cbn [all_chars].
    rewrite all_chars_app. cbn [all_chars]. rewrite all_chars_app.
    rewrite Hctl, Hvctl, Hdctl. reflexivity.
  - (* the three pieces *)
    change (name +:+ "=" +:+ v +:+ ";expires=" +:+ date +:+ ";path=/")
      with (name +:+ (String "=" v +:+ String ";" ("expires=" +:+ date +:+ String ";" "path=/"))).
    rewrite <- append_assoc, split_app.
    + f_equal.
      change ("expires=" +:+ date +:+ String ";" "path=/")
        with ("expires=" +:+ (date +:+ String ";" "path=/")).
      rewrite <- append_assoc, split_app; [reflexivity |].
      unfold lacks. rewrite all_chars_app. fold (lacks ";" date). rewrite Hdsemi. reflexivity.
    + unfold lacks. rewrite all_chars_app. cbn [all_chars].
      fold (lacks ";" name) (lacks ";" v). rewrite Hsemi, Hvsemi. reflexivity.
  - apply parse_name_value_ok; assumption.
  - destruct name; [congruence | reflexivity].
  - (* the expiry *)
    unfold expiry_of_attributes, last_attribute, parse_attribute.
    cbn [String.append cut]. cbn.
    rewrite strip_wsp_clean by assumption. rewrite Hparse. reflexivity.
Qed.

(** The store makes the same of the format with a space after each
    semicolon, [name=value; expires=D; path=/]. *)
Lemma cookie_store_set_spaced name v date e now jar :
  cookie_name_ok name = true -> cookie_value_ok v = true ->
  all_chars date_char date = true -> clean_edges date = true ->
  parse_cookie_date date = Some e ->
  cookie_store_set (name +:+ "=" +:+ v +:+ "; expires=" +:+ date +:+ "; path=/") now jar
  = cookie_store_set (name +:+ "=" +:+ v +:+ ";expires=" +:+ date +:+ ";path=/") now jar.
Proof.
  intros Hname Hvalue Hdate Hdedge Hparse.
  rewrite (cookie_store_set_spec name v date e) by assumption.
  pose proof Hname as (Hne & Hsemi & Heq & Hctl & Hedge)%cookie_name_ok_spec.
  pose proof Hvalue as (Hvsemi & Hvctl & Hvedge)%cookie_value_ok_spec.
  destruct (date_text_facts date Hdate) as [Hdsemi Hdctl].
  apply (cookie_store_set_pieces _ (name +:+ String "=" v) [" expires=" +:+ date; " path=/"]).
  - cbn [String.append]. rewrite all_chars_app. cbn [all_chars].
    rewrite all_chars_app. cbn [all_chars]. rewrite all_chars_app.
    rewrite Hctl, Hvctl, Hdctl. reflexivity.
  - change (name +:+ "=" +:+ v +:+ "; expires=" +:+ date +:+ "; path=/")
      with (name +:+ (String "=" v +:+ String ";" (" expires=" +:+ date +:+ String ";" " path=/"))).
    rewrite <- append_assoc, split_app.
    + f_equal.
      change (" expires=" +:+ date +:+ String ";" " path=/")
        with (" expires=" +:+ (date +:+ String ";" " path=/")).
      rewrite <- append_assoc, split_app; [reflexivity |].
      unfold lacks. rewrite all_chars_app. fold (lacks ";" date). rewrite Hdsemi. reflexivity.
    + unfold lacks. rewrite all_chars_app. cbn [all_chars].
      fold (lacks ";" name) (lacks ";" v). rewrite Hsemi, Hvsemi. reflexivity.
  - apply parse_name_value_ok; assumption.
  - destruct name; [congruence | reflexivity].
  - unfold expiry_of_attributes, last_attribute, parse_attribute.
    cbn [String.append cut]. cbn.
    rewrite strip_wsp_clean by assumption. rewrite Hparse. reflexivity.
Qed.

(** *** Reading: [getCookie]'s loop over the text of a well-formed jar *)

Lemma cookie_pair_ok c :
  cookie_ok c = true ->
  cookie_pair c = cookie_name c +:+ String "=" (cookie_value c)
  /\ lacks ";" (cookie_pair c) = true
  /\ lacks "=" (cookie_name c) = true
  /\ forall pre, all_chars is_white_space pre = true ->
                 trim (pre +:+ cookie_pair c) = cookie_pair c.
Proof.
  unfold cookie_ok. intros [Hn Hv]%andb_prop.
  pose proof Hn as Hn'. unfold cookie_name_ok in Hn'.
  apply andb_prop in Hn' as [[Ht _]%andb_prop _].
  apply cookie_name_ok_spec in Hn as (Hne & Hsemi & Heq & _ & [Hs1 He1]%clean_edges_spec).
  apply cookie_value_ok_spec in Hv as (Hvsemi & _ & [Hs2 He2]%clean_edges_spec).
  assert (Hpair : cookie_pair c = cookie_name c +:+ String "=" (cookie_value c)).
  { unfold cookie_pair. rewrite Ht. reflexivity. }
  rewrite Hpair. repeat split; try assumption.
  - unfold lacks. rewrite all_chars_app. cbn [all_chars].
    fold (lacks ";" (cookie_name c)) (lacks ";" (cookie_value c)).
    rewrite Hsemi, Hvsemi. reflexivity.
  - intros pre Hpre. apply trim_skip; [exact Hpre | |].
    + apply starts_with_white_space_app; [exact Hne | reflexivity | exact Hs1].
    + apply ends_with_white_space_app; [reflexivity | exact He2].
Qed.

Lemma getCookie_loop_blank name pre :
  all_chars is_white_space pre = true ->
  Common.getCookie_loop (name +:+ "=") [pre] = None.
Proof.
  intros Hpre. cbn [Common.getCookie_loop].
  rewrite trim_all by exact Hpre. rewrite indexOf_zero.
  destruct name; reflexivity.
Qed.

Lemma getCookie_loop_jar name jar :
  lacks "=" name = true -> forallb cookie_ok jar = true ->
  forall pre, all_chars is_white_space pre = true -> lacks ";" pre = true ->
  Common.getCookie_loop (name +:+ "=")
    (split ";" (pre +:+ join "; " (map cookie_pair jar)))
  = option_map cookie_value (List.find (fun c => String.eqb name (cookie_name c)) jar).
Proof.
  intros Hname. induction jar as [| c rest IH]; intros Hjar pre Hpre Hsemi.
  - cbn [map join List.find option_map]. rewrite append_nil_r, split_lacks by exact Hsemi.
    apply getCookie_loop_blank. exact Hpre.
  - cbn [forallb] in Hjar. apply andb_prop in Hjar as [Hc Hrest].
    destruct (cookie_pair_ok c Hc) as (Hpair & Hpsemi & Hceq & Htrim).
    assert (Hhead : forall tail,
      Common.getCookie_loop (name +:+ "=") ((pre +:+ cookie_pair c) :: tail)
      = if String.eqb name (cookie_name c) then Some (cookie_value c)
        else Common.getCookie_loop (name +:+ "=") tail).
    { intros tail. cbn [Common.getCookie_loop]. rewrite Htrim by exact Hpre.
      rewrite indexOf_zero, Hpair, prefix_name_eq by assumption.
      destruct (String.eqb_spec name (cookie_name c)) as [-> | _]; [| reflexivity].
      rewrite <- (substring_from_app (cookie_name c +:+ "=") (cookie_value c)) at 2.
      rewrite append_assoc. reflexivity. }
    assert (Hlack : lacks ";" (pre +:+ cookie_pair c) = true).
    { unfold lacks. rewrite all_chars_app. fold (lacks ";" pre) (lacks ";" (cookie_pair c)).
      rewrite Hsemi, Hpsemi. reflexivity. }
    cbn [map List.find]. destruct rest as [| c' rest'].
    + cbn [map join]. rewrite split_lacks by exact Hlack. rewrite Hhead.
      destruct (String.eqb name (cookie_name c)); reflexivity.
    + change (join "; " (cookie_pair c :: map cookie_pair (c' :: rest')))
        with (cookie_pair c +:+ String ";" (" " +:+ join "; " (map cookie_pair (c' :: rest')))).
      rewrite <- append_assoc, split_app by exact Hlack. rewrite Hhead.
      destruct (String.eqb name (cookie_name c)); [reflexivity |].
      apply IH; [exact Hrest | reflexivity | reflexivity].
Qed.

Lemma forallb_filter {A : Type} (p q : A -> bool) l :
  forallb p l = true -> forallb p (List.filter q l) = true.
Proof.
  induction l as [| a l IH]; [reflexivity |]. cbn [forallb List.filter].
  intros [Ha Hl]%andb_prop. destruct (q a); cbn [forallb]; [rewrite Ha |]; auto.
Qed.

(** On a well-formed jar, [getCookie] finds the cookie of that name. *)
Lemma getCookie_spec name w :
  lacks "=" name = true -> jar_ok (cookies w) = true ->
  Common.getCookie name w
  = (Js.Normal (option_map cookie_value (find_cookie name (clock w) (cookies w))), w).
Proof.
  intros Hname Hjar.
  unfold Common.getCookie, Js.document_cookie_get, Js.bind, Js.gets, Js.ret,
    cookie_store_get, find_cookie.
  f_equal. f_equal.
  rewrite <- (getCookie_loop_jar name _ Hname (forallb_filter _ _ _ Hjar) EmptyString);
    reflexivity.
Qed.

(** *** The jar after a write *)

Lemma find_put_cookie c now jar :
  expired now c = false ->
  find_cookie (cookie_name c) now (put_cookie c jar) = Some c.
Proof.
  intros Hlive. unfold find_cookie.
  induction jar as [| c' rest IH]; cbn [put_cookie].
  - cbn [List.filter]. rewrite Hlive. cbn [negb List.find]. rewrite String.eqb_refl. reflexivity.
  - destruct (String.eqb_spec (cookie_name c') (cookie_name c)) as [E | Hne].
    + cbn [List.filter]. rewrite Hlive. cbn [negb List.find].
      rewrite String.eqb_refl. reflexivity.
    + cbn [List.filter]. destruct (negb (expired now c')); [| exact IH].
      cbn [List.find]. destruct (String.eqb_spec (cookie_name c) (cookie_name c')); [congruence |].
      exact IH.
Qed.

Lemma find_remove_cookie name now jar :
  find_cookie name now (remove_cookie name jar) = None.
Proof.
  unfold find_cookie. induction jar as [| c' rest IH]; [reflexivity |].
  cbn [remove_cookie]. destruct (String.eqb_spec (cookie_name c') name) as [E | Hne]; [exact IH |].
  cbn [List.filter]. destruct (negb (expired now c')); [| exact IH].
  cbn [List.find]. destruct (String.eqb_spec name (cookie_name c')); [congruence | exact IH].
Qed.

Lemma jar_ok_remove name jar : jar_ok jar = true -> jar_ok (remove_cookie name jar) = true.
Proof.
  unfold jar_ok. induction jar as [| c rest IH]; [reflexivity |].
  cbn [forallb remove_cookie]. intros [Hc Hr]%andb_prop.
  destruct (String.eqb (cookie_name c) name); cbn [forallb]; [| rewrite Hc]; auto.
Qed.

Lemma jar_ok_put c jar :
  cookie_ok c = true -> jar_ok jar = true -> jar_ok (put_cookie c jar) = true.
Proof.
  unfold jar_ok. intros Hc. induction jar as [| c' rest IH]; cbn [forallb put_cookie].
  - intros _. rewrite Hc. reflexivity.
  - intros [Hc' Hr]%andb_prop.
    destruct (String.eqb (cookie_name c') (cookie_name c)); cbn [forallb].
    + rewrite Hc. apply (jar_ok_remove _ _ Hr).
    + rewrite Hc'. auto.
Qed.

End CookieStoreFacts.

(* ===================================================================== *)
(** ** Facts about the monad: computations that return and leave an
       observation of the world as it was *)
(* ===================================================================== *)

Section Frames.
Import Browser Js.

Import Observe.

Context {X : Type} (obs : World -> X).

Lemma keeps_ret {A : Type} (a : A) : keeps obs (ret a).
Proof. intros w. exists a, w. split; reflexivity. Qed.

Lemma keeps_gets {A : Type} (f : World -> A) : keeps obs (gets f).
Proof. intros w. exists (f w), w. split; reflexivity. Qed.

Lemma keeps_bind {A B : Type} (m : JS A) (f : A -> JS B) :
  keeps obs m -> (forall a, keeps obs (f a)) -> keeps obs (bind m f).
Proof.
  intros Hm Hf w. destruct (Hm w) as (a & w1 & E1 & O1).
  destruct (Hf a w1) as (b & w2 & E2 & O2).
  exists b, w2. unfold bind. rewrite E1. split; [exact E2 | congruence].
Qed.

Lemma keeps_modify (f : World -> World) :
  (forall w, obs (f w) = obs w) -> keeps obs (modify f).
Proof. intros Hf w. exists tt, (f w). split; [reflexivity | apply Hf]. Qed.

Lemma keeps_if {A : Type} (b : bool) (m1 m2 : JS A) :
  keeps obs m1 -> keeps obs m2 -> keeps obs (if b then m1 else m2).
Proof. destruct b; auto. Qed.

(** The observation does not look at timers or at the console. *)
Hypothesis obs_timers : forall ts next w, obs (set_timers ts next w) = obs w.
Hypothesis obs_log : forall msg w, obs (add_event (ConsoleLog msg) w) = obs w.

Lemma keeps_console_log msg : keeps obs (console_log msg).
Proof. apply keeps_modify. apply obs_log. Qed.

Lemma keeps_new_timer kind c delay : keeps obs (new_timer kind c delay).
Proof. intros w. eexists _, _. split; [reflexivity | apply obs_timers]. Qed.

Lemma keeps_clear_timer id : keeps obs (clear_timer id).
Proof. apply keeps_modify. intros w. apply obs_timers. Qed.

Lemma keeps_clear_if_set id : keeps obs (Common.clear_if_set clear_timer id).
Proof.
  unfold Common.clear_if_set. destruct id as [i |]; [| apply keeps_ret].
  destruct (i =? 0); [apply keeps_ret | apply keeps_clear_timer].
Qed.

Lemma keeps_clear_any id : keeps obs (Common.clear_any clear_timer id).
Proof.
  unfold Common.clear_any. destruct id as [i |]; [apply keeps_clear_timer | apply keeps_ret].
Qed.

Lemma keeps_getCookie name : keeps obs (Common.getCookie name).
Proof.
  unfold Common.getCookie, document_cookie_get.
  apply keeps_bind; [apply keeps_gets | intros; apply keeps_ret].
Qed.

Lemma keeps_checkCooldown cm : keeps obs (Common.checkCooldown cm).
Proof.
  unfold Common.checkCooldown, Date_now. apply keeps_bind; [apply keeps_getCookie |].
  intros [text |]; [| apply keeps_ret].
  destruct (JsString.truthy text); [| apply keeps_ret].
  apply keeps_bind; [apply keeps_gets |]. intros now.
  destruct (JsNumber.parseInt text) as [expiry |]; [| apply keeps_ret].
  destruct (now <? expiry); apply keeps_ret.
Qed.

Lemma method_ret cm cm' : config cm' = config cm -> method obs cm (ret cm').
Proof. intros H w. exists cm', w. repeat split. exact H. Qed.

Lemma method_bind {A : Type} cm (m : JS A) (f : A -> JS Common.CooldownManager) :
  keeps obs m -> (forall a, method obs cm (f a)) -> method obs cm (bind m f).
Proof.
  intros Hm Hf w. destruct (Hm w) as (a & w1 & E1 & O1).
  destruct (Hf a w1) as (cm' & w2 & E2 & O2 & C2).
  exists cm', w2. unfold bind. rewrite E1. repeat split; [exact E2 | congruence | exact C2].
Qed.

Lemma method_then cm (m : JS Common.CooldownManager)
    (f : Common.CooldownManager -> JS Common.CooldownManager) :
  method obs cm m -> (forall cm1, config cm1 = config cm -> method obs cm (f cm1)) ->
  method obs cm (bind m f).
Proof.
  intros Hm Hf w. destruct (Hm w) as (cm1 & w1 & E1 & O1 & C1).
  destruct (Hf cm1 C1 w1) as (cm' & w2 & E2 & O2 & C2).
  exists cm', w2. unfold bind. rewrite E1. repeat split; [exact E2 | congruence | exact C2].
Qed.

Lemma method_if cm (b : bool) m1 m2 :
  method obs cm m1 -> method obs cm m2 -> method obs cm (if b then m1 else m2).
Proof. destruct b; auto. Qed.

Lemma method_config cm cm0 m : config cm = config cm0 -> method obs cm0 m -> method obs cm m.
Proof. intros H Hm w. destruct (Hm w) as (cm' & w' & ? & ? & ?). exists cm', w'. rewrite H. auto. Qed.

Ltac method_step :=
  first [ apply method_ret; reflexivity
        | apply method_ret; assumption
        | apply method_if
        | apply method_bind;
            [ first [ apply keeps_clear_if_set | apply keeps_clear_any
                    | apply keeps_console_log | apply keeps_new_timer
                    | apply keeps_checkCooldown | apply keeps_ret ]
            | intros ] ].

Lemma method_setVerifyingState cm : method obs cm (Common.setVerifyingState cm).
Proof.
  unfold Common.setVerifyingState, clearInterval, clearTimeout. repeat method_step.
Qed.

Lemma method_clearCooldownState force cm : method obs cm (Common.clearCooldownState force cm).
Proof.
  unfold Common.clearCooldownState, clearInterval, clearTimeout.
  apply method_then.
  { repeat method_step. }
  intros cm1 C1. apply method_then.
  { apply method_if; [| apply method_ret; exact C1].
    apply method_bind; [apply keeps_clear_any |]. intros. apply method_ret. exact C1. }
  intros cm2 C2. destruct force; apply method_ret; exact C2.
Qed.

Lemma method_updateTimerDisplay cm : method obs cm (Common.updateTimerDisplay cm).
Proof. unfold Common.updateTimerDisplay, clearInterval. repeat method_step. Qed.

Lemma method_startFrontendCooldownTimers r cm :
  method obs cm (Common.startFrontendCooldownTimers r cm).
Proof.
  unfold Common.startFrontendCooldownTimers, clearInterval, clearTimeout,
    setInterval, setTimeout.
  apply method_bind; [apply keeps_clear_if_set |]. intros _.
  apply method_bind; [apply keeps_clear_if_set |]. intros _.
  apply method_then.
  { eapply method_config; [| apply method_updateTimerDisplay]. reflexivity. }
  intros cm1 C1.
  apply method_bind; [apply keeps_new_timer |]. intros interval.
  apply method_bind; [apply keeps_new_timer |]. intros timeout.
  apply method_ret. exact C1.
Qed.

End Frames.

(* ===================================================================== *)
(** ** Cookies: what is written, and what is read back *)
(* ===================================================================== *)

Section Cookies.
Import JsString JsNumber JsDate Browser Js Dom Common Observe.

Lemma time_clip_in_range t : 0 <= t < year_10000 -> time_clip t = Some t.
Proof.
  unfold time_clip, year_10000, max_time. intros H.
  destruct (Z.leb_spec (Z.abs t) 8640000000000000); [reflexivity | lia].
Qed.

Lemma setCookie_writes name value seconds w :
  setCookie name value seconds w
  = (Normal tt,
     add_event (CookieWritten (cookie_string name value seconds (clock w)))
       (set_cookies
          (cookie_store_set (cookie_string name value seconds (clock w))
             (clock w) (cookies w)) w)).
Proof. reflexivity. Qed.

(** C4, as the code has it: for every name, value and positive number of
    seconds, [setCookie] assigns to [document.cookie] exactly
    [name=value;expires=<UTC date>;path=/], with no space after the
    semicolons, where the date is the text [toUTCString] gives for the
    current time plus the given seconds; between 1970 and the end of year
    9999 that text, read as a date, is this instant to the second. *)
Theorem setCookie_string_format name value seconds w :
  0 < seconds ->
  exists date,
    events (world_after (setCookie name value seconds) w)
    = CookieWritten (name +:+ "=" +:+ value +:+ ";expires=" +:+ date +:+ ";path=/")
      :: events w
    /\ date = toUTCString (time_clip (clock w + seconds * 1000))
    /\ (0 <= clock w -> clock w + seconds * 1000 < year_10000 ->
        parse_cookie_date date = Some (1000 * ((clock w + seconds * 1000) / 1000))).
Proof.
  intros Hsec.
  exists (toUTCString (time_clip (clock w + seconds * 1000))).
  unfold world_after. rewrite setCookie_writes.
  split; [reflexivity | split; [reflexivity |]].
  intros Hnow Hmax. rewrite time_clip_in_range by lia.
  apply parse_toUTCString. lia.
Qed.

(** What the store holds after [setCookie], for a well-formed name and
    value. *)
Lemma setCookie_spec name value seconds w :
  cookie_name_ok name = true -> cookie_value_ok value = true ->
  0 <= clock w -> 0 < seconds -> clock w + seconds * 1000 < year_10000 ->
  cookies (world_after (setCookie name value seconds) w)
  = put_cookie
      (mkCookie name value (Some (1000 * ((clock w + seconds * 1000) / 1000))))
      (cookies w)
  /\ clock (world_after (setCookie name value seconds) w) = clock w.
Proof.
  intros Hname Hvalue Hnow Hsec Hmax.
  unfold world_after. rewrite setCookie_writes. cbn [snd cookies clock add_event set_cookies].
  split; [| reflexivity].
  unfold cookie_string. rewrite time_clip_in_range by lia.
  destruct (toUTCString_chars (clock w + seconds * 1000)) as (Hchars & Hs & He); [lia |].
  rewrite (cookie_store_set_spec name value _ (1000 * ((clock w + seconds * 1000) / 1000))).
  - destruct (Z.leb_spec (1000 * ((clock w + seconds * 1000) / 1000)) (clock w));
      [Z.div_mod_to_equations; lia | reflexivity].
  - exact Hname.
  - exact Hvalue.
  - exact Hchars.
  - apply date_clean_edges; assumption.
  - apply parse_toUTCString. lia.
Qed.

(** Had [setCookie] written the format with a space after each semicolon,
    the store would hold the same. *)
Lemma setCookie_spaced_same_store name value seconds w :
  cookie_name_ok name = true -> cookie_value_ok value = true ->
  0 <= clock w -> 0 < seconds -> clock w + seconds * 1000 < year_10000 ->
  cookie_store_set
    (spec_cookie_format name value (toUTCString (Some (clock w + seconds * 1000))))
    (clock w) (cookies w)
  = cookies (world_after (setCookie name value seconds) w).
Proof.
  intros Hname Hvalue Hnow Hsec Hmax.
  unfold world_after. rewrite setCookie_writes. cbn [snd cookies add_event set_cookies].
  unfold cookie_string, spec_cookie_format. rewrite time_clip_in_range by lia.
  destruct (toUTCString_chars (clock w + seconds * 1000)) as (Hchars & Hs & He); [lia |].
  apply (cookie_store_set_spaced name value _ (1000 * ((clock w + seconds * 1000) / 1000)));
    try assumption.
  - apply date_clean_edges; assumption.
  - apply parse_toUTCString. lia.
Qed.

(** What the store holds after [deleteCookie]. *)
Lemma deleteCookie_spec name w :
  cookie_name_ok name = true -> 0 <= clock w ->
  cookies (world_after (deleteCookie name) w) = remove_cookie name (cookies w)
  /\ clock (world_after (deleteCookie name) w) = clock w.
Proof.
  intros Hname Hnow. unfold world_after, deleteCookie, document_cookie_set, modify.
  cbn [snd cookies clock add_event set_cookies]. split; [| reflexivity].
  change (name +:+ "=;expires=Thu, 01 Jan 1970 00:00:00 UTC;path=/")
    with (name +:+ "=" +:+ EmptyString +:+ ";expires="
          +:+ "Thu, 01 Jan 1970 00:00:00 UTC" +:+ ";path=/").
  rewrite (cookie_store_set_spec name EmptyString _ 0); try reflexivity; try assumption.
  destruct (Z.leb_spec 0 (clock w)); [reflexivity | lia].
Qed.

(** C8, as the code has it: for a name and a value free of [;], of control
    characters and of white space at either end (the name also not empty
    and free of [=]), [getCookie(name)] right after
    [setCookie(name, value, seconds)] returns exactly the value; and
    [getCookie] returns [null] for a name without [=] that no cookie of
    the store bears. *)
Theorem cookie_round_trip name value seconds w :
  cookie_name_ok name = true -> cookie_value_ok value = true ->
  jar_ok (cookies w) = true ->
  0 <= clock w -> 0 < seconds -> clock w + seconds * 1000 < year_10000 ->
  result_of (getCookie name) (world_after (setCookie name value seconds) w)
  = Normal (Some value)
  /\ (forall other,
        lacks "=" other = true ->
        find_cookie other (clock w) (cookies w) = None ->
        result_of (getCookie other) w = Normal None).
Proof.
  intros Hname Hvalue Hjar Hnow Hsec Hmax.
  destruct (setCookie_spec name value seconds w Hname Hvalue Hnow Hsec Hmax) as [Hc Hk].
  pose proof Hname as (_ & _ & Heq & _)%cookie_name_ok_spec.
  split.
  - unfold result_of. rewrite getCookie_spec.
    + cbn [fst]. rewrite Hc, Hk.
      rewrite (find_put_cookie (mkCookie name value _)); [reflexivity |].
      unfold expired. cbn [cookie_expiry].
      destruct (Z.leb_spec (1000 * ((clock w + seconds * 1000) / 1000)) (clock w));
        [Z.div_mod_to_equations; lia | reflexivity].
    + exact Heq.
    + rewrite Hc. apply jar_ok_put; [| exact Hjar].
      unfold cookie_ok. cbn [cookie_name cookie_value]. rewrite Hname, Hvalue. reflexivity.
  - intros other Hother Hfind. unfold result_of.
    rewrite getCookie_spec by assumption. cbn [fst]. rewrite Hfind. reflexivity.
Qed.

End Cookies.

(** C4 as stated fails: the string written for the cookie [k=v] has no space
    after its semicolons, so it is not of the format of the specification,
    whatever the date. *)
Lemma setCookie_spec_format_counterexample :
  ~ exists date,
      Browser.events (Observe.world_after (Common.setCookie "k" "v" 60) Observe.world0)
      = [Browser.CookieWritten (Observe.spec_cookie_format "k" "v" date)].
Proof.
  intros [date H]. vm_compute in H. congruence.
Qed.

Lemma setCookie_string_format_witness :
  0 < 60
  /\ exists date,
      Browser.events (Observe.world_after (Common.setCookie "k" "v" 60) Observe.world0)
      = Browser.CookieWritten ("k" +:+ "=" +:+ "v" +:+ ";expires=" +:+ date +:+ ";path=/")
        :: Browser.events Observe.world0
      /\ date = JsDate.toUTCString
                  (JsDate.time_clip (Browser.clock Observe.world0 + 60 * 1000))
      /\ (0 <= Browser.clock Observe.world0 ->
          Browser.clock Observe.world0 + 60 * 1000 < JsDate.year_10000 ->
          JsDate.parse_cookie_date date
          = Some (1000 * ((Browser.clock Observe.world0 + 60 * 1000) / 1000))).
Proof.
  split; [reflexivity |].
  exact (setCookie_string_format "k" "v" 60 Observe.world0 eq_refl).
Defined.

(** C8 as stated fails for a value that ends with a space: it holds no [;]
    and no [=], and what [getCookie] returns has lost the space. *)
Lemma cookie_round_trip_counterexample :
  JsString.lacks ";" "v " = true /\ JsString.lacks "=" "v " = true
  /\ Observe.result_of (Common.getCookie "k")
       (Observe.world_after (Common.setCookie "k" "v " 60) Observe.world0)
     = Js.Normal (Some "v")
  /\ Observe.result_of (Common.getCookie "k")
       (Observe.world_after (Common.setCookie "k" "v " 60) Observe.world0)
     <> Js.Normal (Some "v ").
Proof.
  vm_compute. repeat split. discriminate.
Qed.

Lemma cookie_round_trip_witness :
  Browser.cookie_name_ok "k" = true /\ Browser.cookie_value_ok "a b=c" = true
  /\ Browser.jar_ok (Browser.cookies Observe.world0) = true
  /\ 0 <= Browser.clock Observe.world0 /\ 0 < 60
  /\ Browser.clock Observe.world0 + 60 * 1000 < JsDate.year_10000
  /\ Observe.result_of (Common.getCookie "k")
       (Observe.world_after (Common.setCookie "k" "a b=c" 60) Observe.world0)
     = Js.Normal (Some "a b=c").
Proof.
  assert (H3 : 0 <= Browser.clock Observe.world0) by (vm_compute; discriminate).
  assert (H5 : Browser.clock Observe.world0 + 60 * 1000 < JsDate.year_10000)
    by (vm_compute; reflexivity).
  repeat (split; [first [assumption | reflexivity] |]).
  exact (proj1 (cookie_round_trip "k" "a b=c" 60 Observe.world0
                  eq_refl eq_refl eq_refl H3 eq_refl H5)).
Defined.

(* ===================================================================== *)
(** ** The cooldown check *)
(* ===================================================================== *)

Section Cooldown.
Import JsString JsNumber JsDate Browser Js Dom Common Observe.

Lemma truthy_not_empty s : JsString.truthy s = true <-> s <> EmptyString.
Proof. destruct s; simpl; split; congruence. Qed.

(** [checkCooldown] reads the cookie and the clock, and changes nothing. *)
Lemma checkCooldown_status cm w value :
  result_of (getCookie (cookieName cm)) w = Normal value ->
  checkCooldown cm w = (Normal (status_of value (clock w)), w).
Proof.
  unfold result_of, checkCooldown, getCookie, document_cookie_get, Date_now,
    bind, gets, ret, status_of.
  cbn [fst]. intros [= <-].
  destruct (getCookie_loop _ _) as [text |]; [| reflexivity].
  destruct (truthy text); [| reflexivity].
  destruct (parseInt text) as [expiry |]; [| reflexivity].
  destruct (clock w <? expiry); reflexivity.
Qed.

Lemma checkCooldown_find cm w :
  lacks "=" (cookieName cm) = true -> jar_ok (cookies w) = true ->
  checkCooldown cm w
  = (Normal (status_of
               (option_map cookie_value
                  (find_cookie (cookieName cm) (clock w) (cookies w)))
               (clock w)), w).
Proof.
  intros Hname Hjar. apply checkCooldown_status.
  unfold result_of. rewrite getCookie_spec by assumption. reflexivity.
Qed.


(** On a well-formed jar the invariant can be read off the store: it
    holds when the document sees no cookie of that name, or sees one whose
    value is the text of a timestamp. *)
Lemma cooldown_cookie_of_jar cm w stored :
  lacks "=" (cookieName cm) = true -> jar_ok (cookies w) = true ->
  match stored with
  | Some expiry =>
      Z.abs expiry <= max_time
      /\ exists c, find_cookie (cookieName cm) (clock w) (cookies w) = Some c
                   /\ cookie_value c = toString expiry
  | None => find_cookie (cookieName cm) (clock w) (cookies w) = None
  end ->
  cooldown_cookie cm w stored.
Proof.
  intros Hname Hjar H. unfold cooldown_cookie, result_of.
  rewrite getCookie_spec by assumption. cbn [fst].
  destruct stored as [expiry |].
  - destruct H as (Hrange & c & -> & <-). split; [exact Hrange | reflexivity].
  - rewrite H. reflexivity.
Qed.

(** C10: a stored value that [parseInt] does not read as a number gives
    [{ cooldown: false, remaining: 0 }], the very answer given when
    [getCookie] finds no cookie. *)
Theorem checkCooldown_unparsable cm w text :
  result_of (getCookie (cookieName cm)) w = Normal (Some text) ->
  parseInt text = None ->
  checkCooldown cm w = (Normal (mkStatus false 0), w)
  /\ forall w0, result_of (getCookie (cookieName cm)) w0 = Normal None ->
                result_of (checkCooldown cm) w0 = result_of (checkCooldown cm) w.
Proof.
  intros Hget Hnan.
  assert (E : checkCooldown cm w = (Normal (mkStatus false 0), w)).
  { rewrite (checkCooldown_status cm w _ Hget). cbn [status_of].
    rewrite Hnan. destruct (truthy text); reflexivity. }
  split; [exact E |].
  intros w0 Habsent. unfold result_of at 1 2.
  rewrite E, (checkCooldown_status cm w0 _ Habsent). reflexivity.
Qed.

(** *** The password check and the cooldown *)

(** A failed attempt starts a cooldown of [cooldownSeconds] seconds. *)
Lemma verifyPassword_failed input correct cm w :
  cookie_name_ok (cookieName cm) = true -> jar_ok (cookies w) = true ->
  0 <= clock w -> 0 < cooldownSeconds cm ->
  clock w + cooldownSeconds cm * 1000 < year_10000 ->
  input <> EmptyString -> input <> correct ->
  exists cm' w',
    verifyPassword input correct cm w = (Normal cm', w')
    /\ checkCooldown cm' w' = (Normal (mkStatus true (cooldownSeconds cm)), w').
Proof.
  intros Hname Hjar Hnow Hsec Hmax Hne Hwrong.
  pose proof Hname as (_ & _ & Heq & _)%cookie_name_ok_spec.
  unfold verifyPassword, strict_eq.
  apply truthy_not_empty in Hne. rewrite Hne. cbn [negb].
  apply String.eqb_neq in Hwrong. rewrite Hwrong.
  destruct (method_setVerifyingState obs_store (fun _ _ _ => eq_refl) cm w)
    as (cm1 & w1 & E1 & [= Hc1 Hk1] & [= Hn1 Hs1]).
  unfold bind at 1. rewrite E1.
  unfold bind at 1. unfold console_log at 1, modify at 1.
  set (w2 := add_event (ConsoleLog _) w1).
  set (cm2 := with_input (set_value EmptyString) cm1).
  assert (Hset : cookies (world_after (setCooldown cm2) w2)
                 = put_cookie
                     (mkCookie (cookieName cm)
                        (toString (clock w + cooldownSeconds cm * 1000))
                        (Some (1000 * ((clock w + cooldownSeconds cm * 1000) / 1000))))
                     (cookies w)
                 /\ clock (world_after (setCooldown cm2) w2) = clock w).
  { unfold world_after, setCooldown, Date_now, bind at 1, gets.
    change (cookieName cm2) with (cookieName cm1).
    change (cooldownSeconds cm2) with (cooldownSeconds cm1).
    change (clock w2) with (clock w1). rewrite Hn1, Hs1, Hk1.
    destruct (setCookie_spec (cookieName cm)
                (toString (clock w + cooldownSeconds cm * 1000)) (cooldownSeconds cm) w2)
      as [Hc Hk]; try assumption.
    - apply toString_value_ok. lia.
    - change (clock w2) with (clock w1). lia.
    - change (clock w2) with (clock w1). lia.
    - unfold world_after in Hc, Hk. change (clock w2) with (clock w1) in Hc, Hk.
      change (cookies w2) with (cookies w1) in Hc. rewrite Hk1 in Hc, Hk.
      rewrite Hc1 in Hc. split; assumption. }
  destruct Hset as [Hc3 Hk3].
  destruct (setCooldown cm2 w2) as [[[] | e] w3] eqn:E3.
  2: { exfalso. revert E3. unfold setCooldown, Date_now, bind, gets, setCookie,
         document_cookie_set, modify. discriminate. }
  unfold world_after in Hc3, Hk3. rewrite E3 in Hc3, Hk3. cbn [snd] in Hc3, Hk3.
  unfold bind at 1. rewrite E3.
  (* the status read right after the cookie is set *)
  assert (Hstatus : forall cmx wx,
            config cmx = config cm -> obs_store wx = obs_store w3 ->
            checkCooldown cmx wx = (Normal (mkStatus true (cooldownSeconds cm)), wx)).
  { intros cmx wx [= Hnx Hsx] [= Hcx Hkx].
    rewrite checkCooldown_find.
    - rewrite Hnx, Hcx, Hkx, Hc3, Hk3.
      rewrite (find_put_cookie (mkCookie (cookieName cm) _ _)).
      + cbn [option_map cookie_value status_of].
        rewrite parseInt_toString
          by (unfold year_10000 in Hmax; rewrite Z.abs_eq by lia; lia).
        pose proof (toString_not_empty (clock w + cooldownSeconds cm * 1000)) as Hne'.
        destruct (toString (clock w + cooldownSeconds cm * 1000)); [congruence |].
        cbn [truthy].
        destruct (Z.ltb_spec (clock w) (clock w + cooldownSeconds cm * 1000)); [| lia].
        replace (clock w + cooldownSeconds cm * 1000 - clock w)
          with (cooldownSeconds cm * 1000) by lia.
        rewrite ceil_div_exact by lia. reflexivity.
      + unfold expired. cbn [cookie_expiry].
        destruct (Z.leb_spec (1000 * ((clock w + cooldownSeconds cm * 1000) / 1000)) (clock w));
          [Z.div_mod_to_equations; lia | reflexivity].
    - rewrite Hnx. exact Heq.
    - rewrite Hcx, Hc3. apply jar_ok_put; [| exact Hjar].
      unfold cookie_ok. cbn [cookie_name cookie_value].
      rewrite Hname, toString_value_ok by lia. reflexivity. }
  unfold bind at 1.
  rewrite (Hstatus cm2 w3) by (try reflexivity; unfold config; cbn; congruence).
  cbn [remaining].
  match goal with
  | |- context [startFrontendCooldownTimers ?r ?c w3] =>
      destruct (method_startFrontendCooldownTimers obs_store
                  (fun _ _ _ => eq_refl) r c w3) as (cm4 & w4 & E4 & O4 & C4)
  end.
  exists cm4, w4. split; [exact E4 |].
  apply Hstatus; [| exact O4].
  rewrite C4. unfold config. cbn. congruence.
Qed.

(** A successful attempt clears the cooldown cookie. *)
Lemma verifyPassword_succeeded input cm w :
  cookie_name_ok (cookieName cm) = true -> jar_ok (cookies w) = true ->
  0 <= clock w -> input <> EmptyString ->
  exists cm' w',
    verifyPassword input input cm w = (Normal cm', w')
    /\ find_cookie (cookieName cm) (clock w') (cookies w') = None
    /\ checkCooldown cm' w' = (Normal (mkStatus false 0), w').
Proof.
  intros Hname Hjar Hnow Hne.
  pose proof Hname as (_ & _ & Heq & _)%cookie_name_ok_spec.
  unfold verifyPassword, strict_eq.
  apply truthy_not_empty in Hne. rewrite Hne, String.eqb_refl. cbn [negb].
  destruct (method_setVerifyingState obs_store (fun _ _ _ => eq_refl) cm w)
    as (cm1 & w1 & E1 & [= Hc1 Hk1] & C1).
  unfold bind at 1. rewrite E1.
  unfold bind at 1. unfold console_log at 1, modify at 1.
  set (w2 := add_event (ConsoleLog _) w1).
  destruct (method_clearCooldownState obs_store (fun _ _ _ => eq_refl) true cm1 w2)
    as (cm3 & w3 & E3 & [= Hc3 Hk3] & C3).
  unfold bind at 1. rewrite E3.
  change (cookies w2) with (cookies w1) in Hc3. change (clock w2) with (clock w1) in Hk3.
  assert (Hn3 : cookieName cm3 = cookieName cm) by (rewrite C1 in C3; injection C3; auto).
  destruct (deleteCookie_spec (cookieName cm) w3) as [Hc4 Hk4];
    [exact Hname | lia |].
  unfold world_after in Hc4, Hk4.
  unfold clearCooldown. rewrite Hn3.
  destruct (deleteCookie (cookieName cm) w3) as [[[] | e] w4] eqn:E4.
  2: { exfalso. revert E4. unfold deleteCookie, document_cookie_set, modify. discriminate. }
  cbn [snd] in Hc4, Hk4.
  unfold bind at 1. rewrite E4.
  unfold bind at 1. unfold call at 1, modify at 1. unfold ret.
  set (w5 := add_event (Called OnSuccess) w4).
  exists cm3, w5.
  assert (Hfind : find_cookie (cookieName cm) (clock w5) (cookies w5) = None).
  { change (clock w5) with (clock w4). change (cookies w5) with (cookies w4).
    rewrite Hc4. apply find_remove_cookie. }
  split; [reflexivity | split; [exact Hfind |]].
  rewrite checkCooldown_find.
  - rewrite Hn3, Hfind. reflexivity.
  - rewrite Hn3. exact Heq.
  - change (cookies w5) with (cookies w4). rewrite Hc4.
    apply jar_ok_remove. congruence.
Qed.

(** An empty entry touches neither the store nor the clock. *)
Lemma verifyPassword_empty correct cm w :
  exists cm',
    verifyPassword EmptyString correct cm w = (Normal cm', w)
    /\ checkCooldown cm' w = checkCooldown cm w.
Proof. eexists. split; reflexivity. Qed.

(** C2, as the code has it: after [verifyPassword] returns, [checkCooldown]
    at the same instant reports a cooldown of [cooldownSeconds] seconds
    when the entry was not empty and differed from the expected password,
    and reports none, the cookie being cleared, when the entry was not
    empty and matched; after an empty entry the store is untouched and
    [checkCooldown] answers as it did before the call. *)
Theorem verifyPassword_cooldown input correct cm w :
  cookie_name_ok (cookieName cm) = true -> jar_ok (cookies w) = true ->
  0 <= clock w -> 0 < cooldownSeconds cm ->
  clock w + cooldownSeconds cm * 1000 < year_10000 ->
  exists cm' w',
    verifyPassword input correct cm w = (Normal cm', w')
    /\ (input <> EmptyString -> input <> correct ->
        checkCooldown cm' w' = (Normal (mkStatus true (cooldownSeconds cm)), w'))
    /\ (input <> EmptyString -> input = correct ->
        checkCooldown cm' w' = (Normal (mkStatus false 0), w')
        /\ find_cookie (cookieName cm) (clock w') (cookies w') = None)
    /\ (input = EmptyString ->
        w' = w /\ checkCooldown cm' w' = checkCooldown cm w).
Proof.
  intros Hname Hjar Hnow Hsec Hmax.
  destruct (String.eqb_spec input EmptyString) as [-> | Hne].
  - destruct (verifyPassword_empty correct cm w) as (cm' & E & Hsame).
    exists cm', w. split; [exact E |]. repeat split; try congruence.
  - destruct (String.eqb_spec input correct) as [<- | Hwrong].
    + destruct (verifyPassword_succeeded input cm w Hname Hjar Hnow Hne)
        as (cm' & w' & E & Hfind & Hcheck).
      exists cm', w'. split; [exact E |]. repeat split; try congruence; contradiction.
    + destruct (verifyPassword_failed input correct cm w Hname Hjar Hnow Hsec Hmax Hne Hwrong)
        as (cm' & w' & E & Hcheck).
      exists cm', w'. split; [exact E |]. repeat split; try congruence; contradiction.
Qed.

End Cooldown.

(* ===================================================================== *)
(** ** The password check and the success callback *)
(* ===================================================================== *)

Section SuccessCallback.
Import JsString JsNumber JsDate Browser Js Dom Common Observe.

Let obs := obs_calls OnSuccess.

Lemma calls_timers ts next w : obs (set_timers ts next w) = obs w.
Proof. reflexivity. Qed.

Lemma calls_log msg w : obs (add_event (ConsoleLog msg) w) = obs w.
Proof. reflexivity. Qed.

Lemma keeps_calls_cookie_set s : keeps obs (document_cookie_set s).
Proof. apply keeps_modify. reflexivity. Qed.

Lemma keeps_calls_setCooldown cm : keeps obs (setCooldown cm).
Proof.
  unfold setCooldown, setCookie, Date_now.
  apply keeps_bind; [apply keeps_gets |]. intros now.
  apply keeps_bind; [apply keeps_gets |]. intros now'.
  apply keeps_calls_cookie_set.
Qed.

(** [verifyPassword] always returns, and [onSuccess] has run once more
    exactly when the success branch was taken. *)
Lemma verifyPassword_calls input correct cm w :
  exists cm' w',
    verifyPassword input correct cm w = (Normal cm', w')
    /\ calls OnSuccess (events w')
       = (calls OnSuccess (events w)
          + if truthy input && String.eqb input correct then 1 else 0)%nat.
Proof.
  unfold verifyPassword, strict_eq.
  destruct (truthy input); cbn [negb andb].
  2: { eexists _, w. split; [reflexivity | lia]. }
  destruct (method_setVerifyingState obs calls_timers cm w) as (cm1 & w1 & E1 & O1 & _).
  unfold bind at 1. rewrite E1.
  destruct (String.eqb input correct).
  - destruct (method_clearCooldownState obs calls_timers true cm1
                (add_event (ConsoleLog "密码正确！") w1)) as (cm2 & w2 & E2 & O2 & _).
    unfold bind at 1, console_log at 1, modify at 1.
    unfold bind at 1. rewrite E2.
    eexists _, _. split; [reflexivity |].
    cbn [snd events add_event set_cookies calls].
    rewrite bool_decide_eq_true_2 by reflexivity.
    unfold obs, obs_calls in O1, O2. cbn [events add_event calls] in O2. lia.
  - assert (Hrest : forall c, method obs c
              (bind (console_log "密码错误！") (fun _ =>
               bind (setCooldown (with_input (set_value EmptyString) c)) (fun _ =>
               bind (checkCooldown (with_input (set_value EmptyString) c)) (fun st =>
                 startFrontendCooldownTimers (remaining st)
                   (with_error
                      (set_textContent
                         ("密码错误！请等待 " +:+ toString (remaining st) +:+ " 秒..."))
                      (with_input (set_value EmptyString) c))))))).
    { intros c.
      apply method_bind; [apply keeps_console_log; apply calls_log |]. intros _.
      apply method_bind; [apply keeps_calls_setCooldown |]. intros _.
      apply method_bind; [apply keeps_checkCooldown |]. intros st.
      eapply method_config; [| apply method_startFrontendCooldownTimers; apply calls_timers].
      reflexivity. }
    destruct (Hrest cm1 w1) as (cm2 & w2 & E2 & O2 & _).
    exists cm2, w2. split; [exact E2 |].
    unfold obs, obs_calls in O1, O2. lia.
Qed.

(** C1, as the code has it: [verifyPassword] invokes [onSuccess] if and
    only if the entered password is not empty and is strictly equal to the
    expected password; an empty entry never reaches the comparison.  When
    it invokes [onSuccess] it does so exactly once, and in every other
    case [onSuccess] has run as many times after the call as before. *)
Theorem verifyPassword_onSuccess_iff input correct cm w :
  (onSuccess_invoked input correct cm w
   <-> (input <> EmptyString /\ input = correct))
  /\ (input <> EmptyString /\ input = correct ->
      calls OnSuccess (events (world_after (verifyPassword input correct cm) w))
      = S (calls OnSuccess (events w)))
  /\ (~ (input <> EmptyString /\ input = correct) ->
      calls OnSuccess (events (world_after (verifyPassword input correct cm) w))
      = calls OnSuccess (events w)).
Proof.
  unfold onSuccess_invoked, world_after.
  destruct (verifyPassword_calls input correct cm w) as (cm' & w' & E & C).
  rewrite E. cbn [snd]. rewrite C. rewrite <- truthy_not_empty.
  destruct (truthy input); cbn [andb].
  - destruct (String.eqb_spec input correct) as [Heq | Hne].
    + split; [split; [auto | lia] |]. split; [lia |].
      intros H. exfalso. apply H. auto.
    + split; [split; [lia | intros [_ H]; contradiction] |].
      split; [intros [_ H]; contradiction | lia].
  - split; [split; [lia | intros [H _]; discriminate] |].
    split; [intros [H _]; discriminate | lia].
Qed.

End SuccessCallback.

(** C1 as stated fails where both the entry and the expected password are
    the empty string: they are strictly equal, and [onSuccess] does not
    run. *)
Lemma verifyPassword_empty_entry_counterexample :
  ~ (Observe.onSuccess_invoked EmptyString EmptyString Observe.manager0 Observe.world0
     <-> EmptyString = EmptyString :> string).
Proof.
  intros [_ H]. specialize (H eq_refl).
  unfold Observe.onSuccess_invoked in H. vm_compute in H. lia.
Qed.

(** C2 as stated fails after an empty entry made while a cooldown runs: the
    attempt did not fail in the sense of C2 (the entry was empty), and
    [checkCooldown] still reports the cooldown that the earlier wrong entry
    started. *)
Lemma verifyPassword_cooldown_counterexample :
  ~ (Observe.cooldown_active_after EmptyString "secret" Observe.manager1 Observe.world1 = true
     <-> (EmptyString <> EmptyString :> string /\ EmptyString <> "secret")).
Proof.
  intros [H _].
  assert (Hactive : Observe.cooldown_active_after EmptyString "secret"
                      Observe.manager1 Observe.world1 = true)
    by (vm_compute; reflexivity).
  destruct (H Hactive) as [Hne _]. apply Hne. reflexivity.
Qed.

Lemma verifyPassword_cooldown_witness :
  Browser.cookie_name_ok (Common.cookieName Observe.manager0) = true
  /\ Browser.jar_ok (Browser.cookies Observe.world0) = true
  /\ 0 <= Browser.clock Observe.world0
  /\ 0 < Common.cooldownSeconds Observe.manager0
  /\ Browser.clock Observe.world0 + Common.cooldownSeconds Observe.manager0 * 1000
     < JsDate.year_10000
  /\ exists cm' w',
      Common.verifyPassword "wrong" "secret" Observe.manager0 Observe.world0
      = (Js.Normal cm', w')
      /\ Common.checkCooldown cm' w' = (Js.Normal (Common.mkStatus true 30), w').
Proof.
  assert (H1 : Browser.cookie_name_ok (Common.cookieName Observe.manager0) = true)
    by reflexivity.
  assert (H2 : Browser.jar_ok (Browser.cookies Observe.world0) = true) by reflexivity.
  assert (H3 : 0 <= Browser.clock Observe.world0) by (vm_compute; discriminate).
  assert (H4 : 0 < Common.cooldownSeconds Observe.manager0) by reflexivity.
  assert (H5 : Browser.clock Observe.world0 + Common.cooldownSeconds Observe.manager0 * 1000
               < JsDate.year_10000) by (vm_compute; reflexivity).
  repeat (split; [assumption |]).
  destruct (verifyPassword_cooldown "wrong" "secret" Observe.manager0 Observe.world0
              H1 H2 H3 H4 H5) as (cm' & w' & E & Hfail & _).
  exists cm', w'. split; [exact E |]. apply Hfail; discriminate.
Defined.


Lemma checkCooldown_unparsable_witness :
  Observe.result_of (Common.getCookie "pw_cooldown")
    (Browser.set_cookies [Browser.mkCookie "pw_cooldown" "soon" None] Observe.world0)
  = Js.Normal (Some "soon")
  /\ JsNumber.parseInt "soon" = None
  /\ Common.checkCooldown Observe.manager0
       (Browser.set_cookies [Browser.mkCookie "pw_cooldown" "soon" None] Observe.world0)
     = (Js.Normal (Common.mkStatus false 0),
        Browser.set_cookies [Browser.mkCookie "pw_cooldown" "soon" None] Observe.world0).
Proof.
  split; [reflexivity | split; [reflexivity |]].
  exact (proj1 (checkCooldown_unparsable Observe.manager0
                  (Browser.set_cookies [Browser.mkCookie "pw_cooldown" "soon" None] Observe.world0)
                  "soon" eq_refl eq_refl)).
Defined.

(* ===================================================================== *)
(** ** The final-key page: the request for [keys.json] and the key check *)
(* ===================================================================== *)

Section FinalKeyPage.
Import Browser Js Json Dom NewPage Observe.

Context `{rt : Runtime}.

(** Loading the script issues one request and leaves [finalKey] unset. *)
Lemma load_spec input w :
  load input w = (Normal (mkPage VUndefined input), add_event (Fetch "../keys.json") w).
Proof. reflexivity. Qed.

(** A failed request leaves the page as it was and only writes to the
    console. *)
Lemma fetch_settled_failed outcome pg w :
  request_failed outcome ->
  fetch_settled outcome pg w
  = (Normal pg, add_event (ConsoleError "加载 keys.json 出错:") w).
Proof.
  unfold fetch_settled, try_catch, bind, throw, ret, lift.
  destruct outcome as [e | body]; simpl.
  - intros _. reflexivity.
  - intros [e He]. rewrite He. reflexivity.
Qed.

(** C7: when the request for [keys.json] fails, from the loading of the
    script to the end of the request exactly one GET has been issued,
    [finalKey] is still undefined, the page is otherwise as it was loaded,
    and the world differs from the initial one only by the record of that
    one request and by one line on the error console. *)
Theorem keys_fetch_failure_only_logged outcome input w :
  request_failed outcome ->
  exists pg w1 w2,
    load input w = (Normal pg, w1)
    /\ fetch_settled outcome pg w1 = (Normal pg, w2)
    /\ finalKey pg = VUndefined
    /\ final_password pg = input
    /\ fetches (events w2) = S (fetches (events w))
    /\ events w2 = [ConsoleError "加载 keys.json 出错:"; Fetch "../keys.json"] ++ events w
    /\ cookies w2 = cookies w /\ localStorage w2 = localStorage w
    /\ timers w2 = timers w /\ clock w2 = clock w.
Proof.
  intros Hfail.
  exists (mkPage VUndefined input), (add_event (Fetch "../keys.json") w).
  eexists. split; [apply load_spec |].
  split; [apply fetch_settled_failed; exact Hfail |].
  simpl. repeat split; reflexivity.
Qed.

(** A string is never strictly equal to [undefined]. *)
Lemma string_never_undefined s : string_strict_eq s VUndefined = false.
Proof. reflexivity. Qed.

(** C9: while [finalKey] is undefined, [checkFinalPassword] takes the
    failure branch whatever the input field holds: the field is marked
    wrong, the only timer added is the one that resets the field, and no
    navigation to [/two/finalpage] is scheduled. *)
Theorem checkFinalPassword_before_key_load pg w :
  finalKey pg = VUndefined ->
  checkFinalPassword pg w
  = (Normal (rejected_key_page pg),
     set_timers (timers w ++ [mkTimer (next_timer_id w) Once 1000 ResetInput])
       (next_timer_id w + 1) w)
  /\ (forall t, In t (timers (world_after (checkFinalPassword pg) w)) ->
                timer_callback t = NavigateTo "/two/finalpage" -> In t (timers w)).
Proof.
  intros Hkey. unfold world_after, checkFinalPassword. rewrite Hkey.
  rewrite string_never_undefined. split; [reflexivity |].
  simpl. intros t Hin Hcb. apply in_app_or in Hin. destruct Hin as [Hin | Hin]; [exact Hin |].
  simpl in Hin. destruct Hin as [<- | []]. discriminate.
Qed.

End FinalKeyPage.

Lemma keys_fetch_failure_only_logged_witness :
  Observe.request_failed (H := Json.reference) (NewPage.Rejected (Js.NetworkError "Failed to fetch"))
  /\ exists pg w1 w2,
      NewPage.load Observe.blank Observe.world0 = (Js.Normal pg, w1)
      /\ NewPage.fetch_settled (H := Json.reference)
           (NewPage.Rejected (Js.NetworkError "Failed to fetch")) pg w1 = (Js.Normal pg, w2)
      /\ NewPage.finalKey pg = Json.VUndefined
      /\ NewPage.final_password pg = Observe.blank
      /\ Observe.fetches (Browser.events w2) = S (Observe.fetches (Browser.events Observe.world0))
      /\ Browser.events w2
         = [Browser.ConsoleError "加载 keys.json 出错:"; Browser.Fetch "../keys.json"]
           ++ Browser.events Observe.world0
      /\ Browser.cookies w2 = Browser.cookies Observe.world0
      /\ Browser.localStorage w2 = Browser.localStorage Observe.world0
      /\ Browser.timers w2 = Browser.timers Observe.world0
      /\ Browser.clock w2 = Browser.clock Observe.world0.
Proof.
  split; [exact I |].
  exact (keys_fetch_failure_only_logged (rt := Json.reference)
           (NewPage.Rejected (Js.NetworkError "Failed to fetch")) Observe.blank Observe.world0 I).
Defined.

Lemma checkFinalPassword_before_key_load_witness :
  NewPage.finalKey (NewPage.mkPage Json.VUndefined (Dom.set_value "abyss" Observe.blank))
  = Json.VUndefined
  /\ NewPage.checkFinalPassword
       (NewPage.mkPage Json.VUndefined (Dom.set_value "abyss" Observe.blank)) Observe.world0
     = (Js.Normal
          (Observe.rejected_key_page
             (NewPage.mkPage Json.VUndefined (Dom.set_value "abyss" Observe.blank))),
        Browser.set_timers [Browser.mkTimer 1 Browser.Once 1000 Browser.ResetInput] 2
          Observe.world0).
Proof.
  split; [reflexivity |].
  exact (proj1 (checkFinalPassword_before_key_load
                  (NewPage.mkPage Json.VUndefined (Dom.set_value "abyss" Observe.blank))
                  Observe.world0 eq_refl)).
Defined.

(* ===================================================================== *)
(** ** Unlock state in local storage *)
(* ===================================================================== *)

Section UnlockState.
Import Browser Js Json Dom Common Observe.

Context `{rt : Runtime}.

(** C5: if nothing is stored under the key, or what is stored is no valid
    JSON (the parse raises), [loadUnlockedState] returns the default the
    caller supplied, and returns it normally: no error leaves the
    function.  The storage is left as it was. *)
Theorem loadUnlockedState_default key defaultValue w :
  (localStorage w !! key = None
   \/ exists text e, localStorage w !! key = Some text /\ JSON_parse text = Throw e) ->
  result_of (loadUnlockedState key defaultValue) w = Normal defaultValue
  /\ localStorage (world_after (loadUnlockedState key defaultValue) w) = localStorage w.
Proof.
  unfold result_of, world_after, loadUnlockedState, localStorage_getItem,
    bind, gets, try_catch, lift, ret.
  intros [Hnone | (text & e & Hsome & Hparse)].
  - rewrite Hnone. simpl. auto.
  - rewrite Hsome. destruct (JsString.truthy text); simpl; [| auto].
    rewrite Hparse. simpl. auto.
Qed.

(** What [saveUnlockedState] stores. *)
Lemma saveUnlockedState_spec key state w :
  saveUnlockedState key state w
  = (Normal tt,
     set_localStorage
       (<[key := string_of_stringified (JSON_stringify state)]> (localStorage w)) w).
Proof. reflexivity. Qed.

(** What [loadUnlockedState] returns for a stored text that parses. *)
Lemma loadUnlockedState_parsed key defaultValue w text v :
  localStorage w !! key = Some text ->
  JSON_parse text = Normal v ->
  loadUnlockedState key defaultValue w = (Normal v, w).
Proof.
  intros Hsome Hparse.
  unfold loadUnlockedState, localStorage_getItem, bind, gets, try_catch, lift, ret.
  rewrite Hsome.
  assert (Ht : JsString.truthy text = true).
  { destruct text; [| reflexivity].
    destruct JSON_parse_empty as [e He]. congruence. }
  rewrite Ht, Hparse. reflexivity.
Qed.

(** What a load returns right after a save under the same key. *)
Lemma load_after_save key state text v defaultValue w :
  JSON_stringify state = Some text ->
  JSON_parse text = Normal v ->
  result_of (loadUnlockedState key defaultValue)
    (world_after (saveUnlockedState key state) w)
  = Normal v.
Proof.
  intros Hs Hp. unfold result_of, world_after.
  rewrite saveUnlockedState_spec. cbn [snd].
  rewrite (loadUnlockedState_parsed key defaultValue _ text v).
  - reflexivity.
  - cbn [localStorage set_localStorage]. rewrite Hs. cbn [string_of_stringified].
    apply lookup_insert_eq.
  - exact Hp.
Qed.

(** C6: for a state that JSON can carry (it is stringified to a text that
    parses back to it), [loadUnlockedState] after [saveUnlockedState]
    under the same key returns [JSON.parse(JSON.stringify(state))], that
    is the state, whatever default is passed. *)
Theorem unlock_state_round_trip key state text defaultValue w :
  JSON_stringify state = Some text ->
  JSON_parse text = Normal state ->
  result_of (loadUnlockedState key defaultValue)
    (world_after (saveUnlockedState key state) w)
  = Normal state.
Proof.
  intros Hs Hp. unfold result_of.
  pose proof (load_after_save key state text state defaultValue w Hs Hp) as H.
  unfold result_of in H. exact H.
Qed.

End UnlockState.

(** With the reference [JSON], an unlock state that is an array of flags
    comes back as saved, whatever the default. *)
Lemma unlock_flags_round_trip key bs defaultValue w :
  Observe.result_of
    (Common.loadUnlockedState (H := Json.reference) key defaultValue)
    (Observe.world_after
       (Common.saveUnlockedState (H := Json.reference) key
          (Json.VArray (map Json.VBool bs))) w)
  = Js.Normal (Json.VArray (map Json.VBool bs)).
Proof.
  destruct (reference_round_trip_flags bs) as (text & Hs & Hp).
  exact (load_after_save (rt := Json.reference) key _ text _ defaultValue w Hs Hp).
Qed.

Lemma loadUnlockedState_default_witness :
  Browser.localStorage
    (Browser.set_localStorage {[ "unlocked" := "{oops" ]} Observe.world0) !! "unlocked"
  = Some "{oops"
  /\ Json.parse "{oops" = Js.Throw (Js.SyntaxError "Unexpected token in JSON")
  /\ Observe.result_of
       (Common.loadUnlockedState (H := Json.reference) "unlocked" (Json.VArray []))
       (Browser.set_localStorage {[ "unlocked" := "{oops" ]} Observe.world0)
     = Js.Normal (Json.VArray []).
Proof.
  split; [reflexivity | split; [reflexivity |]].
  refine (proj1 (loadUnlockedState_default (rt := Json.reference) "unlocked" (Json.VArray [])
                   (Browser.set_localStorage {[ "unlocked" := "{oops" ]} Observe.world0) _)).
  right. exists "{oops", (Js.SyntaxError "Unexpected token in JSON").
  split; reflexivity.
Defined.

Lemma unlock_state_round_trip_witness :
  Json.stringify (Json.VArray [Json.VBool true; Json.VBool false; Json.VNumber 3])
  = Some "[true,false,3]"
  /\ Json.parse "[true,false,3]"
     = Js.Normal (Json.VArray [Json.VBool true; Json.VBool false; Json.VNumber 3])
  /\ Observe.result_of
    (Common.loadUnlockedState (H := Json.reference) "unlocked" Json.VNull)
    (Observe.world_after
       (Common.saveUnlockedState (H := Json.reference) "unlocked"
          (Json.VArray [Json.VBool true; Json.VBool false; Json.VNumber 3]))
       Observe.world0)
  = Js.Normal (Json.VArray [Json.VBool true; Json.VBool false; Json.VNumber 3]).
Proof.
  split; [reflexivity | split; [reflexivity |]].
  exact (unlock_state_round_trip (rt := Json.reference) "unlocked"
           (Json.VArray [Json.VBool true; Json.VBool false; Json.VNumber 3])
           "[true,false,3]" Json.VNull Observe.world0 eq_refl eq_refl).
Defined.

(* ===================================================================== *)
(** ** More on the cookie store: other names, deletion, overwriting *)
(* ===================================================================== *)

Section CookieJar.
Import JsString JsNumber JsDate Browser Js Dom Common Observe Run.

Lemma find_remove_other other name now jar :
  other <> name ->
  find_cookie other now (remove_cookie name jar) = find_cookie other now jar.
Proof.
  intros Hne. unfold find_cookie. induction jar as [| c rest IH]; [reflexivity |].
  cbn [remove_cookie]. destruct (String.eqb_spec (cookie_name c) name) as [E | E].
  - rewrite IH. cbn [List.filter]. destruct (negb (expired now c)); [| reflexivity].
    cbn [List.find]. destruct (String.eqb_spec other (cookie_name c)); [congruence | reflexivity].
  - cbn [List.filter]. destruct (negb (expired now c)); [| exact IH].
    cbn [List.find]. rewrite IH. reflexivity.
Qed.

Lemma find_put_other other c now jar :
  other <> cookie_name c ->
  find_cookie other now (put_cookie c jar) = find_cookie other now jar.
Proof.
  intros Hne. induction jar as [| c' rest IH].
  - unfold find_cookie. cbn [put_cookie List.filter].
    destruct (negb (expired now c)); [| reflexivity].
    cbn [List.find]. destruct (String.eqb_spec other (cookie_name c)); [congruence | reflexivity].
  - cbn [put_cookie]. destruct (String.eqb_spec (cookie_name c') (cookie_name c)) as [E | E].
    + pose proof (find_remove_other other (cookie_name c) now rest Hne) as Hrest.
      unfold find_cookie in *. cbn [List.filter].
      destruct (negb (expired now c)), (negb (expired now c')); cbn [List.find];
        repeat match goal with
               | |- context [String.eqb other ?n] =>
                   destruct (String.eqb_spec other n); [congruence |]
               end; exact Hrest.
    + unfold find_cookie in *. cbn [List.filter].
      destruct (negb (expired now c')); [| exact IH].
      cbn [List.find]. rewrite IH. reflexivity.
Qed.

Lemma find_put_expired c now jar :
  expired now c = true ->
  find_cookie (cookie_name c) now (put_cookie c jar) = None.
Proof.
  intros Hexp. induction jar as [| c' rest IH].
  - unfold find_cookie. cbn [put_cookie List.filter]. rewrite Hexp. reflexivity.
  - cbn [put_cookie]. destruct (String.eqb_spec (cookie_name c') (cookie_name c)) as [E | E].
    + pose proof (find_remove_cookie (cookie_name c) now rest) as Hrest.
      unfold find_cookie in *. cbn [List.filter]. rewrite Hexp. exact Hrest.
    + unfold find_cookie in *. cbn [List.filter].
      destruct (negb (expired now c')); [| exact IH].
      cbn [List.find]. destruct (String.eqb_spec (cookie_name c) (cookie_name c'));
        [congruence | exact IH].
Qed.

(** What [setCookie] leaves in the store, for a lifetime of any sign. *)
Lemma setCookie_store name value seconds w :
  cookie_name_ok name = true -> cookie_value_ok value = true ->
  0 <= clock w + seconds * 1000 < year_10000 ->
  cookies (world_after (setCookie name value seconds) w)
  = (if 1000 * ((clock w + seconds * 1000) / 1000) <=? clock w
     then remove_cookie name (cookies w)
     else put_cookie
            (mkCookie name value (Some (1000 * ((clock w + seconds * 1000) / 1000))))
            (cookies w))
  /\ clock (world_after (setCookie name value seconds) w) = clock w.
Proof.
  intros Hname Hvalue Hrange.
  unfold world_after. rewrite setCookie_writes. cbn [snd cookies clock add_event set_cookies].
  split; [| reflexivity].
  unfold cookie_string. rewrite time_clip_in_range by lia.
  destruct (toUTCString_chars (clock w + seconds * 1000)) as (Hchars & Hs & He); [lia |].
  apply cookie_store_set_spec.
  - exact Hname.
  - exact Hvalue.
  - exact Hchars.
  - apply date_clean_edges; assumption.
  - apply parse_toUTCString. lia.
Qed.

Lemma setCookie_jar_ok name value seconds w :
  cookie_name_ok name = true -> cookie_value_ok value = true ->
  jar_ok (cookies w) = true ->
  0 <= clock w + seconds * 1000 < year_10000 ->
  jar_ok (cookies (world_after (setCookie name value seconds) w)) = true.
Proof.
  intros Hname Hvalue Hjar Hrange.
  destruct (setCookie_store name value seconds w Hname Hvalue Hrange) as [-> _].
  destruct (_ <=? _).
  - apply jar_ok_remove, Hjar.
  - apply jar_ok_put; [| exact Hjar].
    unfold cookie_ok. cbn [cookie_name cookie_value]. rewrite Hname, Hvalue. reflexivity.
Qed.

Lemma deleteCookie_jar_ok name w :
  cookie_name_ok name = true -> jar_ok (cookies w) = true -> 0 <= clock w ->
  jar_ok (cookies (world_after (deleteCookie name) w)) = true.
Proof.
  intros Hname Hjar Hnow.
  destruct (deleteCookie_spec name w Hname Hnow) as [-> _].
  apply jar_ok_remove, Hjar.
Qed.

Lemma result_getCookie name w :
  lacks "=" name = true -> jar_ok (cookies w) = true ->
  result_of (getCookie name) w
  = Normal (option_map cookie_value (find_cookie name (clock w) (cookies w))).
Proof.
  intros Hname Hjar. unfold result_of. rewrite getCookie_spec by assumption. reflexivity.
Qed.

(** X1: Deleting a cookie makes it unreadable: after
    [deleteCookie(name)], [getCookie(name)] returns [null], whatever the
    store held under that name. *)
Theorem getCookie_after_deleteCookie name w :
  cookie_name_ok name = true -> jar_ok (cookies w) = true -> 0 <= clock w ->
  result_of (getCookie name) (world_after (deleteCookie name) w) = Normal None.
Proof.
  intros Hname Hjar Hnow.
  pose proof Hname as (_ & _ & Heq & _)%cookie_name_ok_spec.
  rewrite result_getCookie by (try apply deleteCookie_jar_ok; assumption).
  destruct (deleteCookie_spec name w Hname Hnow) as [-> ->].
  rewrite find_remove_cookie. reflexivity.
Qed.

(** X2: Writing a cookie does not disturb the others: [getCookie(other)]
    returns the same after [setCookie(name, ...)] as before, for every
    other name, whether the write stores or removes the cookie. *)
Theorem setCookie_keeps_other_cookies name value seconds other w :
  cookie_name_ok name = true -> cookie_value_ok value = true ->
  lacks "=" other = true -> other <> name ->
  jar_ok (cookies w) = true ->
  0 <= clock w + seconds * 1000 < year_10000 ->
  result_of (getCookie other) (world_after (setCookie name value seconds) w)
  = result_of (getCookie other) w.
Proof.
  intros Hname Hvalue Hother Hne Hjar Hrange.
  rewrite !result_getCookie by (try apply setCookie_jar_ok; assumption).
  destruct (setCookie_store name value seconds w Hname Hvalue Hrange) as [-> ->].
  destruct (_ <=? _).
  - rewrite find_remove_other by exact Hne. reflexivity.
  - rewrite find_put_other by exact Hne. reflexivity.
Qed.

(** X3: Deleting a cookie does not disturb the others either. *)
Theorem deleteCookie_keeps_other_cookies name other w :
  cookie_name_ok name = true -> lacks "=" other = true -> other <> name ->
  jar_ok (cookies w) = true -> 0 <= clock w ->
  result_of (getCookie other) (world_after (deleteCookie name) w)
  = result_of (getCookie other) w.
Proof.
  intros Hname Hother Hne Hjar Hnow.
  rewrite !result_getCookie by (try apply deleteCookie_jar_ok; assumption).
  destruct (deleteCookie_spec name w Hname Hnow) as [-> ->].
  rewrite find_remove_other by exact Hne. reflexivity.
Qed.


End CookieJar.

(* ===================================================================== *)
(** ** The cooldown as time passes *)
(* ===================================================================== *)

Section CooldownOverTime.
Import JsString JsNumber JsDate Browser Js Dom Common Observe Run.

Lemma setCooldown_setCookie cm w :
  setCooldown cm w
  = setCookie (cookieName cm) (toString (clock w + cooldownSeconds cm * 1000))
      (cooldownSeconds cm) w.
Proof. reflexivity. Qed.

(** The store after [setCooldown]. *)
Lemma setCooldown_store cm w :
  cookie_name_ok (cookieName cm) = true ->
  0 <= clock w -> 0 < cooldownSeconds cm ->
  clock w + cooldownSeconds cm * 1000 < year_10000 ->
  cookies (world_after (setCooldown cm) w)
  = put_cookie
      (mkCookie (cookieName cm) (toString (clock w + cooldownSeconds cm * 1000))
         (Some (1000 * ((clock w + cooldownSeconds cm * 1000) / 1000))))
      (cookies w).
Proof.
  intros Hname Hnow Hsec Hmax. unfold world_after. rewrite setCooldown_setCookie.
  apply (setCookie_spec (cookieName cm) _ (cooldownSeconds cm) w); try assumption.
  apply toString_value_ok. lia.
Qed.

(** The status [checkCooldown] reports when the clock reads [t], after
    [setCooldown] ran in [w]. *)
Lemma checkCooldown_later cm w t :
  cookie_name_ok (cookieName cm) = true -> jar_ok (cookies w) = true ->
  0 <= clock w -> 0 < cooldownSeconds cm ->
  clock w + cooldownSeconds cm * 1000 < year_10000 ->
  checkCooldown cm (set_clock t (world_after (setCooldown cm) w))
  = (Normal
       (if t <? 1000 * ((clock w + cooldownSeconds cm * 1000) / 1000)
        then mkStatus true (ceil_div (clock w + cooldownSeconds cm * 1000 - t) 1000)
        else mkStatus false 0),
     set_clock t (world_after (setCooldown cm) w)).
Proof.
  intros Hname Hjar Hnow Hsec Hmax.
  pose proof Hname as (_ & _ & Heq & _)%cookie_name_ok_spec.
  pose proof (setCooldown_store cm w Hname Hnow Hsec Hmax) as Hstore.
  set (w' := world_after (setCooldown cm) w) in *.
  rewrite checkCooldown_find.
  2: exact Heq.
  2: { change (cookies (set_clock t w')) with (cookies w'). rewrite Hstore.
       apply jar_ok_put; [| exact Hjar].
       unfold cookie_ok. cbn [cookie_name cookie_value].
       rewrite Hname, toString_value_ok by lia. reflexivity. }
  change (cookies (set_clock t w')) with (cookies w').
  change (clock (set_clock t w')) with t. rewrite Hstore.
  set (E := clock w + cooldownSeconds cm * 1000) in *.
  destruct (Z.ltb_spec t (1000 * (E / 1000))) as [Hlive | Hdead].
  - rewrite (find_put_cookie (mkCookie (cookieName cm) _ _)).
    + cbn [option_map cookie_value status_of].
      rewrite parseInt_toString
        by (unfold year_10000 in Hmax; rewrite Z.abs_eq by lia; lia).
      pose proof (toString_not_empty E) as Hne.
      destruct (toString E); [congruence |]. cbn [truthy].
      destruct (Z.ltb_spec t E); [reflexivity | Z.div_mod_to_equations; lia].
    + unfold expired. cbn [cookie_expiry].
      destruct (Z.leb_spec (1000 * (E / 1000)) t); [lia | reflexivity].
  - rewrite (find_put_expired (mkCookie (cookieName cm) _ _)); [reflexivity |].
    unfold expired. cbn [cookie_expiry].
    destruct (Z.leb_spec (1000 * (E / 1000)) t); [reflexivity | lia].
Qed.


(** X6: How long a failed attempt locks: from the failure until
    [cooldownSeconds - 1] seconds later [checkCooldown] reports a cooldown
    with between 1 and [cooldownSeconds] seconds remaining, and from
    [cooldownSeconds] seconds on it reports none. *)
Theorem cooldown_period cm w t st :
  cookie_name_ok (cookieName cm) = true -> jar_ok (cookies w) = true ->
  0 <= clock w -> 0 < cooldownSeconds cm ->
  clock w + cooldownSeconds cm * 1000 < year_10000 ->
  clock w <= t ->
  result_of (checkCooldown cm) (set_clock t (world_after (setCooldown cm) w)) = Normal st ->
  (t <= clock w + (cooldownSeconds cm - 1) * 1000 ->
   cooldown st = true /\ 1 <= remaining st <= cooldownSeconds cm)
  /\ (clock w + cooldownSeconds cm * 1000 <= t -> st = mkStatus false 0).
Proof.
  intros Hname Hjar Hnow Hsec Hmax Hlater. unfold result_of.
  rewrite checkCooldown_later by assumption. cbn [fst]. intros [= <-].
  set (E := clock w + cooldownSeconds cm * 1000) in *.
  split.
  - intros Hearly.
    destruct (Z.ltb_spec t (1000 * (E / 1000))); [| Z.div_mod_to_equations; lia].
    cbn [cooldown remaining]. split; [reflexivity |].
    pose proof (ceil_div_spec (E - t) 1000 ltac:(lia)). lia.
  - intros Hover.
    destruct (Z.ltb_spec t (1000 * (E / 1000))); [Z.div_mod_to_equations; lia | reflexivity].
Qed.

(** X7: Whatever the cookie holds, [checkCooldown] returns without
    changing anything, and its answer is consistent: a reported cooldown
    has at least one second remaining, and no cooldown has zero. *)
Theorem checkCooldown_answer_consistent cm w :
  exists st,
    checkCooldown cm w = (Normal st, w)
    /\ (cooldown st = true -> 1 <= remaining st)
    /\ (cooldown st = false -> remaining st = 0).
Proof.
  destruct (result_of (getCookie (cookieName cm)) w) as [value | e] eqn:E.
  2: { revert E. unfold result_of, getCookie, bind, document_cookie_get, gets, ret.
       discriminate. }
  exists (status_of value (clock w)). split; [apply checkCooldown_status, E |].
  unfold status_of. destruct value as [text |]; [| split; [discriminate | reflexivity]].
  destruct (truthy text); [| split; [discriminate | reflexivity]].
  destruct (parseInt text) as [expiry |]; [| split; [discriminate | reflexivity]].
  destruct (Z.ltb_spec (clock w) expiry); [| split; [discriminate | reflexivity]].
  cbn [cooldown remaining]. split; [| discriminate].
  intros _. pose proof (ceil_div_spec (expiry - clock w) 1000 ltac:(lia)). lia.
Qed.

(** X8: [clearCooldown] ends a cooldown at once: right after it,
    [checkCooldown] reports no cooldown, also when [setCooldown] had just
    started one. *)
Theorem checkCooldown_after_clearCooldown cm w :
  cookie_name_ok (cookieName cm) = true -> jar_ok (cookies w) = true ->
  0 <= clock w ->
  result_of (checkCooldown cm) (world_after (clearCooldown cm) w)
  = Normal (mkStatus false 0).
Proof.
  intros Hname Hjar Hnow.
  pose proof Hname as (_ & _ & Heq & _)%cookie_name_ok_spec.
  unfold result_of, clearCooldown.
  rewrite checkCooldown_find by (try apply deleteCookie_jar_ok; assumption).
  destruct (deleteCookie_spec (cookieName cm) w Hname Hnow) as [-> ->].
  rewrite find_remove_cookie. reflexivity.
Qed.

End CooldownOverTime.

(* ===================================================================== *)
(** ** The timers of the cooldown manager *)
(* ===================================================================== *)

Section ManagerTimers.
Import JsString JsNumber JsDate Browser Js Dom Common Observe Run.

Lemma contains_add c e : classList_contains c (classList_add c e) = true.
Proof.
  unfold classList_contains, classList_add. cbn [classList].
  apply bool_decide_eq_true_2. apply elem_of_union_l, elem_of_singleton. reflexivity.
Qed.

Lemma contains_remove c e : classList_contains c (classList_remove c e) = false.
Proof.
  unfold classList_contains, classList_remove. cbn [classList].
  apply bool_decide_eq_false_2. rewrite elem_of_difference, elem_of_singleton. tauto.
Qed.

Lemma same_but_timers_refl w : same_but_timers w w.
Proof. repeat split. Qed.

(** *** The table of timers *)

Lemma find_timer_fresh id j old rest :
  Forall (fun t => timer_id t < j) old -> j <= id ->
  find_timer id (old ++ rest) = find_timer id rest.
Proof.
  intros Hold Hid. unfold find_timer. induction Hold as [| t old Ht _ IH]; [reflexivity |].
  cbn [app List.find]. destruct (Z.eqb_spec (timer_id t) id); [lia | exact IH].
Qed.

Lemma filter_fresh id j old :
  Forall (fun t => timer_id t < j) old -> j <= id ->
  List.filter (fun t => negb (timer_id t =? id)) old = old.
Proof.
  intros Hold Hid. induction Hold as [| t old Ht _ IH]; [reflexivity |].
  cbn [List.filter]. destruct (Z.eqb_spec (timer_id t) id); [lia |].
  cbn [negb]. rewrite IH. reflexivity.
Qed.

(** *** [clearCooldownState] *)

Lemma clearCooldownState_spec force cm w :
  exists cm' w',
    clearCooldownState force cm w = (Normal cm', w')
    /\ idle cm'
    /\ textContent (errorElement cm')
       = (if force then EmptyString else textContent (errorElement cm))
    /\ config cm' = config cm
    /\ buttonDefaultText cm' = buttonDefaultText cm
    /\ timers w'
       = without_timer (activeCooldownTimeout cm)
           (without_timer (activeCooldownTimer cm) (timers w))
    /\ same_but_timers w w'
    /\ (activeCooldownTimer cm = None -> activeCooldownTimer cm' = None)
    /\ value (inputElement cm') = value (inputElement cm).
Proof.
  unfold clearCooldownState, is_set, clear_any, clearInterval, clearTimeout, clear_timer,
    modify, without_timer, idle, same_but_timers, config.
  destruct cm as [n s i b e f dt lt [t1 |] [t2 |] c]; cbn;
    repeat match goal with
           | |- context [?x =? 0] => destruct (x =? 0) eqn:?; cbn
           end;
    destruct force; cbn;
    (eexists; eexists; split; [reflexivity |]);
    cbn; rewrite ?contains_remove; repeat split; try reflexivity; try discriminate;
    try (repeat match goal with H : (_ =? 0) = _ |- _ => rewrite H end; reflexivity).
Qed.

Lemma find_timer_filter_none id p ts :
  find_timer id ts = None -> find_timer id (List.filter p ts) = None.
Proof.
  unfold find_timer. induction ts as [| t ts IH]; [reflexivity |].
  cbn [List.find List.filter]. destruct (timer_id t =? id) eqn:E; [discriminate |].
  intros H. destruct (p t); [cbn [List.find]; rewrite E |]; apply IH, H.
Qed.

Lemma find_timer_cleared id ts :
  find_timer id (List.filter (fun t => negb (timer_id t =? id)) ts) = None.
Proof.
  unfold find_timer. induction ts as [| t ts IH]; [reflexivity |].
  cbn [List.filter]. destruct (timer_id t =? id) eqn:E; cbn [negb]; [exact IH |].
  cbn [List.find]. rewrite E. exact IH.
Qed.

Lemma find_timer_filter_other id id' ts :
  id <> id' ->
  find_timer id (List.filter (fun t => negb (timer_id t =? id')) ts) = find_timer id ts.
Proof.
  intros Hne. unfold find_timer. induction ts as [| t ts IH]; [reflexivity |].
  cbn [List.filter List.find]. destruct (Z.eqb_spec (timer_id t) id') as [E' | E']; cbn [negb].
  - destruct (Z.eqb_spec (timer_id t) id); [lia | exact IH].
  - cbn [List.find]. rewrite IH. reflexivity.
Qed.

Lemma find_timer_without_none id x ts :
  find_timer id ts = None -> find_timer id (without_timer x ts) = None.
Proof.
  intros H. unfold without_timer. destruct x as [i |]; [| exact H].
  destruct (i =? 0); [exact H | apply find_timer_filter_none, H].
Qed.

Lemma find_timer_without id ts :
  id <> 0 -> find_timer id (without_timer (Some id) ts) = None.
Proof.
  intros Hid. unfold without_timer. destruct (Z.eqb_spec id 0); [lia |].
  apply find_timer_cleared.
Qed.

(** X9: [clearCooldownState] puts the form at rest: the mark is off,
    both controls are enabled, the button shows its default text, no timer
    the manager held stays pending, and the message is emptied exactly
    when the flag asks for it.  Cookies, storage and log are untouched. *)
Theorem clearCooldownState_leaves_form_idle force cm w :
  exists cm' w',
    clearCooldownState force cm w = (Normal cm', w')
    /\ idle cm'
    /\ textContent (errorElement cm')
       = (if force then EmptyString else textContent (errorElement cm))
    /\ (forall id, id <> 0 ->
          activeCooldownTimer cm = Some id \/ activeCooldownTimeout cm = Some id ->
          pending id w' = false)
    /\ same_but_timers w w'.
Proof.
  destruct (clearCooldownState_spec force cm w)
    as (cm' & w' & E & Hidle & Htext & _ & _ & Htimers & Hsame & _).
  exists cm', w'.
  split; [exact E |]. split; [exact Hidle |]. split; [exact Htext |].
  split; [| exact Hsame].
  intros id Hid Hheld. unfold pending. rewrite Htimers.
  destruct Hheld as [-> | ->].
  - rewrite find_timer_without_none; [reflexivity | apply find_timer_without, Hid].
  - rewrite find_timer_without; [reflexivity | exact Hid].
Qed.

(** *** Starting the countdown *)

Lemma start_counting R cm w :
  activeCooldownTimer cm = None -> activeCooldownTimeout cm = None -> 0 < R ->
  startFrontendCooldownTimers R cm w
  = (Normal
       (with_timeout (Some (next_timer_id w + 1))
          (with_timer (Some (next_timer_id w))
             (with_countdown (R - 1)
                (with_error (set_textContent (wait_text R))
                   (with_countdown R
                      (with_button (set_textContent "请等待...")
                         (with_form (classList_add "cooldown-active")
                            (with_button (set_disabled true)
                               (with_input (set_disabled true) cm))))))))),
     set_timers
       ((timers w ++ [mkTimer (next_timer_id w) Repeating 1000 UpdateTimerDisplay])
        ++ [mkTimer (next_timer_id w + 1) Once (R * 1000) CooldownEnd])
       (next_timer_id w + 1 + 1) w).
Proof.
  intros Ht1 Ht2 HR.
  unfold startFrontendCooldownTimers, updateTimerDisplay.
  cbn [activeCooldownTimer activeCooldownTimeout formElement countdown
       with_countdown with_button with_form with_input].
  rewrite Ht1, Ht2, contains_add.
  destruct (Z.ltb_spec 0 R); [| lia].
  reflexivity.
Qed.

(** One tick of the interval while the countdown is positive. *)
Lemma tick_counting cm w :
  classList_contains "cooldown-active" (formElement cm) = true -> 0 < countdown cm ->
  updateTimerDisplay cm w
  = (Normal (with_countdown (countdown cm - 1)
               (with_error (set_textContent (wait_text (countdown cm))) cm)), w).
Proof.
  intros Hclass Hpos. unfold updateTimerDisplay. rewrite Hclass.
  destruct (Z.ltb_spec 0 (countdown cm)); [reflexivity | lia].
Qed.

(** The tick that finds the countdown at zero stops its interval. *)
Lemma tick_last cm w :
  classList_contains "cooldown-active" (formElement cm) = true -> countdown cm <= 0 ->
  updateTimerDisplay cm w
  = (Normal (with_timer None (with_error (set_textContent "请稍候...") cm)),
     match activeCooldownTimer cm with
     | Some i =>
         set_timers (List.filter (fun t => negb (timer_id t =? i)) (timers w))
           (next_timer_id w) w
     | None => w
     end).
Proof.
  intros Hclass Hzero. unfold updateTimerDisplay. rewrite Hclass.
  destruct (Z.ltb_spec 0 (countdown cm)); [lia |].
  destruct cm as [n s i b e f dt lt [t1 |] t2 c]; reflexivity.
Qed.

(** A tick that finds the form unmarked clears what the field holds. *)
Lemma tick_unmarked cm w :
  classList_contains "cooldown-active" (formElement cm) = false ->
  activeCooldownTimer cm = None ->
  updateTimerDisplay cm w = (Normal cm, w).
Proof.
  intros Hclass Hnone. unfold updateTimerDisplay. rewrite Hclass.
  destruct cm as [n s i b e f dt lt t1 t2 c]. cbn in Hnone. subst t1. reflexivity.
Qed.

(** *** The task of the timeout *)

Lemma cooldownEnd_spec cm w :
  exists cm' w',
    cooldownEnd cm w = (Normal cm', w')
    /\ idle cm'
    /\ activeCooldownTimer cm' = None
    /\ activeCooldownTimeout cm' = None
    /\ textContent (errorElement cm') = EmptyString
    /\ config cm' = config cm
    /\ timers w' = without_timer (activeCooldownTimeout cm) (timers w)
    /\ events w'
       = (if classList_contains "cooldown-active" (formElement cm)
          then [Called OnCooldownEnd; ConsoleLog "前端冷却结束。重新启用控件。"]
          else [ConsoleLog "冷却时间到，但 UI 状态已改变。"]) ++ events w
    /\ clock w' = clock w /\ cookies w' = cookies w /\ localStorage w' = localStorage w
    /\ next_timer_id w' = next_timer_id w.
Proof.
  unfold cooldownEnd.
  change (formElement (with_timer None cm)) with (formElement cm).
  destruct (classList_contains "cooldown-active" (formElement cm)).
  - match goal with
    | |- context [clearCooldownState false ?c] =>
        destruct (clearCooldownState_spec false c
                    (add_event (ConsoleLog "前端冷却结束。重新启用控件。") w))
          as (cm1 & w1 & E & Hidle & _ & Hconfig & _ & Htimers & Hsame & Hnone & _)
    end.
    unfold bind, console_log, modify, call, ret. rewrite E.
    eexists. eexists. split; [reflexivity |]. clear E.
    destruct Hsame as (Hk & Hc & Hl & Hn & He).
    specialize (Hnone eq_refl).
    unfold idle in *. cbn in *.
    rewrite Hk, Hc, Hl, Hn, He. intuition.
  - match goal with
    | |- context [clearCooldownState true ?c] =>
        destruct (clearCooldownState_spec true c
                    (add_event (ConsoleLog "冷却时间到，但 UI 状态已改变。") w))
          as (cm1 & w1 & E & Hidle & Htext & Hconfig & _ & Htimers & Hsame & Hnone & _)
    end.
    unfold bind, console_log, modify, call, ret. rewrite E.
    eexists. eexists. split; [reflexivity |]. clear E.
    destruct Hsame as (Hk & Hc & Hl & Hn & He).
    specialize (Hnone eq_refl).
    unfold idle in *. cbn in *.
    rewrite Hk, Hc, Hl, Hn, He. intuition.
Qed.

(** *** Running the tasks *)

Lemma fire_repeating id t cm w :
  find_timer id (timers w) = Some t -> timer_kind t = Repeating ->
  fire id cm w = run_callback (timer_callback t) cm w.
Proof. intros H K. unfold fire, bind, gets, ret. rewrite H, K. reflexivity. Qed.

Lemma fire_once id t cm w :
  find_timer id (timers w) = Some t -> timer_kind t = Once ->
  fire id cm w
  = run_callback (timer_callback t) cm
      (set_timers (List.filter (fun t => negb (timer_id t =? id)) (timers w))
         (next_timer_id w) w).
Proof. intros H K. unfold fire, bind, gets, ret. rewrite H, K. reflexivity. Qed.

Lemma fire_times_add a b id : forall cm w,
  fire_times (a + b) id cm w
  = match fire_times a id cm w with
    | (Normal cm', w') => fire_times b id cm' w'
    | (Throw e, w') => (Throw e, w')
    end.
Proof.
  induction a as [| a IH]; intros cm w; [reflexivity |].
  cbn [Nat.add fire_times]. unfold bind.
  destruct (fire id cm w) as [[cm' | e] w']; [apply IH | reflexivity].
Qed.

(** The ticks while the countdown is positive change the message and the
    counter, and nothing else. *)
Lemma fire_times_counting i k : forall cm w,
  find_timer i (timers w) = Some (mkTimer i Repeating 1000 UpdateTimerDisplay) ->
  classList_contains "cooldown-active" (formElement cm) = true ->
  Z.of_nat k <= countdown cm ->
  exists cm',
    fire_times k i cm w = (Normal cm', w)
    /\ countdown cm' = countdown cm - Z.of_nat k
    /\ beside_display cm' = beside_display cm
    /\ textContent (errorElement cm')
       = match k with
         | O => textContent (errorElement cm)
         | S _ => wait_text (countdown cm' + 1)
         end.
Proof.
  induction k as [| k IH]; intros cm w Hfind Hclass Hk.
  - exists cm. repeat split. lia.
  - cbn [fire_times]. unfold bind.
    rewrite (fire_repeating i _ cm w Hfind eq_refl). cbn [run_callback timer_callback].
    rewrite tick_counting by (try assumption; lia).
    match goal with
    | |- context [fire_times k i ?c w] =>
        destruct (IH c w Hfind) as (cm' & E & Hc & Hb & Ht);
          [exact Hclass | cbn [countdown with_countdown]; lia |]
    end.
    exists cm'. split; [exact E |].
    cbn [countdown with_countdown] in Hc.
    split; [lia |]. split; [exact Hb |].
    destruct k; [| exact Ht].
    rewrite Ht. cbn [errorElement with_countdown with_error textContent set_textContent].
    f_equal. lia.
Qed.

(** The table of timers once the countdown is started in a world with
    fresh ids. *)
Lemma started_table R w :
  timers_fresh w ->
  let i := next_timer_id w in
  let I := mkTimer i Repeating 1000 UpdateTimerDisplay in
  let T := mkTimer (i + 1) Once (R * 1000) CooldownEnd in
  find_timer i ((timers w ++ [I]) ++ [T]) = Some I
  /\ find_timer (i + 1) ((timers w ++ [I]) ++ [T]) = Some T
  /\ List.filter (fun t => negb (timer_id t =? i)) ((timers w ++ [I]) ++ [T])
     = timers w ++ [T]
  /\ List.filter (fun t => negb (timer_id t =? i + 1)) ((timers w ++ [I]) ++ [T])
     = timers w ++ [I]
  /\ List.filter (fun t => negb (timer_id t =? i + 1)) (timers w ++ [T]) = timers w
  /\ find_timer i (timers w ++ [T]) = None
  /\ find_timer (i + 1) (timers w ++ [T]) = Some T.
Proof.
  intros [Hpos Hold] i I T. subst i I T.
  assert (F1 : forall id rest, next_timer_id w <= id ->
                 find_timer id (timers w ++ rest) = find_timer id rest)
    by (intros; eapply find_timer_fresh; eauto).
  assert (F2 : forall id, next_timer_id w <= id ->
                 List.filter (fun t => negb (timer_id t =? id)) (timers w) = timers w)
    by (intros; eapply filter_fresh; eauto).
  rewrite <- !app_assoc, !List.filter_app, !F1, !F2 by lia.
  unfold find_timer. cbn [app List.find List.filter timer_id].
  rewrite !Z.eqb_refl.
  destruct (Z.eqb_spec (next_timer_id w) (next_timer_id w + 1)); [lia |].
  destruct (Z.eqb_spec (next_timer_id w + 1) (next_timer_id w)); [lia |].
  cbn [negb app]. rewrite app_nil_r. repeat split.
Qed.

(** X10: The countdown on screen, for a manager that holds no timer when
    the countdown starts: started with [remaining] seconds, the message
    shows [remaining]; the [k]-th tick of the interval, for
    [k < remaining], makes it show [remaining - k].  Meanwhile the form
    stays locked and both timers stay pending. *)
Theorem countdown_display R k cm w :
  activeCooldownTimer cm = None -> activeCooldownTimeout cm = None ->
  timers_fresh w -> 0 < R -> Z.of_nat k < R ->
  exists cm0 w0 cm',
    startFrontendCooldownTimers R cm w = (Normal cm0, w0)
    /\ fire_times k (next_timer_id w) cm0 w0 = (Normal cm', w0)
    /\ textContent (errorElement cm') = wait_text (R - Z.of_nat k)
    /\ locked cm'
    /\ pending (next_timer_id w) w0 = true
    /\ pending (next_timer_id w + 1) w0 = true.
Proof.
  intros Ht1 Ht2 Hfresh HR Hk.
  destruct (started_table R w Hfresh) as (Fi & FT & _).
  rewrite start_counting by assumption.
  match goal with
  | |- context [(Normal ?c, ?x) = _] => set (cm0 := c) in *; set (w0 := x) in *
  end.
  destruct (fire_times_counting (next_timer_id w) k cm0 w0) as (cm1 & E1 & Hc1 & Hb1 & Hx1).
  { exact Fi. }
  { apply contains_add. }
  { change (countdown cm0) with (R - 1). lia. }
  exists cm0, w0, cm1. split; [reflexivity |]. split; [exact E1 |].
  injection Hb1 as _ _ Hin Hbu Hfo _ _ _ _.
  split; [| split; [| split]].
  - destruct k.
    + rewrite Hx1. change (textContent (errorElement cm0)) with (wait_text R).
      f_equal. lia.
    + rewrite Hx1, Hc1. change (countdown cm0) with (R - 1). f_equal. lia.
  - unfold locked. rewrite Hin, Hbu, Hfo. split; [apply contains_add | split; reflexivity].
  - unfold pending. change (timers w0) with
      ((timers w ++ [mkTimer (next_timer_id w) Repeating 1000 UpdateTimerDisplay])
       ++ [mkTimer (next_timer_id w + 1) Once (R * 1000) CooldownEnd]).
    rewrite Fi. reflexivity.
  - unfold pending. change (timers w0) with
      ((timers w ++ [mkTimer (next_timer_id w) Repeating 1000 UpdateTimerDisplay])
       ++ [mkTimer (next_timer_id w + 1) Once (R * 1000) CooldownEnd]).
    rewrite FT. reflexivity.
Qed.

(** The ticks of an interval whose form is at rest change nothing. *)
Lemma fire_times_at_rest i n cm w :
  find_timer i (timers w) = Some (mkTimer i Repeating 1000 UpdateTimerDisplay) ->
  classList_contains "cooldown-active" (formElement cm) = false ->
  activeCooldownTimer cm = None ->
  fire_times n i cm w = (Normal cm, w).
Proof.
  intros Hfind Hclass Hnone. induction n as [| n IH]; [reflexivity |].
  cbn [fire_times]. unfold bind.
  rewrite (fire_repeating i _ cm w Hfind eq_refl). cbn [run_callback timer_callback].
  rewrite tick_unmarked by assumption. exact IH.
Qed.

(** X11: A cooldown that runs its course, for a manager that holds no
    timer when the countdown starts: when the interval ticks
    [remaining] times before the timeout runs, the last tick shows
    [请稍候...] and stops the interval while the form is still locked; the
    timeout then puts the form at rest with an empty message, calls
    [onCooldownEnd] once, and no timer of the run is left in the table. *)
Theorem cooldown_run_ends_at_rest R cm w :
  activeCooldownTimer cm = None -> activeCooldownTimeout cm = None ->
  timers_fresh w -> 0 < R ->
  exists cm0 w0 cm1 w1 cm2 w2,
    startFrontendCooldownTimers R cm w = (Normal cm0, w0)
    /\ fire_times (Z.to_nat R) (next_timer_id w) cm0 w0 = (Normal cm1, w1)
    /\ textContent (errorElement cm1) = "请稍候..."
    /\ locked cm1
    /\ pending (next_timer_id w) w1 = false
    /\ fire (next_timer_id w + 1) cm1 w1 = (Normal cm2, w2)
    /\ idle cm2
    /\ textContent (errorElement cm2) = EmptyString
    /\ timers w2 = timers w
    /\ calls OnCooldownEnd (events w2) = S (calls OnCooldownEnd (events w)).
Proof.
  intros Ht1 Ht2 Hfresh HR.
  destruct (started_table R w Hfresh) as (Fi & FT & Di & DT & DT' & Fi' & FT').
  pose proof Hfresh as [Hpos Hold].
  rewrite start_counting by assumption.
  set (I := mkTimer (next_timer_id w) Repeating 1000 UpdateTimerDisplay) in *.
  set (T := mkTimer (next_timer_id w + 1) Once (R * 1000) CooldownEnd) in *.
  match goal with
  | |- context [(Normal ?c, ?x) = _] => set (cm0 := c) in *; set (w0 := x) in *
  end.
  destruct (fire_times_counting (next_timer_id w) (Z.to_nat (R - 1)) cm0 w0)
    as (cm' & E1 & Hc1 & Hb1 & _).
  { exact Fi. }
  { apply contains_add. }
  { change (countdown cm0) with (R - 1). lia. }
  change (countdown cm0) with (R - 1) in Hc1.
  injection Hb1 as _ _ Hin Hbu Hfo _ _ Hti Hto.
  change (activeCooldownTimer cm0) with (Some (next_timer_id w)) in Hti.
  change (activeCooldownTimeout cm0) with (Some (next_timer_id w + 1)) in Hto.
  assert (Hclass : classList_contains "cooldown-active" (formElement cm') = true)
    by (rewrite Hfo; apply contains_add).
  set (cm1 := with_timer None (with_error (set_textContent "请稍候...") cm')).
  set (w1 := set_timers (timers w ++ [T]) (next_timer_id w0) w0).
  assert (E2 : fire_times (Z.to_nat R) (next_timer_id w) cm0 w0 = (Normal cm1, w1)).
  { replace (Z.to_nat R) with (Z.to_nat (R - 1) + 1)%nat by lia.
    rewrite fire_times_add, E1. cbn [fire_times]. unfold bind.
    rewrite (fire_repeating (next_timer_id w) _ cm' w0 Fi eq_refl).
    cbn [run_callback timer_callback I].
    rewrite tick_last by (try assumption; lia).
    rewrite Hti. change (timers w0) with ((timers w ++ [I]) ++ [T]). rewrite Di.
    reflexivity. }
  set (w1' := set_timers (List.filter (fun t => negb (timer_id t =? next_timer_id w + 1))
                            (timers w1)) (next_timer_id w1) w1).
  destruct (cooldownEnd_spec cm1 w1')
    as (cm2 & w2 & E3 & Hidle & _ & _ & Htext & _ & Htimers & Hev & _).
  exists cm0, w0, cm1, w1, cm2, w2.
  split; [reflexivity |]. split; [exact E2 |]. split; [reflexivity |].
  split; [| split; [| split; [| split; [exact Hidle | split; [exact Htext | split]]]]].
  - unfold locked. change (formElement cm1) with (formElement cm').
    change (inputElement cm1) with (inputElement cm').
    change (buttonElement cm1) with (buttonElement cm').
    rewrite Hin, Hbu. split; [exact Hclass | split; reflexivity].
  - unfold pending. change (timers w1) with (timers w ++ [T]). rewrite Fi'. reflexivity.
  - rewrite (fire_once (next_timer_id w + 1) T cm1 w1 FT' eq_refl). exact E3.
  - rewrite Htimers. change (activeCooldownTimeout cm1) with (activeCooldownTimeout cm').
    rewrite Hto. change (timers w1') with
      (List.filter (fun t => negb (timer_id t =? next_timer_id w + 1)) (timers w ++ [T])).
    rewrite DT'. unfold without_timer.
    destruct (Z.eqb_spec (next_timer_id w + 1) 0); [reflexivity |].
    apply (filter_fresh _ (next_timer_id w)); [exact Hold | lia].
  - rewrite Hev. change (formElement cm1) with (formElement cm'). rewrite Hclass.
    reflexivity.
Qed.

(** X12: The timeout does not stop the interval (shown for a manager
    that holds no timer when the countdown starts).  When the timeout runs
    before the tick that finds the countdown at zero (after [k <
    remaining] ticks), it puts the form at rest but leaves the interval in
    the table: the interval is still pending after any number of further
    ticks, each of which changes nothing. *)
Theorem interval_outlives_early_timeout R k n cm w :
  activeCooldownTimer cm = None -> activeCooldownTimeout cm = None ->
  timers_fresh w -> 0 < R -> Z.of_nat k < R ->
  exists cm0 w0 cm1 cm2 w2,
    startFrontendCooldownTimers R cm w = (Normal cm0, w0)
    /\ fire_times k (next_timer_id w) cm0 w0 = (Normal cm1, w0)
    /\ fire (next_timer_id w + 1) cm1 w0 = (Normal cm2, w2)
    /\ idle cm2
    /\ fire_times n (next_timer_id w) cm2 w2 = (Normal cm2, w2)
    /\ pending (next_timer_id w) w2 = true
    /\ pending (next_timer_id w + 1) w2 = false.
Proof.
  intros Ht1 Ht2 Hfresh HR Hk.
  destruct (started_table R w Hfresh) as (Fi & FT & Di & DT & DT' & Fi' & FT').
  pose proof Hfresh as [Hpos Hold].
  rewrite start_counting by assumption.
  set (I := mkTimer (next_timer_id w) Repeating 1000 UpdateTimerDisplay) in *.
  set (T := mkTimer (next_timer_id w + 1) Once (R * 1000) CooldownEnd) in *.
  match goal with
  | |- context [(Normal ?c, ?x) = _] => set (cm0 := c) in *; set (w0 := x) in *
  end.
  destruct (fire_times_counting (next_timer_id w) k cm0 w0)
    as (cm1 & E1 & _ & Hb1 & _).
  { exact Fi. }
  { apply contains_add. }
  { change (countdown cm0) with (R - 1). lia. }
  injection Hb1 as _ _ _ _ _ _ _ _ Hto.
  change (activeCooldownTimeout cm0) with (Some (next_timer_id w + 1)) in Hto.
  set (w1 := set_timers (List.filter (fun t => negb (timer_id t =? next_timer_id w + 1))
                           (timers w0)) (next_timer_id w0) w0).
  destruct (cooldownEnd_spec cm1 w1)
    as (cm2 & w2 & E3 & Hidle & Hnone & _ & _ & _ & Htimers & _).
  assert (Hleft : timers w2 = timers w ++ [I]).
  { rewrite Htimers, Hto. change (timers w1) with
      (List.filter (fun t => negb (timer_id t =? next_timer_id w + 1))
         ((timers w ++ [I]) ++ [T])).
    rewrite DT. unfold without_timer.
    destruct (Z.eqb_spec (next_timer_id w + 1) 0); [reflexivity |].
    rewrite List.filter_app, (filter_fresh _ (next_timer_id w)) by (try exact Hold; lia).
    cbn [List.filter timer_id I].
    destruct (Z.eqb_spec (next_timer_id w) (next_timer_id w + 1)); [lia | reflexivity]. }
  assert (Hfind : find_timer (next_timer_id w) (timers w2) = Some I).
  { rewrite Hleft, (find_timer_fresh _ (next_timer_id w)) by (try exact Hold; lia).
    unfold find_timer. cbn [List.find timer_id I]. rewrite Z.eqb_refl. reflexivity. }
  exists cm0, w0, cm1, cm2, w2.
  split; [reflexivity |]. split; [exact E1 |].
  split; [rewrite (fire_once (next_timer_id w + 1) T cm1 w0 FT eq_refl); exact E3 |].
  split; [exact Hidle |].
  split; [apply fire_times_at_rest; [exact Hfind | apply Hidle | exact Hnone] |].
  unfold pending. rewrite Hfind. split; [reflexivity |].
  rewrite Hleft, (find_timer_fresh _ (next_timer_id w)) by (try exact Hold; lia).
  unfold find_timer. cbn [List.find timer_id I].
  destruct (Z.eqb_spec (next_timer_id w) (next_timer_id w + 1)); [lia | reflexivity].
Qed.

(** X13: What the timeout's task does in any state: it returns with the
    form at rest and the message empty; it calls [onCooldownEnd] exactly
    when it finds the form marked as cooling down; and it never removes a
    timer other than the one its own field names. *)
Theorem cooldownEnd_effects cm w :
  exists cm' w',
    cooldownEnd cm w = (Normal cm', w')
    /\ idle cm'
    /\ textContent (errorElement cm') = EmptyString
    /\ calls OnCooldownEnd (events w')
       = ((if classList_contains "cooldown-active" (formElement cm) then 1 else 0)
          + calls OnCooldownEnd (events w))%nat
    /\ (forall id, Some id <> activeCooldownTimeout cm -> pending id w' = pending id w)
    /\ cookies w' = cookies w.
Proof.
  destruct (cooldownEnd_spec cm w)
    as (cm' & w' & E & Hidle & _ & _ & Htext & _ & Htimers & Hev & _ & Hc & _).
  exists cm', w'.
  split; [exact E |]. split; [exact Hidle |]. split; [exact Htext |].
  split; [| split; [| exact Hc]].
  - rewrite Hev. destruct (classList_contains _ _); reflexivity.
  - intros id Hid. unfold pending. rewrite Htimers. unfold without_timer.
    destruct (activeCooldownTimeout cm) as [t |]; [| reflexivity].
    destruct (t =? 0); [reflexivity |].
    rewrite find_timer_filter_other by congruence. reflexivity.
Qed.

End ManagerTimers.

(* ===================================================================== *)
(** ** What the password check leaves on the form *)
(* ===================================================================== *)

Section PasswordForm.
Import JsString JsNumber JsDate Browser Js Dom Common Observe Run.

Lemma setVerifyingState_spec cm w :
  exists w',
    setVerifyingState cm w
    = (Normal
         (with_timeout None
            (with_timer None
               (with_form (classList_remove "cooldown-active")
                  (with_error (set_textContent EmptyString)
                     (with_button (set_textContent (buttonLoadingText cm))
                        (with_input (set_disabled true)
                           (with_button (set_disabled true) cm))))))), w')
    /\ timers w'
       = without_timer (activeCooldownTimeout cm)
           (without_timer (activeCooldownTimer cm) (timers w))
    /\ same_but_timers w w'.
Proof.
  unfold setVerifyingState, clear_if_set, clearInterval, clearTimeout, clear_timer,
    modify, without_timer, same_but_timers.
  destruct cm as [n s i b e f dt lt [t1 |] [t2 |] c]; cbn;
    repeat match goal with
           | |- context [?x =? 0] => destruct (x =? 0) eqn:?; cbn
           end;
    (eexists; split; [reflexivity |]); cbn; repeat split.
Qed.

(** X14: A wrong entry starts the countdown: the field is emptied, the
    form is locked and marked, the message shows the full cooldown length,
    the cookie is written once, and two timers are set, an interval of one
    second and a timeout of [cooldownSeconds] seconds, after the timers the
    manager held were cleared. *)
Theorem wrong_entry_starts_countdown input correct cm w :
  cookie_name_ok (cookieName cm) = true -> jar_ok (cookies w) = true ->
  0 <= clock w -> 0 < cooldownSeconds cm ->
  clock w + cooldownSeconds cm * 1000 < year_10000 ->
  input <> EmptyString -> input <> correct ->
  exists cm' w',
    verifyPassword input correct cm w = (Normal cm', w')
    /\ locked cm'
    /\ value (inputElement cm') = EmptyString
    /\ textContent (errorElement cm') = wait_text (cooldownSeconds cm)
    /\ textContent (buttonElement cm') = "请等待..."
    /\ countdown cm' = cooldownSeconds cm - 1
    /\ activeCooldownTimer cm' = Some (next_timer_id w)
    /\ activeCooldownTimeout cm' = Some (next_timer_id w + 1)
    /\ timers w'
       = (without_timer (activeCooldownTimeout cm)
            (without_timer (activeCooldownTimer cm) (timers w))
          ++ [mkTimer (next_timer_id w) Repeating 1000 UpdateTimerDisplay])
         ++ [mkTimer (next_timer_id w + 1) Once (cooldownSeconds cm * 1000) CooldownEnd]
    /\ cookie_writes (events w') = S (cookie_writes (events w)).
Proof.
  intros Hname Hjar Hnow Hsec Hmax Hne Hwrong.
  unfold verifyPassword, strict_eq.
  apply truthy_not_empty in Hne. rewrite Hne. cbn [negb].
  apply String.eqb_neq in Hwrong. rewrite Hwrong.
  destruct (setVerifyingState_spec cm w) as (w1 & E1 & Htim1 & Hk1 & Hc1 & _ & Hn1 & He1).
  unfold bind at 1. rewrite E1.
  unfold bind at 1. unfold console_log at 1, modify at 1.
  set (w2 := add_event (ConsoleLog "密码错误！") w1).
  match goal with
  | |- context [setCooldown ?c] => set (cm2 := c)
  end.
  unfold bind at 1. rewrite setCooldown_setCookie, setCookie_writes. cbv beta iota.
  change (cookieName cm2) with (cookieName cm).
  change (cooldownSeconds cm2) with (cooldownSeconds cm).
  match goal with
  | |- context [bind (checkCooldown cm2) _ ?x] => set (w3 := x)
  end.
  assert (Hcheck : checkCooldown cm2 w3 = (Normal (mkStatus true (cooldownSeconds cm)), w3)).
  { pose proof (checkCooldown_later cm2 w2 (clock w2)) as H.
    change (set_clock (clock w2) (world_after (setCooldown cm2) w2)) with w3 in H.
    change (cookieName cm2) with (cookieName cm) in H.
    change (cooldownSeconds cm2) with (cooldownSeconds cm) in H.
    change (cookies w2) with (cookies w1) in H. change (clock w2) with (clock w1) in H.
    rewrite Hk1, Hc1 in H. rewrite H by assumption.
    destruct (Z.ltb_spec (clock w) (1000 * ((clock w + cooldownSeconds cm * 1000) / 1000)));
      [| Z.div_mod_to_equations; lia].
    replace (clock w + cooldownSeconds cm * 1000 - clock w)
      with (cooldownSeconds cm * 1000) by lia.
    rewrite ceil_div_exact by lia. reflexivity. }
  unfold bind at 1. rewrite Hcheck. cbn [remaining].
  rewrite start_counting by (try reflexivity; exact Hsec).
  eexists. eexists. split; [reflexivity |].
  split; [| split; [| split; [| split; [| split; [| split; [| split; [| split]]]]]]].
  - unfold locked. split; [apply contains_add | split; reflexivity].
  - reflexivity.
  - reflexivity.
  - reflexivity.
  - reflexivity.
  - change (next_timer_id w3) with (next_timer_id w1). rewrite Hn1. reflexivity.
  - change (next_timer_id w3) with (next_timer_id w1). rewrite Hn1. reflexivity.
  - cbn [timers set_timers]. change (next_timer_id w3) with (next_timer_id w1).
    change (timers w3) with (timers w1). rewrite Hn1, Htim1. reflexivity.
  - cbn [events set_timers]. change (events w3) with
      (CookieWritten (cookie_string (cookieName cm)
                        (toString (clock w2 + cooldownSeconds cm * 1000))
                        (cooldownSeconds cm) (clock w2))
       :: ConsoleLog "密码错误！" :: events w1).
    rewrite He1. reflexivity.
Qed.

(** X15: A correct entry puts the form at rest: the controls are
    enabled, the mark and the message are gone, the button shows its
    default text, what was typed stays in the field, the timers the
    manager held are cleared and none is set, and the cookie is written
    once, with the string that deletes the cooldown cookie, between the
    line on the console and the call of [onSuccess]. *)
Theorem correct_entry_puts_form_at_rest input cm w :
  input <> EmptyString ->
  exists cm' w',
    verifyPassword input input cm w = (Normal cm', w')
    /\ idle cm'
    /\ textContent (errorElement cm') = EmptyString
    /\ value (inputElement cm') = value (inputElement cm)
    /\ timers w'
       = without_timer (activeCooldownTimeout cm)
           (without_timer (activeCooldownTimer cm) (timers w))
    /\ cookie_writes (events w') = S (cookie_writes (events w))
    /\ events w'
       = Called OnSuccess
         :: CookieWritten
              (cookieName cm +:+ "=;expires=Thu, 01 Jan 1970 00:00:00 UTC;path=/")
         :: ConsoleLog "密码正确！" :: events w.
Proof.
  intros Hne.
  unfold verifyPassword, strict_eq.
  apply truthy_not_empty in Hne. rewrite Hne, String.eqb_refl. cbn [negb].
  destruct (setVerifyingState_spec cm w) as (w1 & E1 & Htim1 & Hk1 & Hc1 & _ & Hn1 & He1).
  unfold bind at 1. rewrite E1.
  unfold bind at 1. unfold console_log at 1, modify at 1.
  set (w2 := add_event (ConsoleLog "密码正确！") w1).
  match goal with
  | |- context [clearCooldownState true ?c] =>
      destruct (clearCooldownState_spec true c w2)
        as (cm3 & w3 & E3 & Hidle & Htext & [= Hname3 _] & _ & Htim3 & Hsame3 & _ & Hvalue)
  end.
  unfold bind at 1. rewrite E3.
  unfold clearCooldown, deleteCookie, document_cookie_set, call, modify, bind, ret.
  eexists. eexists. split; [reflexivity |].
  destruct Hsame3 as (_ & _ & _ & _ & He3).
  split; [exact Hidle |]. split; [exact Htext |]. split; [exact Hvalue |].
  split; [| split].
  - cbn [timers add_event set_cookies]. rewrite Htim3.
    cbn [activeCooldownTimer activeCooldownTimeout with_timeout with_timer without_timer].
    change (timers w2) with (timers w1). exact Htim1.
  - cbn [events add_event set_cookies cookie_writes]. rewrite He3.
    change (events w2) with (ConsoleLog "密码正确！" :: events w1).
    cbn [cookie_writes]. rewrite He1. reflexivity.
  - cbn [events add_event set_cookies]. rewrite He3, Hname3.
    change (events w2) with (ConsoleLog "密码正确！" :: events w1).
    rewrite He1. reflexivity.
Qed.

End PasswordForm.

(* ===================================================================== *)
(** ** More on the unlock state in local storage *)
(* ===================================================================== *)

Section UnlockStorage.
Import Browser Js Json Dom Common Observe Run.

Context `{rt : Runtime}.

(** X16: [loadUnlockedState] writes to the error console exactly when
    the stored text is not empty and does not parse: one line then, and
    none when the key is missing, when the stored text is empty, or when
    it parses.  It never throws and changes nothing else. *)
Theorem loadUnlockedState_logs_only_malformed key defaultValue w :
  exists v w',
    loadUnlockedState key defaultValue w = (Normal v, w')
    /\ errors_logged (events w')
       = (match localStorage w !! key with
          | Some text =>
              if JsString.truthy text
              then match JSON_parse text with
                   | Throw _ => 1
                   | Normal _ => 0
                   end
              else 0
          | None => 0
          end + errors_logged (events w))%nat
    /\ localStorage w' = localStorage w /\ cookies w' = cookies w
    /\ timers w' = timers w.
Proof.
  unfold loadUnlockedState, bind, localStorage_getItem, gets, try_catch, lift, ret.
  destruct (localStorage w !! key) as [text |]; [| exists defaultValue, w; repeat split].
  destruct (JsString.truthy text); [| exists defaultValue, w; repeat split].
  destruct (JSON_parse text) as [v | e].
  - exists v, w. repeat split.
  - eexists. eexists. split; [reflexivity |]. repeat split.
Qed.

(** X17: An empty stored string counts as nothing stored: the default is
    returned and the world is left exactly as it was, the parser is not
    consulted and nothing is logged. *)
Theorem loadUnlockedState_empty_entry key defaultValue w :
  localStorage w !! key = Some EmptyString ->
  loadUnlockedState key defaultValue w = (Normal defaultValue, w).
Proof.
  intros Hstored.
  unfold loadUnlockedState, bind, localStorage_getItem, gets. rewrite Hstored. reflexivity.
Qed.

(** X18: When the stored text parses, the default plays no part: two
    calls with different defaults return the same value, the parsed one,
    and leave the world as it was. *)
Theorem loadUnlockedState_ignores_default key d1 d2 text v w :
  localStorage w !! key = Some text -> JSON_parse text = Normal v ->
  loadUnlockedState key d1 w = (Normal v, w)
  /\ loadUnlockedState key d2 w = (Normal v, w).
Proof.
  intros Hstored Hparse.
  split; apply (loadUnlockedState_parsed key _ w text v Hstored Hparse).
Qed.

(** X19: [saveUnlockedState] writes one key: what is stored under any
    other key, and hence what [loadUnlockedState] returns for it, is the
    same after as before; cookies, timers and log are untouched. *)
Theorem saveUnlockedState_keeps_other_keys key other state defaultValue w :
  other <> key ->
  localStorage (world_after (saveUnlockedState key state) w) !! other
  = localStorage w !! other
  /\ result_of (loadUnlockedState other defaultValue)
       (world_after (saveUnlockedState key state) w)
     = result_of (loadUnlockedState other defaultValue) w
  /\ cookies (world_after (saveUnlockedState key state) w) = cookies w
  /\ timers (world_after (saveUnlockedState key state) w) = timers w
  /\ events (world_after (saveUnlockedState key state) w) = events w.
Proof.
  intros Hne. unfold world_after. rewrite saveUnlockedState_spec.
  cbn [snd localStorage set_localStorage cookies timers events].
  assert (Hlookup : <[key := string_of_stringified (JSON_stringify state)]>
                      (localStorage w) !! other = localStorage w !! other)
    by (apply lookup_insert_ne; congruence).
  split; [exact Hlookup |]. split; [| repeat split].
  unfold result_of, loadUnlockedState, bind, localStorage_getItem, gets, try_catch, lift, ret.
  cbn [localStorage set_localStorage]. rewrite Hlookup.
  destruct (localStorage w !! other) as [text |]; [| reflexivity].
  destruct (JsString.truthy text); [| reflexivity].
  destruct (JSON_parse text); reflexivity.
Qed.

(** X20: A state that [JSON.stringify] turns into [undefined] is stored
    as the text [undefined]; when the parser refuses that text, as a JSON
    parser does, the next [loadUnlockedState] returns the default. *)
Theorem unserializable_state_loads_default key state defaultValue w :
  JSON_stringify state = None ->
  (exists e, JSON_parse "undefined" = Throw e) ->
  localStorage (world_after (saveUnlockedState key state) w) !! key = Some "undefined"
  /\ result_of (loadUnlockedState key defaultValue)
       (world_after (saveUnlockedState key state) w)
     = Normal defaultValue.
Proof.
  intros Hnone [e Hparse]. unfold world_after. rewrite saveUnlockedState_spec.
  cbn [snd]. rewrite Hnone. cbn [string_of_stringified].
  assert (Hlookup : localStorage (set_localStorage (<[key := "undefined"]> (localStorage w)) w)
                    !! key = Some "undefined")
    by (cbn [localStorage set_localStorage]; apply lookup_insert_eq).
  split; [exact Hlookup |].
  unfold result_of, loadUnlockedState, bind, localStorage_getItem, gets, try_catch, lift.
  rewrite Hlookup. cbn [JsString.truthy]. rewrite Hparse. reflexivity.
Qed.

End UnlockStorage.

(* ===================================================================== *)
(** ** More on the final-key page *)
(* ===================================================================== *)

Section FinalKeyCheck.
Import Browser Js Json Dom NewPage Observe Run.

Context `{rt : Runtime}.

Lemma string_strict_eq_spec s v : string_strict_eq s v = true <-> v = VString s.
Proof.
  destruct v; cbn; try (split; [discriminate | congruence]).
  split.
  - intros H%String.eqb_eq. congruence.
  - intros [= ->]. apply String.eqb_refl.
Qed.

Lemma checkFinalPassword_spec pg w :
  checkFinalPassword pg w
  = (Normal (if string_strict_eq (value (final_password pg)) (finalKey pg)
             then accepted_key_page pg else rejected_key_page pg),
     set_timers
       (timers w
        ++ [mkTimer (next_timer_id w) Once 1000
              (if string_strict_eq (value (final_password pg)) (finalKey pg)
               then NavigateTo "/two/finalpage" else ResetInput)])
       (next_timer_id w + 1) w).
Proof.
  unfold checkFinalPassword.
  destruct (string_strict_eq (value (final_password pg)) (finalKey pg)); reflexivity.
Qed.

(** X21: [checkFinalPassword] accepts exactly the loaded key: when
    [finalKey] is the string held by the field, the field is marked right
    and disabled and the move to [/two/finalpage] is set for one second
    later; in every other case, among them a key that is a number or is
    missing from the file, the field is marked wrong and only its reset is
    set. *)
Theorem checkFinalPassword_accepts_exactly_the_key pg w :
  (finalKey pg = VString (value (final_password pg)) ->
   checkFinalPassword pg w
   = (Normal (accepted_key_page pg),
      set_timers
        (timers w ++ [mkTimer (next_timer_id w) Once 1000 (NavigateTo "/two/finalpage")])
        (next_timer_id w + 1) w))
  /\ (finalKey pg <> VString (value (final_password pg)) ->
      checkFinalPassword pg w
      = (Normal (rejected_key_page pg),
         set_timers (timers w ++ [mkTimer (next_timer_id w) Once 1000 ResetInput])
           (next_timer_id w + 1) w)).
Proof.
  rewrite checkFinalPassword_spec.
  destruct (string_strict_eq (value (final_password pg)) (finalKey pg)) eqn:E.
  - apply string_strict_eq_spec in E. split; [reflexivity | congruence].
  - split; [| reflexivity].
    intros H. apply string_strict_eq_spec in H. congruence.
Qed.

(** X22: However the request ends, its reactions return without
    throwing, issue no further request, set no timer and leave the field
    alone; and either the page is as before and one line went to the error
    console, or nothing was logged and [finalKey] is the [finalKey]
    property of the parsed body. *)
Theorem fetch_settled_assigns_or_logs outcome pg w :
  exists pg' w',
    fetch_settled outcome pg w = (Normal pg', w')
    /\ final_password pg' = final_password pg
    /\ fetches (events w') = fetches (events w)
    /\ timers w' = timers w /\ cookies w' = cookies w /\ localStorage w' = localStorage w
    /\ ((pg' = pg /\ events w' = ConsoleError "加载 keys.json 出错:" :: events w)
        \/ (events w' = events w
            /\ exists body data,
                 outcome = Responded body /\ JSON_parse body = Normal data
                 /\ get_property data "finalKey" = Normal (finalKey pg'))).
Proof.
  unfold fetch_settled, try_catch, bind, throw, ret, lift, console_error, modify.
  destruct outcome as [e | body].
  - eexists. eexists. split; [reflexivity |]. repeat split. left. split; reflexivity.
  - destruct (JSON_parse body) as [data | e] eqn:Hparse.
    + destruct (get_property data "finalKey") as [key | e] eqn:Hkey.
      * eexists. eexists. split; [reflexivity |]. repeat split. right.
        split; [reflexivity |]. exists body, data. repeat split; assumption.
      * eexists. eexists. split; [reflexivity |]. repeat split. left. split; reflexivity.
    + eexists. eexists. split; [reflexivity |]. repeat split. left. split; reflexivity.
Qed.

(** X23: From the file to the check: once [keys.json] has arrived as an
    object whose [finalKey] is the string [k], nothing was logged, and
    [checkFinalPassword] sets the move to [/two/finalpage] when the field
    holds [k] and the reset of the field when it holds anything else. *)
Theorem loaded_key_decides_the_check input body props k w :
  JSON_parse body = Normal (VObject props) ->
  lookup_property "finalKey" props = VString k ->
  exists pg1 w1 pg2 pg3 w3,
    load input w = (Normal pg1, w1)
    /\ fetch_settled (Responded body) pg1 w1 = (Normal pg2, w1)
    /\ finalKey pg2 = VString k
    /\ errors_logged (events w1) = errors_logged (events w)
    /\ checkFinalPassword pg2 w1 = (Normal pg3, w3)
    /\ timers w3
       = timers w
         ++ [mkTimer (next_timer_id w) Once 1000
               (if String.eqb (value input) k
                then NavigateTo "/two/finalpage" else ResetInput)]
    /\ disabled (final_password pg3)
       = (if String.eqb (value input) k then true else disabled input).
Proof.
  intros Hparse Hkey.
  exists (mkPage VUndefined input), (add_event (Fetch "../keys.json") w),
    (mkPage (VString k) input).
  eexists. eexists. split; [reflexivity |].
  split.
  { unfold fetch_settled, try_catch, bind, ret, lift. rewrite Hparse.
    cbn [get_property]. rewrite Hkey. reflexivity. }
  split; [reflexivity |]. split; [reflexivity |].
  rewrite checkFinalPassword_spec.
  cbn [finalKey final_password string_strict_eq].
  split; [reflexivity |].
  destruct (String.eqb (value input) k); split; reflexivity.
Qed.

(** X24: The reset after a wrong key: whatever the field held, once the
    reset has run the field is empty and has its resting colours; it is
    neither disabled nor enabled by the rejection or the reset, and
    [finalKey] is as before. *)
Theorem reset_after_wrong_key pg w pg' :
  finalKey pg <> VString (value (final_password pg)) ->
  result_of (checkFinalPassword pg) w = Normal pg' ->
  value (final_password (resetInput pg')) = EmptyString
  /\ borderColor (final_password (resetInput pg')) = "#444"
  /\ backgroundColor (final_password (resetInput pg')) = "#222"
  /\ disabled (final_password (resetInput pg')) = disabled (final_password pg)
  /\ finalKey (resetInput pg') = finalKey pg
  /\ resetInput pg' = resetInput pg.
Proof.
  intros Hwrong. unfold result_of. rewrite checkFinalPassword_spec.
  destruct (string_strict_eq (value (final_password pg)) (finalKey pg)) eqn:E.
  - apply string_strict_eq_spec in E. congruence.
  - cbn [fst]. intros [= <-]. repeat split.
Qed.

End FinalKeyCheck.

(* ===================================================================== *)
(** ** The audio player: what holds after any sequence of events *)
(* ===================================================================== *)

Section AudioPlayerFacts.
Import Js Dom Audio.

(** Every case of a step, with the state taken apart. *)
Ltac step_cases s i :=
  destruct s as [[audio auto show [b |] was playing] [cl al arm fc tr]];
  destruct i as [| ok | ok | | | | | | ok];
  try destruct ok;
  cbv beta iota zeta delta [step document_click run togglePlay playHandler on_play on_stop play pause on_audio
       updateControlButtonText console this update_player update_document mbind mret
       mthrow fst snd audioElement autoPlayOnFirstClick showControlButton controlButton
       played isPlaying click_listener audio_listeners arm_timer first_click_listener
       trace set_played set_isPlaying set_controlButton set_click_listener
       set_audio_listeners set_arm_timer set_first_click_listener record negb andb] in *.

(** An invariant of the steps holds after any sequence of them. *)
Lemma steps_invariant (P : State -> Prop) :
  (forall i s, P s -> P (step i s)) ->
  forall inputs s, P s -> P (steps inputs s).
Proof.
  intros Hstep inputs. unfold steps.
  induction inputs as [| i inputs IH]; intros s Hs; [exact Hs |].
  cbn [fold_left]. apply IH, Hstep, Hs.
Qed.

(** The same for sequences of inputs that all satisfy [allowed]. *)
Lemma steps_invariant_on (allowed : Input -> bool) (P : State -> Prop) :
  (forall i s, allowed i = true -> P s -> P (step i s)) ->
  forall inputs s, forallb allowed inputs = true -> P s -> P (steps inputs s).
Proof.
  intros Hstep inputs. unfold steps.
  induction inputs as [| i inputs IH]; intros s Hall Hs; [exact Hs |].
  cbn [forallb] in Hall. apply andb_true_iff in Hall as [Hi Hall].
  cbn [fold_left]. apply IH; [exact Hall |]. apply Hstep; assumption.
Qed.

Lemma step_button_shows_state i s :
  (exists b, controlButton (fst s) = Some b /\ textContent b = label (isPlaying (fst s))) ->
  exists b, controlButton (fst (step i s)) = Some b
            /\ textContent b = label (isPlaying (fst (step i s))).
Proof.
  intros (b0 & Hb & Ht).
  step_cases s i; try discriminate; injection Hb as ->;
    repeat match goal with
           | |- context [if ?c then _ else _] => destruct c
           end;
    cbn; eexists; split; try reflexivity; try exact Ht.
Qed.

(** X25: The control button tells the truth: for a player built with
    [showControlButton] and a button, after any sequence of clicks, audio
    events, timer runs and method calls the text of the button is
    [暂停音乐] when [isPlaying] holds and [播放音乐] when it does not. *)
Theorem control_button_shows_state audio options b0 s0 inputs :
  constructor audio options = (Normal tt, s0) ->
  opt_showControlButton options = Some true ->
  opt_controlButton options = Some b0 ->
  exists b,
    controlButton (fst (steps inputs s0)) = Some b
    /\ textContent b = label (isPlaying (fst (steps inputs s0))).
Proof.
  intros Hnew Hshow Hbutton.
  apply (steps_invariant
           (fun s => exists b, controlButton (fst s) = Some b
                               /\ textContent b = label (isPlaying (fst s))));
    [apply step_button_shows_state |].
  revert Hnew. unfold constructor. rewrite Hshow, Hbutton.
  destruct audio, (opt_autoPlayOnFirstClick options) as [[] |]; cbn;
    intros [= <-]; eexists; split; reflexivity.
Qed.

Ltac split_ifs :=
  repeat match goal with
         | |- context [if ?c then _ else _] => destruct c
         end.

Lemma step_never_playing i s :
  is_CallPause i = false ->
  audio_listeners (snd s) = false /\ isPlaying (fst s) = false
  /\ pauses (trace (snd s)) = O ->
  audio_listeners (snd (step i s)) = false /\ isPlaying (fst (step i s)) = false
  /\ pauses (trace (snd (step i s))) = O.
Proof.
  intros Hi (Hal & Hp & Hn).
  step_cases s i; try discriminate; subst; split_ifs; cbn; auto.
Qed.

(** X26: Without the control button the player never learns that the
    music plays: for a player built without [showControlButton] or without
    a button, [isPlaying] stays false through any sequence of events, so
    [togglePlay] asks the audio element to play every time and never to
    pause; only a direct call of [pause()] does. *)
Theorem togglePlay_never_pauses_without_button audio options c s0 inputs :
  constructor audio options = (c, s0) ->
  or_false (opt_showControlButton options) = false \/ opt_controlButton options = None ->
  forallb (fun i => negb (is_CallPause i)) inputs = true ->
  isPlaying (fst (steps inputs s0)) = false
  /\ pauses (trace (snd (steps inputs s0))) = O.
Proof.
  intros Hnew Hno Hinputs.
  destruct (steps_invariant_on (fun i => negb (is_CallPause i))
              (fun s => audio_listeners (snd s) = false /\ isPlaying (fst s) = false
                        /\ pauses (trace (snd s)) = O))
    with (inputs := inputs) (s := s0) as (_ & Hp & Hn).
  - intros i s Hi. apply step_never_playing.
    destruct (is_CallPause i); [discriminate | reflexivity].
  - exact Hinputs.
  - revert Hnew. unfold constructor.
    destruct Hno as [-> | ->]; cbn [showControlButton controlButton andb];
      rewrite ?andb_false_r;
      destruct (not_false (opt_autoPlayOnFirstClick options)); cbn;
      intros [= _ <-]; cbn; auto.
  - split; assumption.
Qed.

Lemma step_first_click_budget i s :
  (first_click_reports (trace (snd (step i s)))
   + (if arm_timer (snd (step i s)) then 1 else 0)
   + (if first_click_listener (snd (step i s)) then 1 else 0)
   <= first_click_reports (trace (snd s))
      + (if arm_timer (snd s) then 1 else 0)
      + (if first_click_listener (snd s) then 1 else 0))%nat.
Proof.
  step_cases s i; unfold first_click_reports; split_ifs; cbn; lia.
Qed.

(** X27: The first click plays at most once: in any sequence of events
    the first-click listener reports an attempt to play at most once, and
    never when the player was built with [autoPlayOnFirstClick: false]. *)
Theorem first_click_plays_at_most_once audio options c s0 inputs :
  constructor audio options = (c, s0) ->
  (first_click_reports (trace (snd (steps inputs s0)))
   <= (if not_false (opt_autoPlayOnFirstClick options) then 1 else 0))%nat.
Proof.
  intros Hnew.
  set (n := (if not_false (opt_autoPlayOnFirstClick options) then 1 else 0)%nat).
  enough (first_click_reports (trace (snd (steps inputs s0)))
          + (if arm_timer (snd (steps inputs s0)) then 1 else 0)
          + (if first_click_listener (snd (steps inputs s0)) then 1 else 0) <= n)%nat by lia.
  apply (steps_invariant
           (fun s => (first_click_reports (trace (snd s))
                      + (if arm_timer (snd s) then 1 else 0)
                      + (if first_click_listener (snd s) then 1 else 0) <= n)%nat)).
  - intros i s Hs. pose proof (step_first_click_budget i s). lia.
  - revert Hnew. unfold constructor. subst n.
    destruct audio, (opt_showControlButton options) as [[] |],
      (opt_controlButton options) as [b |],
      (opt_autoPlayOnFirstClick options) as [[] |]; cbn; intros [= _ <-]; cbn; lia.
Qed.

Lemma step_played i s : played (fst s) = true -> played (fst (step i s)) = true.
Proof.
  intros Hp. step_cases s i; subst; split_ifs; cbn; auto.
Qed.

(** X28: Once the music has played, the first click does not start it
    again: [played] never goes back to false, and in a state where it
    holds a click on the document leaves the audio element and the console
    alone. *)
Theorem no_auto_play_after_playing s inputs ok :
  played (fst s) = true ->
  played (fst (steps inputs s)) = true
  /\ trace (snd (step (DocumentClick ok) (steps inputs s))) = trace (snd (steps inputs s)).
Proof.
  intros Hp.
  assert (Hlater : played (fst (steps inputs s)) = true)
    by (apply (steps_invariant (fun s => played (fst s) = true)); [apply step_played | exact Hp]).
  split; [exact Hlater |].
  destruct (steps inputs s) as [[audio auto show cb was playing] [cl al arm fc tr]].
  cbn [fst played] in Hlater. subst was.
  destruct fc; reflexivity.
Qed.

Lemma step_silent i s :
  audioElement (fst s) = false /\ plays (trace (snd s)) = O /\ pauses (trace (snd s)) = O ->
  audioElement (fst (step i s)) = false /\ plays (trace (snd (step i s))) = O
  /\ pauses (trace (snd (step i s))) = O.
Proof.
  intros (Ha & Hp & Hn).
  step_cases s i; subst; split_ifs; cbn; auto.
Qed.

(** X29: A player built on a missing audio element: the constructor
    returns when it does not set up the control button, and throws a
    [TypeError] when it does; whatever happens afterwards no call of
    [play] or [pause] reaches an audio element. *)
Theorem missing_audio_element options c s0 inputs :
  constructor false options = (c, s0) ->
  (c = Normal tt
   <-> or_false (opt_showControlButton options) = false \/ opt_controlButton options = None)
  /\ (c = Normal tt \/ exists msg, c = Throw (TypeError msg))
  /\ plays (trace (snd (steps inputs s0))) = O
  /\ pauses (trace (snd (steps inputs s0))) = O.
Proof.
  intros Hnew. split; [| split].
  - revert Hnew. unfold constructor.
    destruct (opt_showControlButton options) as [[] |],
      (opt_controlButton options) as [b |],
      (opt_autoPlayOnFirstClick options) as [[] |]; cbn; intros [= <- _];
      split; try discriminate; auto; intros [? | ?]; discriminate.
  - revert Hnew. unfold constructor.
    destruct (opt_showControlButton options) as [[] |],
      (opt_controlButton options) as [b |],
      (opt_autoPlayOnFirstClick options) as [[] |]; cbn; intros [= <- _];
      first [left; reflexivity | right; eexists; reflexivity].
  - apply (steps_invariant
             (fun s => audioElement (fst s) = false /\ plays (trace (snd s)) = O
                       /\ pauses (trace (snd s)) = O)); [apply step_silent |].
    revert Hnew. unfold constructor.
    destruct (opt_showControlButton options) as [[] |],
      (opt_controlButton options) as [b |],
      (opt_autoPlayOnFirstClick options) as [[] |]; cbn; intros [= _ <-]; cbn; auto.
Qed.

End AudioPlayerFacts.

(* ===================================================================== *)
(** ** The further theorems on concrete inputs *)
(* ===================================================================== *)

Section CookieRuns.
Import JsString JsNumber JsDate Browser Js Dom Common Observe Run.

(** [world1] holds the cooldown cookie of a wrong entry. *)
Lemma world1_facts :
  cookie_name_ok "pw_cooldown" = true /\ jar_ok (cookies world1) = true
  /\ 0 <= clock world1 /\ clock world1 < year_10000.
Proof.
  split; [reflexivity |]. split; [vm_compute; reflexivity |].
  split; [vm_compute; discriminate | vm_compute; reflexivity].
Qed.

Lemma getCookie_after_deleteCookie_witness :
  cookie_name_ok "pw_cooldown" = true /\ jar_ok (cookies world1) = true
  /\ 0 <= clock world1
  /\ result_of (getCookie "pw_cooldown") world1 = Normal (Some "1700000030123")
  /\ result_of (getCookie "pw_cooldown") (world_after (deleteCookie "pw_cooldown") world1)
     = Normal None.
Proof.
  destruct world1_facts as (H1 & H2 & H3 & _).
  split; [exact H1 |]. split; [exact H2 |]. split; [exact H3 |].
  split; [vm_compute; reflexivity |].
  exact (getCookie_after_deleteCookie "pw_cooldown" world1 H1 H2 H3).
Defined.

Lemma setCookie_keeps_other_cookies_witness :
  cookie_name_ok "theme" = true /\ cookie_value_ok "dark" = true
  /\ lacks "=" "pw_cooldown" = true /\ "pw_cooldown" <> "theme"
  /\ jar_ok (cookies world1) = true
  /\ 0 <= clock world1 + 60 * 1000 < year_10000
  /\ result_of (getCookie "pw_cooldown") (world_after (setCookie "theme" "dark" 60) world1)
     = result_of (getCookie "pw_cooldown") world1.
Proof.
  destruct world1_facts as (_ & H2 & _).
  assert (H4 : "pw_cooldown" <> "theme") by discriminate.
  assert (H6 : 0 <= clock world1 + 60 * 1000 < year_10000)
    by (split; [vm_compute; discriminate | vm_compute; reflexivity]).
  split; [reflexivity |]. split; [reflexivity |]. split; [reflexivity |].
  split; [exact H4 |]. split; [exact H2 |]. split; [exact H6 |].
  exact (setCookie_keeps_other_cookies "theme" "dark" 60 "pw_cooldown" world1
           eq_refl eq_refl eq_refl H4 H2 H6).
Defined.

Lemma deleteCookie_keeps_other_cookies_witness :
  cookie_name_ok "theme" = true /\ lacks "=" "pw_cooldown" = true
  /\ "pw_cooldown" <> "theme" /\ jar_ok (cookies world1) = true /\ 0 <= clock world1
  /\ result_of (getCookie "pw_cooldown") (world_after (deleteCookie "theme") world1)
     = result_of (getCookie "pw_cooldown") world1.
Proof.
  destruct world1_facts as (_ & H2 & H3 & _).
  assert (H4 : "pw_cooldown" <> "theme") by discriminate.
  split; [reflexivity |]. split; [reflexivity |]. split; [exact H4 |].
  split; [exact H2 |]. split; [exact H3 |].
  exact (deleteCookie_keeps_other_cookies "theme" "pw_cooldown" world1
           eq_refl eq_refl H4 H2 H3).
Defined.


(** [manager0] and [world0] meet what the cooldown theorems ask. *)
Lemma world0_facts :
  cookie_name_ok (cookieName manager0) = true /\ jar_ok (cookies world0) = true
  /\ 0 <= clock world0 /\ 0 < cooldownSeconds manager0
  /\ clock world0 + cooldownSeconds manager0 * 1000 < year_10000.
Proof.
  split; [reflexivity |]. split; [reflexivity |]. split; [vm_compute; discriminate |].
  split; [reflexivity | vm_compute; reflexivity].
Qed.


Lemma cooldown_period_witness :
  cookie_name_ok (cookieName manager0) = true /\ jar_ok (cookies world0) = true
  /\ 0 <= clock world0 /\ 0 < cooldownSeconds manager0
  /\ clock world0 + cooldownSeconds manager0 * 1000 < year_10000
  /\ clock world0 <= 1700000010123
  /\ result_of (checkCooldown manager0)
       (set_clock 1700000010123 (world_after (setCooldown manager0) world0))
     = Normal (mkStatus true 20)
  /\ 1700000010123 <= clock world0 + (cooldownSeconds manager0 - 1) * 1000
  /\ cooldown (mkStatus true 20) = true
  /\ 1 <= remaining (mkStatus true 20) <= cooldownSeconds manager0.
Proof.
  destruct world0_facts as (H1 & H2 & H3 & H4 & H5).
  assert (H6 : clock world0 <= 1700000010123) by (vm_compute; discriminate).
  assert (H7 : result_of (checkCooldown manager0)
                 (set_clock 1700000010123 (world_after (setCooldown manager0) world0))
               = Normal (mkStatus true 20)) by (vm_compute; reflexivity).
  assert (H8 : 1700000010123 <= clock world0 + (cooldownSeconds manager0 - 1) * 1000)
    by (vm_compute; discriminate).
  split; [exact H1 |]. split; [exact H2 |]. split; [exact H3 |]. split; [exact H4 |].
  split; [exact H5 |]. split; [exact H6 |]. split; [exact H7 |]. split; [exact H8 |].
  exact (proj1 (cooldown_period manager0 world0 1700000010123 (mkStatus true 20)
                  H1 H2 H3 H4 H5 H6 H7) H8).
Defined.

Lemma checkCooldown_after_clearCooldown_witness :
  cookie_name_ok (cookieName manager0) = true /\ jar_ok (cookies world1) = true
  /\ 0 <= clock world1
  /\ result_of (checkCooldown manager0) world1 = Normal (mkStatus true 30)
  /\ result_of (checkCooldown manager0) (world_after (clearCooldown manager0) world1)
     = Normal (mkStatus false 0).
Proof.
  destruct world1_facts as (H1 & H2 & H3 & _).
  split; [exact H1 |]. split; [exact H2 |]. split; [exact H3 |].
  split; [vm_compute; reflexivity |].
  exact (checkCooldown_after_clearCooldown manager0 world1 H1 H2 H3).
Defined.

End CookieRuns.
Section TimerRuns.
Import JsString JsNumber JsDate Browser Js Dom Common Observe Run.

Lemma world0_fresh : timers_fresh world0.
Proof. split; [reflexivity | constructor]. Qed.

Lemma countdown_display_witness :
  activeCooldownTimer manager0 = None /\ activeCooldownTimeout manager0 = None
  /\ timers_fresh world0 /\ 0 < 3 /\ Z.of_nat 2 < 3
  /\ exists cm0 w0 cm',
      startFrontendCooldownTimers 3 manager0 world0 = (Normal cm0, w0)
      /\ fire_times 2 (next_timer_id world0) cm0 w0 = (Normal cm', w0)
      /\ textContent (errorElement cm') = wait_text (3 - Z.of_nat 2)
      /\ locked cm'
      /\ pending (next_timer_id world0) w0 = true
      /\ pending (next_timer_id world0 + 1) w0 = true.
Proof.
  split; [reflexivity |]. split; [reflexivity |]. split; [exact world0_fresh |].
  split; [reflexivity |]. split; [reflexivity |].
  exact (countdown_display 3 2 manager0 world0 eq_refl eq_refl world0_fresh
           eq_refl eq_refl).
Defined.

Lemma cooldown_run_ends_at_rest_witness :
  activeCooldownTimer manager0 = None /\ activeCooldownTimeout manager0 = None
  /\ timers_fresh world0 /\ 0 < 3
  /\ exists cm0 w0 cm1 w1 cm2 w2,
      startFrontendCooldownTimers 3 manager0 world0 = (Normal cm0, w0)
      /\ fire_times (Z.to_nat 3) (next_timer_id world0) cm0 w0 = (Normal cm1, w1)
      /\ textContent (errorElement cm1) = "请稍候..."
      /\ locked cm1
      /\ pending (next_timer_id world0) w1 = false
      /\ fire (next_timer_id world0 + 1) cm1 w1 = (Normal cm2, w2)
      /\ idle cm2
      /\ textContent (errorElement cm2) = EmptyString
      /\ timers w2 = timers world0
      /\ calls OnCooldownEnd (events w2) = S (calls OnCooldownEnd (events world0)).
Proof.
  split; [reflexivity |]. split; [reflexivity |]. split; [exact world0_fresh |].
  split; [reflexivity |].
  exact (cooldown_run_ends_at_rest 3 manager0 world0 eq_refl eq_refl world0_fresh eq_refl).
Defined.

Lemma interval_outlives_early_timeout_witness :
  activeCooldownTimer manager0 = None /\ activeCooldownTimeout manager0 = None
  /\ timers_fresh world0 /\ 0 < 3 /\ Z.of_nat 2 < 3
  /\ exists cm0 w0 cm1 cm2 w2,
      startFrontendCooldownTimers 3 manager0 world0 = (Normal cm0, w0)
      /\ fire_times 2 (next_timer_id world0) cm0 w0 = (Normal cm1, w0)
      /\ fire (next_timer_id world0 + 1) cm1 w0 = (Normal cm2, w2)
      /\ idle cm2
      /\ fire_times 5 (next_timer_id world0) cm2 w2 = (Normal cm2, w2)
      /\ pending (next_timer_id world0) w2 = true
      /\ pending (next_timer_id world0 + 1) w2 = false.
Proof.
  split; [reflexivity |]. split; [reflexivity |]. split; [exact world0_fresh |].
  split; [reflexivity |]. split; [reflexivity |].
  exact (interval_outlives_early_timeout 3 2 5 manager0 world0 eq_refl eq_refl
           world0_fresh eq_refl eq_refl).
Defined.

Lemma wrong_entry_starts_countdown_witness :
  cookie_name_ok (cookieName manager0) = true /\ jar_ok (cookies world0) = true
  /\ 0 <= clock world0 /\ 0 < cooldownSeconds manager0
  /\ clock world0 + cooldownSeconds manager0 * 1000 < year_10000
  /\ "wrong" <> EmptyString /\ "wrong" <> "secret"
  /\ exists cm' w',
      verifyPassword "wrong" "secret" manager0 world0 = (Normal cm', w')
      /\ locked cm'
      /\ value (inputElement cm') = EmptyString
      /\ textContent (errorElement cm') = wait_text (cooldownSeconds manager0)
      /\ textContent (buttonElement cm') = "请等待..."
      /\ countdown cm' = cooldownSeconds manager0 - 1
      /\ activeCooldownTimer cm' = Some (next_timer_id world0)
      /\ activeCooldownTimeout cm' = Some (next_timer_id world0 + 1)
      /\ timers w'
         = (without_timer (activeCooldownTimeout manager0)
              (without_timer (activeCooldownTimer manager0) (timers world0))
            ++ [mkTimer (next_timer_id world0) Repeating 1000 UpdateTimerDisplay])
           ++ [mkTimer (next_timer_id world0 + 1) Once (cooldownSeconds manager0 * 1000)
                 CooldownEnd]
      /\ cookie_writes (events w') = S (cookie_writes (events world0)).
Proof.
  destruct world0_facts as (H1 & H2 & H3 & H4 & H5).
  assert (H6 : "wrong" <> EmptyString) by discriminate.
  assert (H7 : "wrong" <> "secret") by discriminate.
  split; [exact H1 |]. split; [exact H2 |]. split; [exact H3 |]. split; [exact H4 |].
  split; [exact H5 |]. split; [exact H6 |]. split; [exact H7 |].
  exact (wrong_entry_starts_countdown "wrong" "secret" manager0 world0
           H1 H2 H3 H4 H5 H6 H7).
Defined.

Lemma correct_entry_puts_form_at_rest_witness :
  "secret" <> EmptyString
  /\ exists cm' w',
      verifyPassword "secret" "secret" manager1 world1 = (Normal cm', w')
      /\ idle cm'
      /\ textContent (errorElement cm') = EmptyString
      /\ value (inputElement cm') = value (inputElement manager1)
      /\ timers w'
         = without_timer (activeCooldownTimeout manager1)
             (without_timer (activeCooldownTimer manager1) (timers world1))
      /\ cookie_writes (events w') = S (cookie_writes (events world1))
      /\ events w'
         = Called OnSuccess
           :: CookieWritten
                (cookieName manager1
                 +:+ "=;expires=Thu, 01 Jan 1970 00:00:00 UTC;path=/")
           :: ConsoleLog "密码正确！" :: events world1.
Proof.
  assert (H : "secret" <> EmptyString) by discriminate.
  split; [exact H |].
  exact (correct_entry_puts_form_at_rest "secret" manager1 world1 H).
Defined.

End TimerRuns.

Section StorageRuns.
Import Browser Js Json Dom Common NewPage Observe Run.

Lemma loadUnlockedState_empty_entry_witness :
  localStorage (set_localStorage {[ "unlocked" := EmptyString ]} world0) !! "unlocked"
  = Some EmptyString
  /\ loadUnlockedState (H := reference) "unlocked" (VArray [])
       (set_localStorage {[ "unlocked" := EmptyString ]} world0)
     = (Normal (VArray []), set_localStorage {[ "unlocked" := EmptyString ]} world0).
Proof.
  split; [reflexivity |].
  exact (loadUnlockedState_empty_entry (rt := reference) "unlocked" (VArray [])
           (set_localStorage {[ "unlocked" := EmptyString ]} world0) eq_refl).
Defined.

Lemma loadUnlockedState_ignores_default_witness :
  localStorage (set_localStorage {[ "unlocked" := "[true,false]" ]} world0) !! "unlocked"
  = Some "[true,false]"
  /\ parse "[true,false]" = Normal (VArray [VBool true; VBool false])
  /\ loadUnlockedState (H := reference) "unlocked" VNull
       (set_localStorage {[ "unlocked" := "[true,false]" ]} world0)
     = (Normal (VArray [VBool true; VBool false]),
        set_localStorage {[ "unlocked" := "[true,false]" ]} world0)
  /\ loadUnlockedState (H := reference) "unlocked" (VArray [])
       (set_localStorage {[ "unlocked" := "[true,false]" ]} world0)
     = (Normal (VArray [VBool true; VBool false]),
        set_localStorage {[ "unlocked" := "[true,false]" ]} world0).
Proof.
  split; [reflexivity |]. split; [reflexivity |].
  exact (loadUnlockedState_ignores_default (rt := reference) "unlocked" VNull (VArray [])
           "[true,false]" (VArray [VBool true; VBool false])
           (set_localStorage {[ "unlocked" := "[true,false]" ]} world0) eq_refl eq_refl).
Defined.

Lemma saveUnlockedState_keeps_other_keys_witness :
  "levels" <> "unlocked"
  /\ localStorage
       (world_after (saveUnlockedState (H := reference) "unlocked" (VArray [VBool true]))
          (set_localStorage {[ "levels" := "[3]" ]} world0)) !! "levels"
     = localStorage (set_localStorage {[ "levels" := "[3]" ]} world0) !! "levels"
  /\ result_of (loadUnlockedState (H := reference) "levels" VNull)
       (world_after (saveUnlockedState (H := reference) "unlocked" (VArray [VBool true]))
          (set_localStorage {[ "levels" := "[3]" ]} world0))
     = result_of (loadUnlockedState (H := reference) "levels" VNull)
         (set_localStorage {[ "levels" := "[3]" ]} world0).
Proof.
  assert (H : "levels" <> "unlocked") by discriminate.
  split; [exact H |].
  pose proof (saveUnlockedState_keeps_other_keys (rt := reference) "unlocked" "levels"
                (VArray [VBool true]) VNull
                (set_localStorage {[ "levels" := "[3]" ]} world0) H) as (H1 & H2 & _).
  split; [exact H1 | exact H2].
Defined.

Lemma unserializable_state_loads_default_witness :
  stringify VUndefined = None
  /\ (exists e, parse "undefined" = Throw e)
  /\ localStorage (world_after (saveUnlockedState (H := reference) "unlocked" VUndefined) world0)
     !! "unlocked" = Some "undefined"
  /\ result_of (loadUnlockedState (H := reference) "unlocked" (VArray []))
       (world_after (saveUnlockedState (H := reference) "unlocked" VUndefined) world0)
     = Normal (VArray []).
Proof.
  assert (H2 : exists e, parse "undefined" = Throw e) by (eexists; reflexivity).
  split; [reflexivity |]. split; [exact H2 |].
  exact (unserializable_state_loads_default (rt := reference) "unlocked" VUndefined
           (VArray []) world0 eq_refl H2).
Defined.

Lemma loaded_key_decides_the_check_witness :
  parse (string_of_stringified (stringify (VObject [("finalKey", VString "abyss")])))
  = Normal (VObject [("finalKey", VString "abyss")])
  /\ lookup_property "finalKey" [("finalKey", VString "abyss")] = VString "abyss"
  /\ exists pg1 w1 pg2 pg3 w3,
      load (set_value "abyss" blank) world0 = (Normal pg1, w1)
      /\ fetch_settled (H := reference)
           (Responded
              (string_of_stringified (stringify (VObject [("finalKey", VString "abyss")]))))
           pg1 w1 = (Normal pg2, w1)
      /\ finalKey pg2 = VString "abyss"
      /\ errors_logged (events w1) = errors_logged (events world0)
      /\ checkFinalPassword pg2 w1 = (Normal pg3, w3)
      /\ timers w3
         = timers world0
           ++ [mkTimer (next_timer_id world0) Once 1000
                 (if String.eqb (value (set_value "abyss" blank)) "abyss"
                  then NavigateTo "/two/finalpage" else ResetInput)]
      /\ disabled (final_password pg3)
         = (if String.eqb (value (set_value "abyss" blank)) "abyss"
            then true else disabled (set_value "abyss" blank)).
Proof.
  assert (H1 : parse (string_of_stringified
                        (stringify (VObject [("finalKey", VString "abyss")])))
               = Normal (VObject [("finalKey", VString "abyss")]))
    by (vm_compute; reflexivity).
  split; [exact H1 |]. split; [reflexivity |].
  exact (loaded_key_decides_the_check (rt := reference) (set_value "abyss" blank)
           (string_of_stringified (stringify (VObject [("finalKey", VString "abyss")])))
           [("finalKey", VString "abyss")] "abyss" world0 H1 eq_refl).
Defined.

Lemma reset_after_wrong_key_witness :
  finalKey (mkPage (VString "abyss") (set_value "guess" blank))
  <> VString (value (final_password (mkPage (VString "abyss") (set_value "guess" blank))))
  /\ result_of (checkFinalPassword (mkPage (VString "abyss") (set_value "guess" blank))) world0
     = Normal (rejected_key_page (mkPage (VString "abyss") (set_value "guess" blank)))
  /\ value (final_password
              (resetInput
                 (rejected_key_page (mkPage (VString "abyss") (set_value "guess" blank)))))
     = EmptyString
  /\ resetInput (rejected_key_page (mkPage (VString "abyss") (set_value "guess" blank)))
     = resetInput (mkPage (VString "abyss") (set_value "guess" blank)).
Proof.
  assert (H1 : finalKey (mkPage (VString "abyss") (set_value "guess" blank))
               <> VString (value (final_password
                                    (mkPage (VString "abyss") (set_value "guess" blank)))))
    by discriminate.
  split; [exact H1 |]. split; [reflexivity |].
  pose proof (reset_after_wrong_key (mkPage (VString "abyss") (set_value "guess" blank))
                world0
                (rejected_key_page (mkPage (VString "abyss") (set_value "guess" blank)))
                H1 eq_refl) as (H2 & _ & _ & _ & _ & H3).
  split; [exact H2 | exact H3].
Defined.

End StorageRuns.

Section AudioRuns.
Import Js Dom Audio.

Lemma control_button_shows_state_witness :
  constructor true (mkOptions None (Some true) (Some Observe.blank))
  = (Normal tt, snd (constructor true (mkOptions None (Some true) (Some Observe.blank))))
  /\ opt_showControlButton (mkOptions None (Some true) (Some Observe.blank)) = Some true
  /\ opt_controlButton (mkOptions None (Some true) (Some Observe.blank)) = Some Observe.blank
  /\ exists b,
      controlButton
        (fst (steps [ControlClick true; PlayEvent; DocumentClick true]
                (snd (constructor true (mkOptions None (Some true) (Some Observe.blank))))))
      = Some b
      /\ textContent b
         = label (isPlaying
                    (fst (steps [ControlClick true; PlayEvent; DocumentClick true]
                            (snd (constructor true
                                    (mkOptions None (Some true) (Some Observe.blank))))))).
Proof.
  split; [reflexivity |]. split; [reflexivity |]. split; [reflexivity |].
  exact (control_button_shows_state true (mkOptions None (Some true) (Some Observe.blank))
           Observe.blank
           (snd (constructor true (mkOptions None (Some true) (Some Observe.blank))))
           [ControlClick true; PlayEvent; DocumentClick true] eq_refl eq_refl eq_refl).
Defined.

Lemma togglePlay_never_pauses_without_button_witness :
  constructor true (mkOptions None None None)
  = (Normal tt, snd (constructor true (mkOptions None None None)))
  /\ (or_false (opt_showControlButton (mkOptions None None None)) = false
      \/ opt_controlButton (mkOptions None None None) = None)
  /\ forallb (fun i => negb (is_CallPause i))
       [CallTogglePlay true; PlayEvent; CallTogglePlay true] = true
  /\ isPlaying
       (fst (steps [CallTogglePlay true; PlayEvent; CallTogglePlay true]
               (snd (constructor true (mkOptions None None None))))) = false
  /\ pauses
       (trace (snd (steps [CallTogglePlay true; PlayEvent; CallTogglePlay true]
                      (snd (constructor true (mkOptions None None None)))))) = O.
Proof.
  assert (H2 : or_false (opt_showControlButton (mkOptions None None None)) = false
               \/ opt_controlButton (mkOptions None None None) = None)
    by (left; reflexivity).
  split; [reflexivity |]. split; [exact H2 |]. split; [reflexivity |].
  exact (togglePlay_never_pauses_without_button true (mkOptions None None None) (Normal tt)
           (snd (constructor true (mkOptions None None None)))
           [CallTogglePlay true; PlayEvent; CallTogglePlay true] eq_refl H2 eq_refl).
Defined.

Lemma first_click_plays_at_most_once_witness :
  constructor true (mkOptions None None None)
  = (Normal tt, snd (constructor true (mkOptions None None None)))
  /\ (first_click_reports
        (trace (snd (steps [TimerFires; DocumentClick true; TimerFires; DocumentClick false]
                       (snd (constructor true (mkOptions None None None))))))
      <= (if not_false (opt_autoPlayOnFirstClick (mkOptions None None None))
          then 1 else 0))%nat.
Proof.
  split; [reflexivity |].
  exact (first_click_plays_at_most_once true (mkOptions None None None) (Normal tt)
           (snd (constructor true (mkOptions None None None)))
           [TimerFires; DocumentClick true; TimerFires; DocumentClick false] eq_refl).
Defined.

Lemma no_auto_play_after_playing_witness :
  played
    (fst (steps [TimerFires; ControlClick true; PlayEvent]
            (snd (constructor true (mkOptions None (Some true) (Some Observe.blank))))))
  = true
  /\ played
       (fst (steps [PauseEvent]
               (steps [TimerFires; ControlClick true; PlayEvent]
                  (snd (constructor true
                          (mkOptions None (Some true) (Some Observe.blank)))))))
     = true
  /\ trace
       (snd (step (DocumentClick true)
               (steps [PauseEvent]
                  (steps [TimerFires; ControlClick true; PlayEvent]
                     (snd (constructor true
                             (mkOptions None (Some true) (Some Observe.blank))))))))
     = trace
         (snd (steps [PauseEvent]
                 (steps [TimerFires; ControlClick true; PlayEvent]
                    (snd (constructor true
                            (mkOptions None (Some true) (Some Observe.blank))))))).
Proof.
  split; [reflexivity |].
  exact (no_auto_play_after_playing
           (steps [TimerFires; ControlClick true; PlayEvent]
              (snd (constructor true (mkOptions None (Some true) (Some Observe.blank)))))
           [PauseEvent] true eq_refl).
Defined.

Lemma missing_audio_element_witness :
  constructor false (mkOptions None (Some true) (Some Observe.blank))
  = (Throw (TypeError "Cannot read properties of null"),
     snd (constructor false (mkOptions None (Some true) (Some Observe.blank))))
  /\ (Throw (TypeError "Cannot read properties of null") = Normal tt
      <-> or_false (opt_showControlButton (mkOptions None (Some true) (Some Observe.blank)))
          = false
          \/ opt_controlButton (mkOptions None (Some true) (Some Observe.blank)) = None)
  /\ (Throw (TypeError "Cannot read properties of null") = Normal tt
      \/ exists msg, Throw (TypeError "Cannot read properties of null")
                     = Throw (A := unit) (TypeError msg))
  /\ plays
       (trace (snd (steps [ControlClick true; CallPlay; CallPause]
                      (snd (constructor false
                              (mkOptions None (Some true) (Some Observe.blank)))))))
     = O
  /\ pauses
       (trace (snd (steps [ControlClick true; CallPlay; CallPause]
                      (snd (constructor false
                              (mkOptions None (Some true) (Some Observe.blank)))))))
     = O.
Proof.
  split; [reflexivity |].
  exact (missing_audio_element (mkOptions None (Some true) (Some Observe.blank))
           (Throw (TypeError "Cannot read properties of null"))
           (snd (constructor false (mkOptions None (Some true) (Some Observe.blank))))
           [ControlClick true; CallPlay; CallPause] eq_refl).
Defined.

End AudioRuns.
